(** * presentAI: the slide-deck generator of [app.py]

    A shallow embedding of the deck generator: the colour themes
    ([THEMES], [apply_theme]), the file-name helper ([safe_filename]), the
    drawing helpers ("UI components"), the slide layouts (one for slides 1
    and 10, two for each of slides 2 to 9) and the [generate_ppt] view,
    followed by the properties of the design specification that this code
    decides.

    Conventions of the embedding.
    - Python [float]s are exact rationals ([Q]); a true division [a / b]
      raises [ZeroDivisionError] when [b] is zero, as in Python.
    - python-pptx lengths ([Inches], [Pt]) are kept as exact lengths in
      inches (the library converts to integer EMU, [Emu]), and the shape
      constructors the layouts call succeed.  The two checks of the
      library that an argument of an image helper can fail, the range of
      a text-frame margin and the decoding of a picture, are kept in the
      helpers of [Checked]; the layouts call the helpers at sizes that
      pass the first.
    - A Python [str] is the list of its code points.
    - The JSON document is typed: a key that is absent is [None], and a key
      that is present holds a value of the type the layouts expect.
    - A statement that may raise is a computation in the [result] monad;
      the slide under construction is passed explicitly.
    - The text and image services, the serialisation of python-pptx, the
      character classes of [re] and the database are parameters. *)

From Stdlib Require Import QArith Qminmax ZArith NArith List Ascii String DecimalString Lia Lqa.
From stdpp Require Import base option list gmap.

#[local] Open Scope Z_scope.

(** ** Python values *)

(** [str]: a sequence of Unicode code points. *)
Definition str : Type := list N.

(** An ASCII literal of the source. *)
Definition py (s : string) : str :=
  map N_of_ascii (list_ascii_of_string s).

(** [str(n)] for a non-negative [int]. *)
Definition str_of_int (n : nat) : str :=
  py (NilZero.string_of_uint (Nat.to_uint n)).

Definition bytes : Type := list Byte.byte.

(** The exceptions the modelled code can raise by itself, [ValueError]
    (the range check of a length) and any other. *)
Inductive exn : Type :=
  | KeyError
  | IndexError
  | ZeroDivisionError
  | AttributeError
  | ValueError
  | OtherError.

Inductive result (A : Type) : Type :=
  | Ok (a : A)
  | Raise (e : exn).
Arguments Ok {A} a.
Arguments Raise {A} e.

#[global] Instance result_ret : MRet result := fun _ a => Ok a.
#[global] Instance result_bind : MBind result := fun _ _ f m =>
  match m with
  | Ok a => f a
  | Raise e => Raise e
  end.

(** [d[k]]: subscripting a field that may be absent. *)
Definition subscript {A} (o : option A) : result A :=
  match o with
  | Some a => Ok a
  | None => Raise KeyError
  end.

(** [d.get(k, dflt)]. *)
Definition get_default {A} (o : option A) (dflt : A) : A :=
  match o with
  | Some a => a
  | None => dflt
  end.

(** [a / b] on numbers. *)
Definition truediv (a b : Q) : result Q :=
  if Qeq_bool b 0 then Raise ZeroDivisionError else Ok (a / b)%Q.

(** [x or y] where [x] is [None] or an object that is always true. *)
Definition or_else {A} (x : option A) (y : A) : A :=
  match x with
  | Some a => a
  | None => y
  end.

(** [for i, x in enumerate(l): body], threading the object [s] the body
    mutates; [i] is the index of the first element. *)
Fixpoint for_enumerate {A S} (body : nat -> A -> S -> result S)
    (i : nat) (l : list A) (s : S) : result S :=
  match l with
  | [] => Ok s
  | x :: r => s' ← body i x s; for_enumerate body (Datatypes.S i) r s'
  end.

(** ** Colours and themes *)

Record RGBColor : Type := RGB { red : Z; green : Z; blue : Z }.

#[global] Instance RGBColor_eq_dec : EqDecision RGBColor.
Proof. solve_decision. Defined.

Definition CHARCOAL := RGB 0x1A 0x1A 0x2E.
Definition SLATE := RGB 0x4A 0x55 0x68.
Definition MEDIUM_GRAY := RGB 0x94 0xA3 0xB8.
Definition WHITE := RGB 0xFF 0xFF 0xFF.
Definition CARD_BORDER := RGB 0xDD 0xDD 0xDD.
Definition CARD_RADIUS : Q := 0.04.

(** One entry of [THEMES]: the seven named colours. *)
Record Theme : Type := mkTheme {
  dark : RGBColor;
  primary : RGBColor;
  secondary : RGBColor;
  tertiary : RGBColor;
  light_bg : RGBColor;
  card_bg : RGBColor;
  card_alt : RGBColor
}.

Definition theme_indigo : Theme :=
  mkTheme (RGB 0x2D 0x00 0x4F) (RGB 0x4B 0x00 0x82)
          (RGB 0x8B 0x5C 0xF6) (RGB 0x6B 0x21 0xA8)
          (RGB 0xF8 0xF7 0xFC) (RGB 0xFF 0xFF 0xFF)
          (RGB 0xF3 0xF0 0xFA).
Definition theme_nature : Theme :=
  mkTheme (RGB 0x2D 0x5A 0x3A) (RGB 0x4A 0x7C 0x59)
          (RGB 0x8B 0x69 0x14) (RGB 0x5A 0x9E 0x6F)
          (RGB 0xFB 0xF9 0xF5) (RGB 0xFF 0xFF 0xFF)
          (RGB 0xF5 0xF2 0xEB).
Definition theme_moss : Theme :=
  mkTheme (RGB 0x3A 0x43 0x18) (RGB 0x56 0x61 0x29)
          (RGB 0x8B 0x73 0x55) (RGB 0x7A 0x8B 0x45)
          (RGB 0xF8 0xF9 0xF5) (RGB 0xFF 0xFF 0xFF)
          (RGB 0xF2 0xF3 0xEE).
Definition theme_navy : Theme :=
  mkTheme (RGB 0x0F 0x0A 0x3A) (RGB 0x1A 0x12 0x64)
          (RGB 0x4A 0x45 0xB0) (RGB 0x2E 0x28 0x90)
          (RGB 0xF7 0xF7 0xFC) (RGB 0xFF 0xFF 0xFF)
          (RGB 0xF0 0xF0 0xF8).

(** The dict [THEMES]. *)
Definition THEMES : gmap str Theme :=
  <[py "indigo" := theme_indigo]>
  (<[py "nature" := theme_nature]>
  (<[py "moss" := theme_moss]>
  (<[py "navy" := theme_navy]> ∅))).

(** The module-level colour variables that [apply_theme] assigns and the
    drawing code reads. *)
Record Globals : Type := mkGlobals {
  DEEP_NAVY : RGBColor;
  ROYAL_BLUE : RGBColor;
  WARM_CORAL : RGBColor;
  TEAL : RGBColor;
  SOFT_CREAM : RGBColor;
  LIGHT_BLUE_TINT : RGBColor;
  LIGHT_CORAL_TINT : RGBColor
}.

(** Their values when the module is loaded. *)
Definition initial_globals : Globals :=
  mkGlobals (RGB 0x0F 0x2B 0x46) (RGB 0x1E 0x5A 0xA8)
            (RGB 0xE8 0x63 0x4A) (RGB 0x1A 0x9E 0x8F)
            (RGB 0xFA 0xF8 0xF5) (RGB 0xED 0xF3 0xFA)
            (RGB 0xFD 0xF0 0xEE).

(** [t = THEMES.get(name, THEMES["indigo"])]; the subscript of the default
    is evaluated first and raises when the key is missing. *)
Definition lookup_theme (name : str) : result Theme :=
  dflt ← subscript (THEMES !! py "indigo");
  mret (get_default (THEMES !! name) dflt).

Definition apply_theme (name : str) (g : Globals) : result Globals :=
  t ← lookup_theme name;
  mret (mkGlobals (dark t) (primary t) (secondary t) (tertiary t)
                  (light_bg t) (card_bg t) (card_alt t)).

(** ** Helpers: [safe_filename] *)

(** The character classes of Python's [re] module are tables of the
    standard library: [re_w c] says that [c] matches [\w], [re_s c] that it
    matches [\s]. *)
Section SafeFilename.
Variable re_w : N -> bool.
Variable re_s : N -> bool.

Definition LF : N := 10.
Definition CR : N := 13.
Definition SPACE : N := 32.
Definition HYPHEN : N := 45.
Definition UNDERSCORE : N := 95.

(** [text.replace(old, new)] for one-character strings. *)
Definition replace_char (old new : N) (text : str) : str :=
  map (fun c => if N.eqb c old then new else c) text.

(** The class [[^\w\s-]]. *)
Definition stripped (c : N) : bool :=
  negb (re_w c || re_s c || N.eqb c HYPHEN).

(** [re.sub(r"[^\w\s-]", "", text)]. *)
Definition sub_strip (text : str) : str :=
  List.filter (fun c => negb (stripped c)) text.

(** [re.sub(r"\s+", "_", text)]: every maximal run of [\s] characters
    becomes one underscore; [in_run] says that the previous character
    belonged to the run being replaced. *)
Fixpoint sub_runs (in_run : bool) (text : str) : str :=
  match text with
  | [] => []
  | c :: rest =>
      if re_s c
      then (if in_run then sub_runs true rest
            else UNDERSCORE :: sub_runs true rest)
      else c :: sub_runs false rest
  end.

Definition sub_whitespace (text : str) : str := sub_runs false text.

Definition safe_filename (text : str) : str :=
  let text := replace_char CR SPACE (replace_char LF SPACE text) in
  let text := sub_strip text in
  let text := sub_whitespace text in
  match take 50 text with
  | [] => py "presentation"
  | t => t
  end.
End SafeFilename.

(** A classification of the ASCII range in the way of [re]: letters,
    digits and the underscore are [\w]; blank, tab, line feed, vertical
    tab, form feed, carriage return and the four separators 28..31 are
    [\s]. *)
Definition ascii_w (c : N) : bool :=
  ((48 <=? c) && (c <=? 57) || (65 <=? c) && (c <=? 90) ||
   (97 <=? c) && (c <=? 122) || (c =? 95))%N.
Definition ascii_s (c : N) : bool :=
  ((c =? 32) || (9 <=? c) && (c <=? 13) || (28 <=? c) && (c <=? 31))%N.

(** ** The presentation document *)

(** Lengths are rationals, in inches. *)
Definition Inches (x : Q) : Q := x.
Definition Pt (x : Q) : Q := (x / 72)%Q.

(** An [int] used as a number. *)
Definition float (z : Z) : Q := inject_Z z.

(** [len(l)]. *)
Definition len {A} (l : list A) : Z := Z.of_nat (length l).

(** [l[i]] on a list. *)
Definition item {A} (l : list A) (i : nat) : result A :=
  match l !! i with
  | Some a => Ok a
  | None => Raise IndexError
  end.

Inductive MSO_SHAPE : Type := RECTANGLE | ROUNDED_RECTANGLE | OVAL.
Inductive PP_ALIGN : Type := LEFT | CENTER | RIGHT.

(** A run of text; [bold] is [false] where the source leaves it unset. *)
Record Run : Type := mkRun {
  text : str;
  font_size : Q;
  bold : bool;
  font_color : RGBColor
}.

Record Paragraph : Type := mkParagraph {
  alignment : option PP_ALIGN;
  line_spacing : option Q;
  space_before : option Q;
  runs : list Run
}.

(** A text frame; a margin is [None] where the source leaves the default. *)
Record TextFrame : Type := mkTextFrame {
  word_wrap : bool;
  margin_left : option Q;
  margin_right : option Q;
  margin_top : option Q;
  margin_bottom : option Q;
  paragraphs : list Paragraph
}.

(** The outline of a shape: untouched, [line.fill.background()], or a
    colour and a width. *)
Inductive LineFormat : Type :=
  | LineDefault
  | LineBackground
  | LineSolid (color : RGBColor) (width : Q).

Inductive ShapeKind : Type :=
  | TextBox
  | AutoShape (t : MSO_SHAPE)
  | Picture (image : bytes).

Record Shape : Type := mkShape {
  kind : ShapeKind;
  sh_left : Q;
  sh_top : Q;
  sh_width : Q;
  sh_height : Q;
  fill : option RGBColor;
  line : LineFormat;
  adjustment : option Q;
  text_frame : option TextFrame
}.

Record Slide : Type := mkSlide {
  background : RGBColor;
  shapes : list Shape
}.

Record Presentation : Type := mkPresentation {
  slide_width : Q;
  slide_height : Q;
  slides : list Slide
}.

(** [tf.clear()] leaves one empty paragraph. *)
Definition paragraph (a : option PP_ALIGN) (rs : list Run) : Paragraph :=
  mkParagraph a None None rs.

(** A frame after [tf.clear()], with [word_wrap] and its paragraphs. *)
Definition frame (wrap : bool) (ps : list Paragraph) : TextFrame :=
  mkTextFrame wrap None None None None ps.

(** [slide.shapes.add_textbox(left, top, width, height)], with the text
    frame the caller then fills. *)
Definition add_textbox (slide : Slide) (l t w h : Q) (tf : TextFrame) : Slide :=
  mkSlide (background slide)
    (shapes slide ++ [mkShape TextBox l t w h None LineDefault None (Some tf)]).

(** [slide.shapes.add_shape(kind, left, top, width, height)], with the
    formatting the caller then sets. *)
Definition add_shape (slide : Slide) (k : MSO_SHAPE) (l t w h : Q)
    (fl : option RGBColor) (ln : LineFormat) (adj : option Q)
    (tf : option TextFrame) : Slide :=
  mkSlide (background slide)
    (shapes slide ++ [mkShape (AutoShape k) l t w h fl ln adj tf]).

(** [slide.shapes.add_picture(image, left, top, width, height)]. *)
Definition add_picture (slide : Slide) (image : bytes) (l t w h : Q) : Slide :=
  mkSlide (background slide)
    (shapes slide ++ [mkShape (Picture image) l t w h None LineDefault None None]).

(** ** Layout grid *)

#[local] Open Scope Q_scope.

Definition TOTAL_SLIDES : nat := 10.

Definition SW : Q := 13.333.
Definition SH : Q := 7.5.
Definition MG : Q := 0.60.
Definition CT : Q := 1.80.
Definition CW : Q := SW - 2 * MG.
Definition GAP : Q := 0.30.
Definition IMG_SZ : Q := 5.0.

Definition IMG_RX : Q := SW - MG - IMG_SZ.
Definition IMG_TOP : Q := CT.
Definition TXT_BW : Q := IMG_RX - MG - GAP.

Definition SIDE_W : Q := 5.0.
Definition SIDE_H : Q := SH.

(** ** UI components *)

(** The glyph ["  •  "] that starts a bullet. *)
Definition BULLET : str := [32; 32; 8226; 32; 32]%N.

(** The separator [" · "] of slide 8B. *)
Definition MIDDLE_DOT : str := [32; 183; 32]%N.

(** The fill of an image placeholder. *)
Definition PLACEHOLDER_GRAY : RGBColor := RGB 0xF0 0xF1 0xF5.

(** Setting the text frame of the shape a helper has just returned
    ([c = add_circle(...); ctf = c.text_frame; ...]). *)
Definition set_text_frame (slide : Slide) (tf : TextFrame) : Slide :=
  match reverse (shapes slide) with
  | [] => slide
  | s :: before =>
      mkSlide (background slide)
        (reverse before ++
         [mkShape (kind s) (sh_left s) (sh_top s) (sh_width s) (sh_height s)
                  (fill s) (line s) (adjustment s) (Some tf)])
  end.

(** [" sep ".join(l)]. *)
Fixpoint join (sep : str) (l : list str) : str :=
  match l with
  | [] => []
  | [x] => x
  | x :: r => (x ++ sep ++ join sep r)%list
  end.

Section Components.
(** The colour variables as [apply_theme] left them. *)
Variable g : Globals.

(** [_new_slide]: the slide that is appended to [prs]. *)
Definition _new_slide (bg_color : option RGBColor) : Slide :=
  mkSlide (or_else bg_color (SOFT_CREAM g)) [].

Definition add_slide_number (slide : Slide) (num total : nat) : Slide :=
  add_textbox slide (Inches (SW - MG - 1.0)) (Inches (SH - 0.55))
    (Inches 1.0) (Inches 0.35)
    (frame false
       [paragraph (Some RIGHT)
          [mkRun (str_of_int num ++ py " / " ++ str_of_int total)%list
                 (Pt 10) false MEDIUM_GRAY]]).

Definition add_accent_line (slide : Slide) (left top width : Q)
    (color : option RGBColor) : Slide :=
  add_shape slide RECTANGLE left top width (Inches 0.06)
    (Some (or_else color (WARM_CORAL g))) LineBackground None None.

Definition add_section_title (slide : Slide) (txt : str)
    (left top width : option Q) (color : option RGBColor)
    (align : PP_ALIGN) : Slide :=
  let l := or_else left (Inches MG) in
  let t := or_else top (Inches MG) in
  let w := or_else width (Inches CW) in
  add_textbox slide l t w (Inches 0.90)
    (frame true
       [paragraph (Some align)
          [mkRun txt (Pt 34) true (or_else color CHARCOAL)]]).

(** [add_section_title(slide, text)], all other arguments defaulted. *)
Definition section_title (slide : Slide) (txt : str) : Slide :=
  add_section_title slide txt None None None None LEFT.

Definition add_circle (slide : Slide) (left top size : Q)
    (color : RGBColor) : Slide :=
  add_shape slide OVAL left top size size (Some color) LineBackground
    None None.

(** The placeholder both image helpers draw when there is no image, for a
    height whose top margin python-pptx accepts ([Checked.placeholder]
    has the test). *)
Definition placeholder (slide : Slide) (left top width height : Q) : Slide :=
  add_shape slide RECTANGLE (Inches left) (Inches top)
    (Inches width) (Inches height)
    (Some PLACEHOLDER_GRAY) LineBackground None
    (Some (mkTextFrame true None None (Some (Inches (height / 2 - 0.3))) None
             [paragraph (Some CENTER)
                [mkRun (py "IMAGE") (Pt 16) false MEDIUM_GRAY]])).

(** [size] defaults to [IMG_SZ] in the source.  This is the helper as
    the layouts call it, at a size and with an image that pass the
    checks of python-pptx; [Checked.add_square_image] is the helper for
    every argument. *)
Definition add_square_image (slide : Slide) (image_bytes : option bytes)
    (left top size : Q) : Slide :=
  match image_bytes with
  | Some image =>
      add_picture slide image (Inches left) (Inches top)
        (Inches size) (Inches size)
  | None => placeholder slide left top size size
  end.

Definition bullet_paragraph (b_color t_color : RGBColor) (font_size : Q)
    (item : str) : Paragraph :=
  mkParagraph None (Some (Pt (Qmax (font_size + 8) 20))) (Some (Pt 5))
    [mkRun BULLET (Pt font_size) true b_color;
     mkRun item (Pt font_size) false t_color].

(** The first bullet fills the paragraph [tf.clear()] left, the others
    are added; without bullets the empty paragraph stays. *)
Definition add_bullet_text (slide : Slide) (left top width height : Q)
    (bullets : list str) (bullet_color : option RGBColor) (font_size : Q)
    (text_color : option RGBColor) : Slide :=
  let b_color := or_else bullet_color (ROYAL_BLUE g) in
  let t_color := or_else text_color SLATE in
  add_textbox slide left top width height
    (mkTextFrame true (Some (Inches 0.15)) (Some (Inches 0.15))
       (Some (Inches 0.10)) (Some (Inches 0.10))
       match bullets with
       | [] => [paragraph None []]
       | _ => map (bullet_paragraph b_color t_color font_size) bullets
       end).

Definition add_card (slide : Slide) (left top width height : Q)
    (bg_color accent_color : option RGBColor) : Slide :=
  let slide :=
    add_shape slide ROUNDED_RECTANGLE left top width height
      (Some (or_else bg_color WHITE)) (LineSolid CARD_BORDER (Pt 0.75))
      (Some CARD_RADIUS) None in
  match accent_color with
  | Some accent =>
      add_shape slide RECTANGLE (left + Inches 0.08) top
        (width - Inches 0.16) (Inches 0.07)
        (Some accent) LineBackground None None
  | None => slide
  end.

Definition add_card_with_bullets (slide : Slide) (left top width height : Q)
    (title : str) (bullets : list str)
    (bg_color accent_color title_color bullet_color : option RGBColor)
    : Slide :=
  let slide := add_card slide left top width height bg_color accent_color in
  let slide :=
    add_textbox slide (left + Inches 0.20) (top + Inches 0.15)
      (width - Inches 0.40) (Inches 0.50)
      (frame true
         [paragraph None
            [mkRun title (Pt 18) true (or_else title_color CHARCOAL)]]) in
  add_bullet_text slide (left + Inches 0.15) (top + Inches 0.60)
    (width - Inches 0.30) (height - Inches 0.70) bullets
    (Some (or_else bullet_color (or_else accent_color (ROYAL_BLUE g))))
    13 None.

(** [width] and [height] default to [SIDE_W] and [SIDE_H], [side] to
    ["left"].  As for [add_square_image], this is the helper where the
    checks of python-pptx pass, and [Checked.add_side_image] the helper
    for every argument. *)
Definition add_side_image (slide : Slide) (image_bytes : option bytes)
    (side : str) (width height : Q) : Slide :=
  let left := if decide (side = py "left") then 0.0 else SW - width in
  match image_bytes with
  | Some image =>
      add_picture slide image (Inches left) (Inches 0)
        (Inches width) (Inches height)
  | None => placeholder slide left 0 width height
  end.

Definition add_dot_badge (slide : Slide) (left top : Q)
    (color : option RGBColor) : Slide :=
  add_shape slide OVAL left top (Inches 0.12) (Inches 0.12)
    (Some (or_else color (WARM_CORAL g))) LineBackground None None.

Definition add_card_left_accent (slide : Slide) (left top width height : Q)
    (bg_color accent_color : option RGBColor) : Slide :=
  let slide :=
    add_shape slide ROUNDED_RECTANGLE left top width height
      (Some (or_else bg_color WHITE)) (LineSolid CARD_BORDER (Pt 0.75))
      (Some CARD_RADIUS) None in
  match accent_color with
  | Some accent =>
      add_shape slide RECTANGLE left (top + Inches 0.08)
        (Inches 0.07) (height - Inches 0.16)
        (Some accent) LineBackground None None
  | None => slide
  end.
End Components.

(** ** The image helpers with the checks of python-pptx

    python-pptx keeps a length as a whole number of English Metric
    Units, 914400 to the inch: [Inches(x)] is [int(x * 914400)].  The
    position and the size of a new shape are written as they come, but
    the setter of a text-frame margin takes a signed 32-bit number only
    and raises [ValueError] for any other, and [add_picture] raises when
    the image is not one it can read. *)

Definition EMUS_PER_INCH : Z := 914400.

(** [int(x)] on a number: the digits after the point are dropped. *)
Definition int (x : Q) : Z := Z.quot (Qnum x) (Z.pos (Qden x)).

(** The value of [Inches(x)], in EMU. *)
Definition Emu (x : Q) : Z := int (x * inject_Z EMUS_PER_INCH).

Definition INT32_MIN : Z := (-2147483648)%Z.
Definition INT32_MAX : Z := 2147483647%Z.

(** The test of the margin setters on [Inches(x)]. *)
Definition margin_accepted (x : Q) : bool :=
  ((INT32_MIN <=? Emu x) && (Emu x <=? INT32_MAX))%Z.

(** [tf.margin_top = Inches(x)]: the margin the frame then has. *)
Definition set_margin_top (x : Q) : result Q :=
  if margin_accepted x then Ok (Inches x) else Raise ValueError.

Module Checked.
Section ImageHelpers.
(** The image library: the exception [add_picture] raises on an image,
    [None] for an image it reads. *)
Variable picture_error : bytes -> option exn.

Definition add_picture (slide : Slide) (image : bytes) (l t w h : Q)
    : result Slide :=
  match picture_error image with
  | Some e => Raise e
  | None =>
      Ok (mkSlide (background slide)
            (shapes slide ++
             [mkShape (Picture image) l t w h None LineDefault None None]))
  end.

(** The [else] branch of both helpers: the rectangle, then its text
    frame, whose top margin is set before the run is added. *)
Definition placeholder (slide : Slide) (left top width height : Q)
    : result Slide :=
  margin ← set_margin_top (height / 2 - 0.3);
  mret (add_shape slide RECTANGLE (Inches left) (Inches top)
          (Inches width) (Inches height)
          (Some PLACEHOLDER_GRAY) LineBackground None
          (Some (mkTextFrame true None None (Some margin) None
                   [paragraph (Some CENTER)
                      [mkRun (py "IMAGE") (Pt 16) false MEDIUM_GRAY]]))).

Definition add_square_image (slide : Slide) (image_bytes : option bytes)
    (left top size : Q) : result Slide :=
  match image_bytes with
  | Some image =>
      add_picture slide image (Inches left) (Inches top)
        (Inches size) (Inches size)
  | None => placeholder slide left top size size
  end.

Definition add_side_image (slide : Slide) (image_bytes : option bytes)
    (side : str) (width height : Q) : result Slide :=
  let left := if decide (side = py "left") then 0.0 else SW - width in
  match image_bytes with
  | Some image =>
      add_picture slide image (Inches left) (Inches 0)
        (Inches width) (Inches height)
  | None => placeholder slide left 0 width height
  end.
End ImageHelpers.
End Checked.

(** ** The content document *)

(** A card or a step: [{"title": ..., "bullets": [...]}]; a field is
    [None] when the key is absent. *)
Record Card : Type := mkCard {
  c_title : option str;
  c_bullets : option (list str)
}.

(** One element of [content["slides"]], with the keys the layouts read. *)
Record SlideData : Type := mkSlideData {
  d_slide : option Z;
  d_title : option str;
  d_cards : option (list Card);
  d_bullets : option (list str);
  d_image_prompt : option str;
  d_stat_number : option str;
  d_stat_label : option str;
  d_left : option Card;
  d_right : option Card;
  d_steps : option (list Card)
}.

(** ** Slide layouts *)

(** The loop index [i] used as a number. *)
Definition idx (i : nat) : Q := float (Z.of_nat i).

Section Layouts.
Variable g : Globals.

Definition slide_1_hero_title (title subtitle : str)
    (image_bytes : option bytes) : Slide :=
  let slide := _new_slide g (Some (SOFT_CREAM g)) in
  let slide := add_side_image slide image_bytes (py "left") SIDE_W SIDE_H in
  let text_left := SIDE_W + 1.00 in
  let text_w := SW - text_left - 0.80 in
  let slide :=
    add_shape slide RECTANGLE (Inches text_left) (Inches 2.40)
      (Inches 2.80) (Inches 0.08)
      (Some (WARM_CORAL g)) LineBackground None None in
  let slide :=
    add_textbox slide (Inches text_left) (Inches 2.70)
      (Inches text_w) (Inches 2.60)
      (frame true
         [mkParagraph (Some LEFT) (Some (Pt 52)) None
            [mkRun title (Pt 42) true CHARCOAL]]) in
  let slide :=
    match subtitle with
    | [] => slide
    | _ =>
        add_textbox slide (Inches text_left) (Inches 5.70)
          (Inches text_w) (Inches 0.80)
          (frame true
             [paragraph (Some LEFT) [mkRun subtitle (Pt 20) false SLATE]])
    end in
  add_slide_number slide 1 TOTAL_SLIDES.

Definition slide_2a_dot_badge_rows (data : SlideData) : result Slide :=
  let slide := _new_slide g None in
  title ← subscript (d_title data);
  let slide := section_title slide title in
  all_cards ← subscript (d_cards data);
  let cards := take 3 all_cards in
  let row_h := 1.55 in
  let row_gap := 0.20 in
  let colors := [ROYAL_BLUE g; WARM_CORAL g; TEAL g] in
  slide ← for_enumerate (fun i c slide =>
    let y := CT + idx i * (row_h + row_gap) in
    color ← item colors (i mod 3);
    let slide :=
      add_dot_badge g slide (Inches (MG + 0.02)) (Inches (y + 0.07))
        (Some color) in
    c_t ← subscript (c_title c);
    let slide :=
      add_textbox slide (Inches (MG + 0.28)) (Inches y)
        (Inches (CW - 0.28)) (Inches 0.40)
        (frame true [paragraph None [mkRun c_t (Pt 18) true CHARCOAL]]) in
    c_b ← subscript (c_bullets c);
    mret (add_bullet_text g slide (Inches (MG + 0.28)) (Inches (y + 0.42))
            (Inches (CW - 0.28)) (Inches (row_h - 0.45))
            c_b (Some color) 13 None)) 0%nat cards slide;
  mret (add_slide_number slide 2 TOTAL_SLIDES).

Definition slide_2b_left_accent_cards (data : SlideData) : result Slide :=
  let slide := _new_slide g None in
  title ← subscript (d_title data);
  let slide := section_title slide title in
  all_cards ← subscript (d_cards data);
  let cards := take 3 all_cards in
  let n := len cards in
  let card_gap := 0.20 in
  h ← truediv (SH - CT - MG - float (n - 1) * card_gap) (float n);
  let card_h := Qmin h 1.60 in
  let colors := [ROYAL_BLUE g; WARM_CORAL g; TEAL g] in
  slide ← for_enumerate (fun i c slide =>
    let y := CT + idx i * (card_h + card_gap) in
    color ← item colors (i mod 3);
    let slide :=
      add_card_left_accent slide (Inches MG) (Inches y)
        (Inches CW) (Inches card_h) (Some WHITE) (Some color) in
    c_t ← subscript (c_title c);
    let slide :=
      add_textbox slide (Inches (MG + 0.30)) (Inches (y + 0.12))
        (Inches (CW - 0.50)) (Inches 0.40)
        (frame true [paragraph None [mkRun c_t (Pt 17) true CHARCOAL]]) in
    c_b ← subscript (c_bullets c);
    mret (add_bullet_text g slide (Inches (MG + 0.25)) (Inches (y + 0.50))
            (Inches (CW - 0.45)) (Inches (card_h - 0.60))
            c_b (Some color) 13 None)) 0%nat cards slide;
  mret (add_slide_number slide 2 TOTAL_SLIDES).

Definition slide_3a_three_cards_row (data : SlideData) : result Slide :=
  let slide := _new_slide g None in
  title ← subscript (d_title data);
  let slide := section_title slide title in
  all_cards ← subscript (d_cards data);
  let cards := take 3 all_cards in
  let n := len cards in
  card_w ← truediv (CW - float (n - 1) * GAP) (float n);
  let card_h := 5.00 in
  let colors := [ROYAL_BLUE g; WARM_CORAL g; TEAL g] in
  let fills := [WHITE; WHITE; WHITE] in
  slide ← for_enumerate (fun i c slide =>
    let x := MG + idx i * (card_w + GAP) in
    c_t ← subscript (c_title c);
    c_b ← subscript (c_bullets c);
    bg ← item fills i;
    accent ← item colors (i mod 3);
    mret (add_card_with_bullets g slide (Inches x) (Inches CT)
            (Inches card_w) (Inches card_h) c_t c_b
            (Some bg) (Some accent) None None)) 0%nat cards slide;
  mret (add_slide_number slide 3 TOTAL_SLIDES).

Definition slide_3b_four_cards_row (data : SlideData) : result Slide :=
  let slide := _new_slide g None in
  title ← subscript (d_title data);
  let slide := section_title slide title in
  all_cards ← subscript (d_cards data);
  let cards := take 4 all_cards in
  let n := Z.min (len cards) 4 in
  card_w ← truediv (CW - float (n - 1) * GAP) (float n);
  let card_h := 5.00 in
  let colors := [ROYAL_BLUE g; WARM_CORAL g; TEAL g; ROYAL_BLUE g] in
  let fills := [LIGHT_BLUE_TINT g; LIGHT_CORAL_TINT g;
                LIGHT_BLUE_TINT g; LIGHT_CORAL_TINT g] in
  slide ← for_enumerate (fun i c slide =>
    let x := MG + idx i * (card_w + GAP) in
    c_t ← subscript (c_title c);
    c_b ← subscript (c_bullets c);
    bg ← item fills i;
    accent ← item colors (i mod 4);
    mret (add_card_with_bullets g slide (Inches x) (Inches CT)
            (Inches card_w) (Inches card_h) c_t c_b
            (Some bg) (Some accent) None None))
    0%nat (take (Z.to_nat n) cards) slide;
  mret (add_slide_number slide 3 TOTAL_SLIDES).

Definition slide_4a_image_left_bullets (data : SlideData)
    (image_bytes : option bytes) : result Slide :=
  let slide := _new_slide g None in
  title ← subscript (d_title data);
  let slide := section_title slide title in
  let slide := add_square_image slide image_bytes MG CT IMG_SZ in
  let txt_x := MG + IMG_SZ + GAP in
  bullets ← subscript (d_bullets data);
  let slide :=
    add_bullet_text g slide (Inches txt_x) (Inches CT)
      (Inches TXT_BW) (Inches 5.00) bullets (Some (WARM_CORAL g)) 15 None in
  mret (add_slide_number slide 4 TOTAL_SLIDES).

Definition slide_4b_bullets_image_right (data : SlideData)
    (image_bytes : option bytes) : result Slide :=
  let slide := _new_slide g None in
  title ← subscript (d_title data);
  let slide := section_title slide title in
  let slide := add_square_image slide image_bytes IMG_RX IMG_TOP IMG_SZ in
  bullets ← subscript (d_bullets data);
  let slide :=
    add_bullet_text g slide (Inches MG) (Inches CT)
      (Inches TXT_BW) (Inches 5.00) bullets (Some (WARM_CORAL g)) 15 None in
  mret (add_slide_number slide 4 TOTAL_SLIDES).

Definition slide_5a_grid_badges (data : SlideData) : result Slide :=
  let slide := _new_slide g None in
  title ← subscript (d_title data);
  let slide := section_title slide title in
  all_cards ← subscript (d_cards data);
  let cards := take 4 all_cards in
  let card_w := (CW - GAP) / 2 in
  let v_gap := 0.24 in
  let card_h := (5.00 - v_gap) / 2 in
  let positions :=
    [(MG, CT);
     (MG + card_w + GAP, CT);
     (MG, CT + card_h + v_gap);
     (MG + card_w + GAP, CT + card_h + v_gap)] in
  let accent_colors := [TEAL g; TEAL g; TEAL g; TEAL g] in
  let fills := [WHITE; LIGHT_BLUE_TINT g; LIGHT_BLUE_TINT g; WHITE] in
  slide ← for_enumerate (fun i c slide =>
    '(lx, ly) ← item positions i;
    c_t ← subscript (c_title c);
    c_b ← subscript (c_bullets c);
    bg ← item fills i;
    accent ← item accent_colors i;
    let slide :=
      add_card_with_bullets g slide (Inches lx) (Inches ly)
        (Inches card_w) (Inches card_h) c_t c_b
        (Some bg) (Some accent) None None in
    let slide :=
      add_circle slide (Inches (lx + card_w - 0.55)) (Inches (ly + 0.10))
        (Inches 0.40) (TEAL g) in
    mret (set_text_frame slide
            (frame false
               [paragraph (Some CENTER)
                  [mkRun (str_of_int (i + 1)) (Pt 14) true WHITE]])))
    0%nat cards slide;
  mret (add_slide_number slide 5 TOTAL_SLIDES).

Definition slide_5b_stat_columns (data : SlideData) : result Slide :=
  let slide := _new_slide g None in
  title ← subscript (d_title data);
  let slide := section_title slide title in
  all_cards ← subscript (d_cards data);
  let cards := take 4 all_cards in
  let n := len cards in
  card_w ← truediv (CW - float (n - 1) * GAP) (float n);
  let card_h := 5.00 in
  let colors := [ROYAL_BLUE g; WARM_CORAL g; TEAL g; ROYAL_BLUE g] in
  slide ← for_enumerate (fun i c slide =>
    let x := MG + idx i * (card_w + GAP) in
    color ← item colors (i mod 4);
    let slide :=
      add_card slide (Inches x) (Inches CT) (Inches card_w) (Inches card_h)
        (Some WHITE) (Some color) in
    title_text ← subscript (c_title c);
    let title_sz := if (len title_text <=? 25)%Z then 20 else 16 in
    let slide :=
      add_textbox slide (Inches (x + 0.15)) (Inches (CT + 0.20))
        (Inches (card_w - 0.30)) (Inches 0.65)
        (frame true
           [paragraph (Some CENTER)
              [mkRun title_text (Pt title_sz) true color]]) in
    let line_w := Qmin 0.8 (card_w * 0.35) in
    let line_y := CT + 0.95 in
    let slide :=
      add_accent_line g slide (Inches (x + (card_w - line_w) / 2))
        (Inches line_y) (Inches line_w) (Some color) in
    c_b ← subscript (c_bullets c);
    mret (add_bullet_text g slide (Inches (x + 0.10)) (Inches (line_y + 0.18))
            (Inches (card_w - 0.20))
            (Inches (card_h - (line_y - CT) - 0.33))
            c_b (Some color) 12 None)) 0%nat cards slide;
  mret (add_slide_number slide 5 TOTAL_SLIDES).

(** The dark banner at the bottom of slides 6A and 6B, with the
    statistic in two runs. *)
Definition stat_banner (slide : Slide) (data : SlideData)
    (banner_top banner_h : Q) : Slide :=
  add_shape slide RECTANGLE (Inches 0) (Inches banner_top)
    (Inches SW) (Inches banner_h)
    (Some (DEEP_NAVY g)) LineBackground None
    (Some (mkTextFrame true (Some (Inches MG)) None (Some (Inches 0.28)) None
             [paragraph (Some LEFT)
                [mkRun (get_default (d_stat_number data) []) (Pt 28) true
                       (WARM_CORAL g);
                 mkRun (py "  " ++ get_default (d_stat_label data) [])%list
                       (Pt 18) false WHITE]])).

Definition slide_6a_bullets_banner (data : SlideData)
    (image_bytes : option bytes) : result Slide :=
  let slide := _new_slide g None in
  title ← subscript (d_title data);
  let slide := section_title slide title in
  let banner_h := 1.10 in
  let banner_top := SH - banner_h in
  let img_sz := 4.50 in
  let slide := add_square_image slide image_bytes MG CT img_sz in
  let txt_x := MG + img_sz + GAP in
  let txt_w := SW - txt_x - MG in
  let bullet_h := banner_top - CT - 0.20 in
  bullets ← subscript (d_bullets data);
  let slide :=
    add_bullet_text g slide (Inches txt_x) (Inches CT)
      (Inches txt_w) (Inches bullet_h) bullets (Some (ROYAL_BLUE g)) 15 None in
  let slide := stat_banner slide data banner_top banner_h in
  mret (add_slide_number slide 6 TOTAL_SLIDES).

Definition slide_6b_cards_banner (data : SlideData)
    (image_bytes : option bytes) : result Slide :=
  let slide := _new_slide g None in
  title ← subscript (d_title data);
  let slide := section_title slide title in
  let banner_h := 1.10 in
  let banner_top := SH - banner_h in
  let img_sz := 4.50 in
  let slide := add_square_image slide image_bytes IMG_RX IMG_TOP img_sz in
  let card_w := IMG_RX - MG - GAP in
  bullets ← subscript (d_bullets data);
  let n := Z.min (len bullets) 5 in
  let avail_h := banner_top - CT - 0.20 in
  let card_gap := 0.15 in
  h ← truediv (avail_h - float (n - 1) * card_gap) (float n);
  let card_h := Qmin h 0.80 in
  let colors := [ROYAL_BLUE g; WARM_CORAL g; TEAL g; ROYAL_BLUE g;
                 WARM_CORAL g] in
  slide ← for_enumerate (fun i bullet slide =>
    let y := CT + idx i * (card_h + card_gap) in
    accent ← item colors (i mod 5);
    let slide :=
      add_card slide (Inches MG) (Inches y) (Inches card_w) (Inches card_h)
        (Some WHITE) (Some accent) in
    b_color ← item colors (i mod 5);
    mret (add_textbox slide (Inches (MG + 0.25)) (Inches (y + 0.12))
            (Inches (card_w - 0.50)) (Inches (card_h - 0.24))
            (frame true
               [paragraph None
                  [mkRun BULLET (Pt 15) true b_color;
                   mkRun bullet (Pt 15) false SLATE]])))
    0%nat (take (Z.to_nat n) bullets) slide;
  let slide := stat_banner slide data banner_top banner_h in
  mret (add_slide_number slide 6 TOTAL_SLIDES).

Definition slide_7a_two_cards (data : SlideData) : result Slide :=
  let slide := _new_slide g None in
  title ← subscript (d_title data);
  let slide := section_title slide title in
  let card_w := (CW - GAP) / 2 in
  let card_h := 5.00 in
  left_data ← subscript (d_left data);
  l_t ← subscript (c_title left_data);
  l_b ← subscript (c_bullets left_data);
  let slide :=
    add_card_with_bullets g slide (Inches MG) (Inches CT)
      (Inches card_w) (Inches card_h) l_t l_b
      (Some (LIGHT_BLUE_TINT g)) (Some (ROYAL_BLUE g)) None
      (Some (ROYAL_BLUE g)) in
  right_data ← subscript (d_right data);
  r_t ← subscript (c_title right_data);
  r_b ← subscript (c_bullets right_data);
  let slide :=
    add_card_with_bullets g slide (Inches (MG + card_w + GAP)) (Inches CT)
      (Inches card_w) (Inches card_h) r_t r_b
      (Some (LIGHT_CORAL_TINT g)) (Some (WARM_CORAL g)) None
      (Some (WARM_CORAL g)) in
  mret (add_slide_number slide 7 TOTAL_SLIDES).

(** One column of slide 7B: the rows of [bullets] from [row_start] on,
    [row_h] apart, each after the first under a divider line. *)
Definition grid_rows (slide : Slide) (x card_w row_start row_h : Q)
    (color : RGBColor) (bullets : list str) : result Slide :=
  for_enumerate (fun j b slide =>
    let y := row_start + idx j * row_h in
    let slide :=
      if (0 <? j)%nat
      then add_shape slide RECTANGLE (Inches (x + 0.15)) (Inches y)
             (Inches (card_w - 0.30)) (Pt 0.75)
             (Some CARD_BORDER) LineBackground None None
      else slide in
    mret (add_textbox slide (Inches (x + 0.25)) (Inches (y + 0.06))
            (Inches (card_w - 0.50)) (Inches (row_h - 0.08))
            (frame true
               [paragraph None
                  [mkRun BULLET (Pt 13) true color;
                   mkRun b (Pt 13) false SLATE]])))
    0%nat bullets slide.

Definition slide_7b_grid_table (data : SlideData) : result Slide :=
  let slide := _new_slide g None in
  title ← subscript (d_title data);
  let slide := section_title slide title in
  left_data ← subscript (d_left data);
  right_data ← subscript (d_right data);
  let card_w := (CW - GAP) / 2 in
  let card_h := 5.00 in
  let slide :=
    add_shape slide ROUNDED_RECTANGLE (Inches MG) (Inches CT)
      (Inches card_w) (Inches card_h)
      (Some (LIGHT_BLUE_TINT g)) (LineSolid CARD_BORDER (Pt 0.75))
      (Some CARD_RADIUS) None in
  l_t ← subscript (c_title left_data);
  let slide :=
    add_textbox slide (Inches (MG + 0.25)) (Inches (CT + 0.20))
      (Inches (card_w - 0.50)) (Inches 0.50)
      (frame true [paragraph None [mkRun l_t (Pt 18) true (ROYAL_BLUE g)]]) in
  bullets_l ← subscript (c_bullets left_data);
  let row_start := CT + 0.80 in
  row_h ← truediv (card_h - 1.00) (float (Z.max (len bullets_l) 1));
  slide ← grid_rows slide MG card_w row_start row_h (ROYAL_BLUE g) bullets_l;
  let rx := MG + card_w + GAP in
  let slide :=
    add_shape slide ROUNDED_RECTANGLE (Inches rx) (Inches CT)
      (Inches card_w) (Inches card_h)
      (Some (LIGHT_CORAL_TINT g)) (LineSolid CARD_BORDER (Pt 0.75))
      (Some CARD_RADIUS) None in
  r_t ← subscript (c_title right_data);
  let slide :=
    add_textbox slide (Inches (rx + 0.25)) (Inches (CT + 0.20))
      (Inches (card_w - 0.50)) (Inches 0.50)
      (frame true [paragraph None [mkRun r_t (Pt 18) true (WARM_CORAL g)]]) in
  bullets_r ← subscript (c_bullets right_data);
  slide ← grid_rows slide rx card_w row_start row_h (WARM_CORAL g) bullets_r;
  mret (add_slide_number slide 7 TOTAL_SLIDES).

(** The number in a circle: [str(i + 1)], centred, bold and white. *)
Definition circle_label (i : nat) (size : Q) : TextFrame :=
  frame false
    [paragraph (Some CENTER) [mkRun (str_of_int (i + 1)) (Pt size) true WHITE]].

Definition slide_8a_timeline (data : SlideData) : result Slide :=
  let slide := _new_slide g (Some (LIGHT_BLUE_TINT g)) in
  title ← subscript (d_title data);
  let slide := section_title slide title in
  all_steps ← subscript (d_steps data);
  let steps := take 4 all_steps in
  let n := len steps in
  step_w ← truediv CW (float n);
  let line_y := 2.87 in
  let slide :=
    add_shape slide RECTANGLE (Inches (MG + 0.40)) (Inches line_y)
      (Inches (CW - 0.80)) (Inches 0.06)
      (Some MEDIUM_GRAY) LineBackground None None in
  let colors := [ROYAL_BLUE g; WARM_CORAL g; TEAL g; ROYAL_BLUE g] in
  slide ← for_enumerate (fun i step slide =>
    let col_left := MG + idx i * step_w in
    let cx := col_left + step_w / 2 - 0.25 in
    color ← item colors (i mod 4);
    let slide :=
      add_circle slide (Inches cx) (Inches (line_y - 0.10)) (Inches 0.50)
        color in
    let slide := set_text_frame slide (circle_label i 16) in
    s_t ← subscript (c_title step);
    let slide :=
      add_textbox slide (Inches col_left) (Inches 3.40)
        (Inches step_w) (Inches 0.50)
        (frame true
           [paragraph (Some CENTER) [mkRun s_t (Pt 14) true CHARCOAL]]) in
    s_b ← subscript (c_bullets step);
    b_color ← item colors (i mod 4);
    mret (add_bullet_text g slide (Inches col_left) (Inches 4.00)
            (Inches step_w) (Inches 2.80) s_b (Some b_color) 12 None))
    0%nat steps slide;
  mret (add_slide_number slide 8 TOTAL_SLIDES).

Definition slide_8b_step_cards (data : SlideData) : result Slide :=
  let slide := _new_slide g (Some (LIGHT_BLUE_TINT g)) in
  title ← subscript (d_title data);
  let slide := section_title slide title in
  all_steps ← subscript (d_steps data);
  let steps := take 4 all_steps in
  let n := len steps in
  let card_gap := 0.20 in
  h ← truediv (5.00 - float (n - 1) * card_gap) (float n);
  let card_h := Qmin h 1.10 in
  let colors := [ROYAL_BLUE g; WARM_CORAL g; TEAL g; ROYAL_BLUE g] in
  slide ← for_enumerate (fun i step slide =>
    let y := CT + idx i * (card_h + card_gap) in
    accent ← item colors (i mod 4);
    let slide :=
      add_card slide (Inches (MG + 0.65)) (Inches y)
        (Inches (CW - 0.65)) (Inches card_h) (Some WHITE) (Some accent) in
    s_t ← subscript (c_title step);
    let slide :=
      add_textbox slide (Inches (MG + 0.85)) (Inches (y + 0.10))
        (Inches (CW - 1.10)) (Inches 0.35)
        (frame true [paragraph None [mkRun s_t (Pt 14) true CHARCOAL]]) in
    s_b ← subscript (c_bullets step);
    let btext := join MIDDLE_DOT s_b in
    let slide :=
      add_textbox slide (Inches (MG + 0.85)) (Inches (y + 0.42))
        (Inches (CW - 1.10)) (Inches (card_h - 0.52))
        (frame true [paragraph None [mkRun btext (Pt 12) false SLATE]]) in
    color ← item colors (i mod 4);
    let slide :=
      add_circle slide (Inches MG) (Inches (y + card_h / 2 - 0.25))
        (Inches 0.50) color in
    mret (set_text_frame slide (circle_label i 16)))
    0%nat steps slide;
  mret (add_slide_number slide 8 TOTAL_SLIDES).

Definition slide_9a_stat_image (data : SlideData)
    (image_bytes : option bytes) : result Slide :=
  let slide := _new_slide g None in
  title ← subscript (d_title data);
  let slide := section_title slide title in
  let slide := add_square_image slide image_bytes IMG_RX IMG_TOP IMG_SZ in
  let text_w := TXT_BW in
  let slide :=
    add_textbox slide (Inches MG) (Inches CT) (Inches text_w) (Inches 1.50)
      (frame true
         [paragraph None
            [mkRun (get_default (d_stat_number data) []) (Pt 64) true
                   (WARM_CORAL g)];
          paragraph None
            [mkRun (get_default (d_stat_label data) []) (Pt 18) false
                   SLATE]]) in
  bullets ← subscript (d_bullets data);
  let slide :=
    add_bullet_text g slide (Inches MG) (Inches (CT + 2.20))
      (Inches text_w) (Inches 2.80) bullets (Some (TEAL g)) 14 None in
  mret (add_slide_number slide 9 TOTAL_SLIDES).

Definition slide_9b_quote_image (data : SlideData)
    (image_bytes : option bytes) : result Slide :=
  let slide := _new_slide g None in
  title ← subscript (d_title data);
  let slide := section_title slide title in
  let slide := add_square_image slide image_bytes IMG_RX IMG_TOP IMG_SZ in
  let text_w := TXT_BW in
  let quote :=
    (get_default (d_stat_number data) [] ++ py " " ++
     get_default (d_stat_label data) [])%list in
  let slide :=
    add_shape slide RECTANGLE (Inches MG) (Inches (CT + 0.10))
      (Pt 5) (Inches 1.80)
      (Some (WARM_CORAL g)) LineBackground None None in
  let slide :=
    add_textbox slide (Inches (MG + 0.30)) (Inches CT)
      (Inches (text_w - 0.30)) (Inches 2.00)
      (frame true [paragraph None [mkRun quote (Pt 28) true CHARCOAL]]) in
  bullets ← subscript (d_bullets data);
  let slide :=
    add_bullet_text g slide (Inches MG) (Inches (CT + 2.50))
      (Inches text_w) (Inches 2.50) bullets (Some (TEAL g)) 14 None in
  mret (add_slide_number slide 9 TOTAL_SLIDES).

Definition slide_10_closing_cta (data : SlideData) : result Slide :=
  let slide := _new_slide g (Some (DEEP_NAVY g)) in
  let title_x := 2.10 in
  let title_w := SW - 2 * title_x in
  title ← subscript (d_title data);
  let slide :=
    add_textbox slide (Inches title_x) (Inches MG)
      (Inches title_w) (Inches 1.20)
      (frame true [paragraph (Some CENTER) [mkRun title (Pt 40) true WHITE]]) in
  let div_w := 3.00 in
  let slide :=
    add_accent_line g slide (Inches ((SW - div_w) / 2)) (Inches 1.85)
      (Inches div_w) (Some (WARM_CORAL g)) in
  let card_w := (CW - 2 * GAP) / 3 in
  let card_top := 2.30 in
  let card_h := 4.50 in
  all_cards ← subscript (d_cards data);
  slide ← for_enumerate (fun i c slide =>
    let x := MG + idx i * (card_w + GAP) in
    c_t ← subscript (c_title c);
    c_b ← subscript (c_bullets c);
    mret (add_card_with_bullets g slide (Inches x) (Inches card_top)
            (Inches card_w) (Inches card_h) c_t c_b
            (Some (LIGHT_CORAL_TINT g)) (Some (WARM_CORAL g)) None
            (Some (WARM_CORAL g)))) 0%nat (take 3 all_cards) slide;
  mret (add_slide_number slide 10 TOTAL_SLIDES).
End Layouts.

(** ** [generate_ppt] *)

#[local] Close Scope Q_scope.

(** The JSON document [generate_slide_content] returns; a key that is
    absent is [None]. *)
Record Content : Type := mkContent {
  k_title : option str;
  k_subtitle : option str;
  k_title_image_prompt : option str;
  k_theme : option str;
  k_slide_designs : option (gmap str str);
  k_slides : option (list SlideData)
}.

(** What the view returns to the browser. *)
Inductive Response : Type :=
  | Redirect (location : str)
  | JsonError (message : str) (status : Z)
  | SendFile (data : bytes) (download_name : str) (mimetype : str).

Definition PPTX_MIMETYPE : str :=
  py "application/vnd.openxmlformats-officedocument.presentationml.presentation".

Definition INSERT_PRESENTATION : str :=
  py "INSERT INTO presentations (user_email, title, filename, file_data) VALUES (%s, %s, %s, %s)".

(** [{s["slide"]: s for s in l}], on top of [m]. *)
Fixpoint index_slides (l : list SlideData) (m : gmap Z SlideData)
    : result (gmap Z SlideData) :=
  match l with
  | [] => Ok m
  | s :: r => k ← subscript (d_slide s); index_slides r (<[k := s]> m)
  end.

(** [images.get(k)]: [None] for a missing key and for a stored [None]. *)
Definition images_get (images : gmap Z (option bytes)) (k : Z) : option bytes :=
  get_default (images !! k) None.

(** [designs.get(key, "A") == "B"]. *)
Definition design_is_B (designs : gmap str str) (key : str) : bool :=
  bool_decide (get_default (designs !! key) (py "A") = py "B").

(** [prs.slides.add_slide(...)] inside a layout function: the slide that
    function builds becomes the last slide of [prs]. *)
Definition add_slide (prs : Presentation) (s : Slide) : Presentation :=
  mkPresentation (slide_width prs) (slide_height prs) (slides prs ++ [s]).

Section GeneratePpt.
(** The services and libraries [generate_ppt] calls: the two generators
    behind the OpenAI and Hugging Face APIs, the serialisation of
    python-pptx, the tables of [re], and the MySQL connection.  A
    database operation returns the database as it leaves it, also when it
    raises. *)
Variable generate_slide_content : str -> option Content.
Variable generate_image : str -> Z -> Z -> option bytes.
Variable save : Presentation -> bytes.
Variable re_w : N -> bool.
Variable re_s : N -> bool.
Variable Database : Type.
Variable get_db : Database -> result bool * Database.
Variable cursor_execute :
  Database -> str -> (str * str * str * bytes) -> result unit * Database.
Variable db_commit : Database -> result unit * Database.

(** The images of slides 1, 4, 6 and 9 (the block "Generate 4 images"). *)
Definition fetch_images (content : Content) (slides : gmap Z SlideData)
    : gmap Z (option bytes) :=
  let images : gmap Z (option bytes) := ∅ in
  let title_img_prompt := get_default (k_title_image_prompt content) [] in
  let images :=
    match title_img_prompt with
    | [] => images
    | _ => <[1 := generate_image title_img_prompt 768 1152]> images
    end in
  foldl (fun images sn =>
    let prompt :=
      match slides !! sn with
      | Some d => get_default (d_image_prompt d) []
      | None => []
      end in
    match prompt with
    | [] => images
    | _ => <[sn := generate_image prompt 1024 1024]> images
    end) images [4; 6; 9].

(** The ten layout calls, in the order of the source. *)
Definition assemble (g : Globals) (prs : Presentation)
    (raw_title subtitle : str) (slides : gmap Z SlideData)
    (designs : gmap str str) (images : gmap Z (option bytes))
    : result Presentation :=
  let prs :=
    add_slide prs
      (slide_1_hero_title g raw_title subtitle (images_get images 1)) in
  s2 ← (if design_is_B designs (py "2")
        then d ← subscript (slides !! 2); slide_2b_left_accent_cards g d
        else d ← subscript (slides !! 2); slide_2a_dot_badge_rows g d);
  let prs := add_slide prs s2 in
  s3 ← (if design_is_B designs (py "3")
        then d ← subscript (slides !! 3); slide_3b_four_cards_row g d
        else d ← subscript (slides !! 3); slide_3a_three_cards_row g d);
  let prs := add_slide prs s3 in
  s4 ← (if design_is_B designs (py "4")
        then d ← subscript (slides !! 4);
             slide_4b_bullets_image_right g d (images_get images 4)
        else d ← subscript (slides !! 4);
             slide_4a_image_left_bullets g d (images_get images 4));
  let prs := add_slide prs s4 in
  s5 ← (if design_is_B designs (py "5")
        then d ← subscript (slides !! 5); slide_5b_stat_columns g d
        else d ← subscript (slides !! 5); slide_5a_grid_badges g d);
  let prs := add_slide prs s5 in
  s6 ← (if design_is_B designs (py "6")
        then d ← subscript (slides !! 6);
             slide_6b_cards_banner g d (images_get images 6)
        else d ← subscript (slides !! 6);
             slide_6a_bullets_banner g d (images_get images 6));
  let prs := add_slide prs s6 in
  s7 ← (if design_is_B designs (py "7")
        then d ← subscript (slides !! 7); slide_7b_grid_table g d
        else d ← subscript (slides !! 7); slide_7a_two_cards g d);
  let prs := add_slide prs s7 in
  s8 ← (if design_is_B designs (py "8")
        then d ← subscript (slides !! 8); slide_8b_step_cards g d
        else d ← subscript (slides !! 8); slide_8a_timeline g d);
  let prs := add_slide prs s8 in
  s9 ← (if design_is_B designs (py "9")
        then d ← subscript (slides !! 9);
             slide_9b_quote_image g d (images_get images 9)
        else d ← subscript (slides !! 9);
             slide_9a_stat_image g d (images_get images 9));
  let prs := add_slide prs s9 in
  d10 ← subscript (slides !! 10);
  s10 ← slide_10_closing_cta g d10;
  mret (add_slide prs s10).

(** The deck of a content document, once the theme is applied: empty
    presentation, slide index, designs, images, layouts. *)
Definition build_deck (g : Globals) (user_prompt : str) (content : Content)
    : result Presentation :=
  let raw_title := get_default (k_title content) user_prompt in
  let subtitle := get_default (k_subtitle content) [] in
  let prs := mkPresentation (Inches SW) (Inches SH) [] in
  slides ← index_slides (get_default (k_slides content) []) ∅;
  let designs := get_default (k_slide_designs content) ∅ in
  let images := fetch_images content slides in
  assemble g prs raw_title subtitle slides designs images.

(** The [try] block "Save to history"; [cursor] is [None] when
    [get_db] found no connection. *)
Definition save_history (db : Database) (email raw_title filename : str)
    (file_bytes : bytes) : result unit * Database :=
  match get_db db with
  | (Ok true, db) =>
      match cursor_execute db INSERT_PRESENTATION
              (email, raw_title, (filename ++ py ".pptx")%list, file_bytes) with
      | (Ok _, db) => db_commit db
      | (Raise e, db) => (Raise e, db)
      end
  | (Ok false, db) => (Raise AttributeError, db)
  | (Raise e, db) => (Raise e, db)
  end.

(** The view: the response (or the exception that escapes), with the
    colour variables and the database as the request leaves them. *)
Definition generate_ppt (g : Globals) (db : Database)
    (session : gmap str str) (form : gmap str str)
    : result Response * Globals * Database :=
  match session !! py "user" with
  | None => (Ok (Redirect (py "/login")), g, db)
  | Some _ =>
      match form !! py "user_prompt" with
      | None => (Raise KeyError, g, db)
      | Some user_prompt =>
          match generate_slide_content user_prompt with
          | None =>
              (Ok (JsonError
                     (py "Failed to generate presentation content. Please try again.")
                     500), g, db)
          | Some content =>
              let raw_title := get_default (k_title content) user_prompt in
              let filename := safe_filename re_w re_s raw_title in
              match apply_theme
                      (get_default (k_theme content) (py "indigo")) g with
              | Raise e => (Raise e, g, db)
              | Ok g =>
                  match build_deck g user_prompt content with
                  | Raise e => (Raise e, g, db)
                  | Ok prs =>
                      let file_bytes := save prs in
                      let '(_, db) :=
                        save_history db
                          (get_default (session !! py "email") [])
                          raw_title filename file_bytes in
                      (Ok (SendFile file_bytes (filename ++ py ".pptx")%list
                             PPTX_MIMETYPE), g, db)
                  end
              end
          end
      end
  end.
End GeneratePpt.


(** * The generators and the account views *)

(** ** Methods of [str] *)

(** The methods of Python's [str] that [generate_slide_content] and
    [generate_image] use, on sequences of code points.  [str.strip] takes
    its class of white space, that of [str.isspace], as a parameter. *)
Module pystr.

(** [s.startswith(prefix)]. *)
Fixpoint startswith (s prefix : str) {struct prefix} : bool :=
  match prefix, s with
  | [], _ => true
  | p :: prefix', c :: s' => N.eqb c p && startswith s' prefix'
  | _ :: _, [] => false
  end.

(** [s.endswith(suffix)]. *)
Definition endswith (s suffix : str) : bool :=
  startswith (rev s) (rev suffix).

(** [s.find(sub)], counted from the index [i] of the head of [s]: the
    lowest index at which [sub] starts, or [-1]. *)
Fixpoint find_from (s sub : str) (i : Z) : Z :=
  if startswith s sub then i
  else match s with
       | [] => -1
       | _ :: s' => find_from s' sub (i + 1)
       end.

Definition find (s sub : str) : Z := find_from s sub 0.

(** [s.rfind(sub)]: the highest index at which [sub] starts, or [-1]. *)
Fixpoint rfind_from (s sub : str) (i : Z) : Z :=
  match s with
  | [] => if startswith [] sub then i else -1
  | _ :: s' =>
      let j := rfind_from s' sub (i + 1) in
      if j =? -1 then (if startswith s sub then i else -1) else j
  end.

Definition rfind (s sub : str) : Z := rfind_from s sub 0.

(** [sub in s]. *)
Definition contains (s sub : str) : bool := negb (find s sub =? -1).

(** [s[start:]] and [s[:stop]] for indices that are not negative. *)
Definition slice_from (s : str) (start : Z) : str := drop (Z.to_nat start) s.
Definition slice_to (s : str) (stop : Z) : str := take (Z.to_nat stop) s.

(** [s.split(sep, 1)[1]]: the text after the first [sep]; without a
    [sep] the list has one element and the subscript raises. *)
Definition split_1 (s sep : str) : result str :=
  let i := find s sep in
  if i =? -1 then Raise IndexError
  else Ok (slice_from s (i + len sep)).

(** [s.rsplit(sep, 1)[0]]: the text before the last [sep], all of [s]
    without one. *)
Definition rsplit_0 (s sep : str) : str :=
  let i := rfind s sep in
  if i =? -1 then s else slice_to s i.

Section Strip.
Variable isspace : N -> bool.

Fixpoint lstrip (s : str) : str :=
  match s with
  | [] => []
  | c :: s' => if isspace c then lstrip s' else s
  end.

Definition rstrip (s : str) : str := rev (lstrip (rev s)).

(** [s.strip()]. *)
Definition strip (s : str) : str := rstrip (lstrip s).
End Strip.

End pystr.

(** ** generate_slide_content *)

Definition FENCE : str := py "```".
Definition LBRACE : N := 123.
Definition RBRACE : N := 125.

Section GenerateSlideContent.
(** The chat service: the state of the outside world, and the call of
    [client.chat.completions.create] with the user message, read up to
    [r.choices[0].message.content]: the text of the reply, or the
    exception the call or the reading raises.  [json_loads] is
    [json.loads] on documents of the type [Content]; [None] is a
    JSONDecodeError. *)
Variable isspace : N -> bool.
Variable World : Type.
Variable chat : World -> str -> result str * World.
Variable json_loads : str -> option Content.

(** The text handed to [json.loads]: the reply without its white space,
    its code fence and the text around the outermost braces. *)
Definition extract_json (content : str) : result str :=
  let raw := pystr.strip isspace content in
  raw ← (if pystr.startswith raw FENCE
         then
           raw ← pystr.split_1 raw [LF];
           if pystr.contains raw FENCE
           then Ok (pystr.rsplit_0 raw FENCE)
           else Ok raw
         else Ok raw);
  let raw := pystr.strip isspace raw in
  let raw :=
    if negb (pystr.startswith raw [LBRACE])
    then
      let start := pystr.find raw [LBRACE] in
      if negb (start =? -1) then pystr.slice_from raw start else raw
    else raw in
  let raw :=
    if negb (pystr.endswith raw [RBRACE])
    then
      let end_ := pystr.rfind raw [RBRACE] in
      if negb (end_ =? -1) then pystr.slice_to raw (end_ + 1) else raw
    else raw in
  Ok raw.

(** The body of the [try]: [None] when one of the [except] clauses is
    entered. *)
Definition attempt_content (w : World) (prompt : str)
    : option Content * World :=
  match chat w (py "Create a presentation about: " ++ prompt)%list with
  | (Ok content, w) =>
      match extract_json content with
      | Ok raw => (json_loads raw, w)
      | Raise _ => (None, w)
      end
  | (Raise _, w) => (None, w)
  end.

(** [for attempt in range(2)]: a failed attempt 0 continues, any other
    failed attempt returns [None]. *)
Fixpoint content_attempts (range : list nat) (w : World) (prompt : str)
    : option Content * World :=
  match range with
  | [] => (None, w)
  | attempt :: range' =>
      match attempt_content w prompt with
      | (Some content, w) => (Some content, w)
      | (None, w) =>
          if Nat.eqb attempt 0 then content_attempts range' w prompt
          else (None, w)
      end
  end.

Definition generate_slide_content (w : World) (prompt : str)
    : option Content * World :=
  content_attempts [0; 1]%nat w prompt.
End GenerateSlideContent.

(** ** generate_image *)

Definition API_URLS : list str :=
  [py "https://router.huggingface.co/hf-inference/models/black-forest-labs/FLUX.1-schnell";
   py "https://api-inference.huggingface.co/models/black-forest-labs/FLUX.1-schnell"].

Definition enhanced (prompt : str) : str :=
  (py "Ultra sharp 4K professional photograph, crystal clear details, " ++
   py "highly detailed, sharp focus, studio lighting, vibrant colors, " ++
   py "no blurry elements, absolutely no text, no words, no letters, " ++
   py "no numbers, no labels, no signs, no writing, no captions, " ++
   py "no watermarks, no logos, text-free image only, " ++ prompt)%list.

(** What the code reads of a response: the status, the Content-Type
    header (empty when absent), the body, and for a body that announces a
    loading model the value of [int(err.get("estimated_time", 20))]:
    [None] when reading it raises, [Some None] when the key is absent. *)
Record HttpResponse : Type := mkHttpResponse {
  status_code : Z;
  content_type : str;
  resp_content : bytes;
  estimated_time : option (option Z)
}.

(** The outcome of [requests.post]. *)
Inductive Posted : Type :=
  | Responded (resp : HttpResponse)
  | TimedOut
  | Failed.

(** What [generate_image] does to the outside world. *)
Inductive NetEvent : Type :=
  | Request (url : str) (outcome : Posted)
  | Sleep (seconds : Z).

(** How the body of the loop over the attempts ends. *)
Inductive Flow : Type :=
  | Return (r : option bytes)
  | Break
  | NextAttempt.

Section GenerateImage.
(** [requests.post] with the key, the address, the inputs and the size,
    and [time.sleep] for a duration that is not negative (a negative one
    is refused with a ValueError before any time passes). *)
Variable World : Type.
Variable post : World -> str -> str -> str -> Z -> Z -> Posted * World.
Variable sleep : World -> Z -> World.

(** The world and the events so far, in the order they happened. *)
Definition Net : Type := (World * list NetEvent)%type.

Definition is_image (resp : HttpResponse) : bool :=
  pystr.contains (content_type resp) (py "image") ||
  (1000 <? len (resp_content resp)).

(** The [wait] of a 503 response. *)
Definition wait_of (resp : HttpResponse) : Z :=
  match estimated_time resp with
  | Some t => Z.min (get_default t 20 + 1) 60
  | None => 20
  end.

(** One attempt: the body of the inner loop.  The exceptions of the
    [try], among them the ValueError of a negative sleep, lead to the next
    attempt. *)
Definition image_attempt (key prompt : str) (img_w img_h : Z)
    (api_url : str) (attempt : nat) (net : Net) : Flow * Net :=
  let '(w, events) := net in
  let '(outcome, w) := post w key api_url (enhanced prompt) img_w img_h in
  let events := (events ++ [Request api_url outcome])%list in
  match outcome with
  | Responded resp =>
      if status_code resp =? 200 then
        if is_image resp then (Return (Some (resp_content resp)), (w, events))
        else (NextAttempt, (w, events))
      else if status_code resp =? 503 then
        let wait := wait_of resp in
        if (attempt <? 2)%nat then
          if wait <? 0 then (NextAttempt, (w, events))
          else (NextAttempt, (sleep w wait, (events ++ [Sleep wait])%list))
        else (NextAttempt, (w, events))
      else
        if (status_code resp =? 401) || (status_code resp =? 403)
        then (Return None, (w, events))
        else (Break, (w, events))
  | TimedOut => (NextAttempt, (w, events))
  | Failed => (NextAttempt, (w, events))
  end.

(** [for attempt in range(3)]; [None]: the loop is left without a
    [return]. *)
Fixpoint image_attempts (key prompt : str) (img_w img_h : Z)
    (api_url : str) (range : list nat) (net : Net)
    : option (option bytes) * Net :=
  match range with
  | [] => (None, net)
  | attempt :: range' =>
      match image_attempt key prompt img_w img_h api_url attempt net with
      | (Return r, net) => (Some r, net)
      | (Break, net) => (None, net)
      | (NextAttempt, net) =>
          image_attempts key prompt img_w img_h api_url range' net
      end
  end.

(** [for api_url in api_urls]. *)
Fixpoint image_urls (key prompt : str) (img_w img_h : Z)
    (api_urls : list str) (net : Net) : option bytes * Net :=
  match api_urls with
  | [] => (None, net)
  | api_url :: api_urls' =>
      match image_attempts key prompt img_w img_h api_url
              [0; 1; 2]%nat net with
      | (Some r, net) => (r, net)
      | (None, net) => image_urls key prompt img_w img_h api_urls' net
      end
  end.

(** [HF_API_KEY] is read from the environment when the module loads. *)
Definition generate_image (HF_API_KEY : str) (net : Net) (prompt : str)
    (img_w img_h : Z) : option bytes * Net :=
  match HF_API_KEY with
  | [] => (None, net)
  | _ => image_urls HF_API_KEY prompt img_w img_h API_URLS net
  end.

(** The block "Generate 4 images" of [generate_ppt] with the service
    behind [generate_image]: the title image first, then the images of
    slides 4, 6 and 9, each only for a prompt that is not empty. *)
Definition generate_images (HF_API_KEY : str) (content : Content)
    (slides : gmap Z SlideData) (net : Net)
    : gmap Z (option bytes) * Net :=
  let images : gmap Z (option bytes) := ∅ in
  let title_img_prompt := get_default (k_title_image_prompt content) [] in
  let '(images, net) :=
    match title_img_prompt with
    | [] => (images, net)
    | _ =>
        let '(image, net) :=
          generate_image HF_API_KEY net title_img_prompt 768 1152 in
        (<[1 := image]> images, net)
    end in
  foldl (fun '(images, net) sn =>
    let prompt :=
      match slides !! sn with
      | Some d => get_default (d_image_prompt d) []
      | None => []
      end in
    match prompt with
    | [] => (images, net)
    | _ =>
        let '(image, net) := generate_image HF_API_KEY net prompt 1024 1024 in
        (<[sn := image]> images, net)
    end) (images, net) [4; 6; 9].
End GenerateImage.

(** ** The database connection *)

Definition DB_ERROR_PAGE : str :=
  (py "<div style='font-family:system-ui;max-width:500px;margin:80px auto;text-align:center;" ++
   py "background:#1e1233;color:#fff;padding:48px;border-radius:20px;'>" ++
   py "<h1 style='color:#f87171;margin-bottom:16px;'>Database Offline</h1>" ++
   py "<p style='color:#d1d5db;margin-bottom:24px;'>Database connection failed.</p>" ++
   py "<a href='/' style='color:#a78bfa;'>Try again</a></div>")%list.

(** A parameter of a statement. *)
Inductive Param : Type :=
  | PStr (s : str)
  | PInt (z : Z)
  | PBytes (b : bytes).

(** A row of a result: the columns the views read are text columns,
    [None] for NULL. *)
Definition Row : Type := list (option str).

(** What a view returns. *)
Inductive Reply : Type :=
  | redirect (location : str)
  | render_template (template : str) (error : option str)
  | page (body : str) (status : Z)
  | send_file (data : bytes) (download_name : str) (mimetype : str).

(** What escapes a view: an exception of [exn], or the NameError of a
    name that is bound neither in the function nor in the module. *)
Inductive raised : Type :=
  | Builtin (e : exn)
  | NameError (name : str).

Inductive outcome (A : Type) : Type :=
  | Returned (a : A)
  | Raised (e : raised).
Arguments Returned {A} a.
Arguments Raised {A} e.

Definition SELECT_USER : str := py "SELECT * FROM users WHERE email=%s".
Definition SELECT_USER_ID : str := py "SELECT id FROM users WHERE email=%s".
Definition INSERT_USER : str :=
  py "INSERT INTO users (email, first_name, last_name, language, password_hash) VALUES (%s, %s, %s, %s, %s)".
Definition SELECT_PRESENTATION : str :=
  py "SELECT filename, file_data FROM presentations WHERE id=%s AND user_email=%s".
Definition DELETE_PRESENTATIONS : str :=
  py "DELETE FROM presentations WHERE user_email=%s".
Definition DELETE_USER : str := py "DELETE FROM users WHERE email=%s".

Definition UPDATE_GOOGLE_ID : str :=
  py "UPDATE users SET google_id=%s WHERE email=%s".
Definition INSERT_GOOGLE_USER : str :=
  py "INSERT INTO users (email, first_name, last_name, password_hash, google_id) VALUES (%s, %s, %s, %s, %s)".

(** The [lang_map] of [login] and of [google_callback]. *)
Definition lang_map : gmap str str :=
  list_to_map
    [(py "en", py "English"); (py "es", py "Spanish"); (py "fr", py "French");
     (py "de", py "German"); (py "it", py "Italian");
     (py "pt", py "Portuguese"); (py "ru", py "Russian");
     (py "zh", py "Chinese"); (py "ja", py "Japanese");
     (py "ko", py "Korean"); (py "ar", py "Arabic"); (py "hi", py "Hindi");
     (py "uz", py "Uzbek")].

Definition LANG_CODES : gmap str str :=
  list_to_map
    [(py "English", py "en"); (py "Spanish", py "es"); (py "French", py "fr");
     (py "German", py "de"); (py "Italian", py "it");
     (py "Portuguese", py "pt"); (py "Russian", py "ru");
     (py "Chinese", py "zh"); (py "Japanese", py "ja");
     (py "Korean", py "ko"); (py "Arabic", py "ar"); (py "Hindi", py "hi");
     (py "Uzbek", py "uz")].

(** [x or y] on a text column that may be NULL and a text. *)
Definition text_or (x : option str) (y : str) : str :=
  match x with
  | Some (c :: s) => c :: s
  | _ => y
  end.

Section Views.
(** The MySQL server and the libraries around it: the outside world, the
    connections and cursors of mysql.connector with their methods, and
    the two functions of werkzeug.security; the hash of a password takes
    its salt from the world.  [authorize_access_token] is the call of
    authlib read up to [token.get("userinfo")]: the claims of the user,
    [None] without them, or the exception of the call. *)
Variable World : Type.
Variable Connection : Type.
Variable Cursor : Type.
Variable connect : World -> result Connection * World.
Variable db_cursor : Connection -> World -> result Cursor * World.
Variable is_connected : Connection -> World -> result bool * World.
Variable execute : Cursor -> str -> list Param -> World -> result unit * World.
Variable fetchone : Cursor -> World -> result (option Row) * World.
Variable commit : Connection -> World -> result unit * World.
Variable check_password_hash : str -> str -> bool.
Variable generate_password_hash : str -> World -> str * World.
Variable authorize_access_token :
  World -> result (option (gmap str str)) * World.

(** The state a request runs in: the module's [_db] and [_cursor], the
    world, and the session of the client. *)
Record App : Type := mkApp {
  _db : option Connection;
  _cursor : option Cursor;
  world : World;
  session : gmap str str
}.

Definition with_world (app : App) (w : World) : App :=
  mkApp (_db app) (_cursor app) w (session app).
Definition with_db (app : App) (db : option Connection) : App :=
  mkApp db (_cursor app) (world app) (session app).
Definition with_cursor (app : App) (cursor : option Cursor) : App :=
  mkApp (_db app) cursor (world app) (session app).
Definition with_session (app : App) (s : gmap str str) : App :=
  mkApp (_db app) (_cursor app) (world app) s.

(** Code that runs in a request. *)
Definition View (A : Type) : Type := App -> outcome A * App.

Definition view_ret {A} (a : A) : View A := fun app => (Returned a, app).

Definition view_bind {A B} (k : A -> View B) (m : View A) : View B :=
  fun app =>
    match m app with
    | (Returned a, app) => k a app
    | (Raised e, app) => (Raised e, app)
    end.

#[local] Instance view_mret : MRet View := @view_ret.
#[local] Instance view_mbind : MBind View := @view_bind.

Definition raise {A} (e : raised) : View A := fun app => (Raised e, app).

(** [try: m  except Exception: handler]. *)
Definition try_except {A} (m : View A) (handler : View A) : View A :=
  fun app =>
    match m app with
    | (Returned a, app) => (Returned a, app)
    | (Raised _, app) => handler app
    end.

(** A call into the outside world. *)
Definition call {A} (f : World -> result A * World) : View A :=
  fun app =>
    match f (world app) with
    | (Ok a, w) => (Returned a, with_world app w)
    | (Raise e, w) => (Raised (Builtin e), with_world app w)
    end.

Definition get_session : View (gmap str str) :=
  fun app => (Returned (session app), app).

(** [request.form[key]]. *)
Definition form_item (form : gmap str str) (key : str) : View str :=
  match form !! key with
  | Some v => mret v
  | None => raise (Builtin KeyError)
  end.

(** [row[i]]. *)
Definition row_item (row : Row) (i : nat) : View (option str) :=
  match row !! i with
  | Some v => mret v
  | None => raise (Builtin IndexError)
  end.

(** [cursor.execute(...)], [cursor.fetchone()], [db.commit()] on what
    [get_db] returned: [None] has no such attribute. *)
Definition cursor_execute (cursor : option Cursor) (statement : str)
    (params : list Param) : View unit :=
  match cursor with
  | Some c => call (execute c statement params)
  | None => raise (Builtin AttributeError)
  end.

Definition cursor_fetchone (cursor : option Cursor) : View (option Row) :=
  match cursor with
  | Some c => call (fetchone c)
  | None => raise (Builtin AttributeError)
  end.

Definition db_commit (db : option Connection) : View unit :=
  match db with
  | Some c => call (commit c)
  | None => raise (Builtin AttributeError)
  end.

Definition session_set (key value : str) : View unit :=
  fun app => (Returned tt, with_session app (<[key := value]> (session app))).

(** [session.pop(key, None)]. *)
Definition session_pop (key : str) : View unit :=
  fun app => (Returned tt, with_session app (delete key (session app))).

(** The [try] of [get_db]: [_db] is assigned before the cursor is asked
    for. *)
Definition reconnect : View (option Connection * option Cursor) :=
  fun app =>
    match connect (world app) with
    | (Ok c, w) =>
        let app := with_db (with_world app w) (Some c) in
        match db_cursor c (world app) with
        | (Ok cur, w) =>
            let app := with_cursor (with_world app w) (Some cur) in
            (Returned (_db app, _cursor app), app)
        | (Raise _, w) => (Returned (None, None), with_world app w)
        end
    | (Raise _, w) => (Returned (None, None), with_world app w)
    end.

Definition get_db : View (option Connection * option Cursor) :=
  fun app =>
    match _db app with
    | None => reconnect app
    | Some c =>
        match is_connected c (world app) with
        | (Ok true, w) =>
            let app := with_world app w in
            (Returned (_db app, _cursor app), app)
        | (Ok false, w) => reconnect (with_world app w)
        | (Raise e, w) => (Raised (Builtin e), with_world app w)
        end
    end.

(** The decorator. *)
Definition db_required (f : View Reply) : View Reply :=
  fun app =>
    match get_db app with
    | (Returned (None, _), app) => (Returned (page DB_ERROR_PAGE 503), app)
    | (Returned (Some _, _), app) => f app
    | (Raised _, app) => (Returned (page DB_ERROR_PAGE 503), app)
    end.

(** ** The account views

    [login], [register] and [download_presentation] are the functions as
    they are written under [@db_required]: the view of their route is
    [db_required] of them. *)

(** [if user:] on what [fetchone] returned. *)
Definition found (row : option Row) : option Row :=
  match row with
  | Some (c :: r) => Some (c :: r)
  | _ => None
  end.

(** [stored_password and (check_password_hash(...) or stored_password ==
    password)]. *)
Definition password_accepted (stored_password : option str) (password : str)
    : bool :=
  match stored_password with
  | Some (c :: s) =>
      check_password_hash (c :: s) password ||
      bool_decide (c :: s = password)
  | _ => false
  end.

Definition INVALID_LOGIN : Reply :=
  render_template (py "login.html") (Some (py "Invalid email or password")).

Definition login (form : gmap str str) : View Reply :=
  '(db, cursor) ← get_db;
  email ← form_item form (py "email");
  password ← form_item form (py "password");
  _ ← cursor_execute cursor SELECT_USER [PStr email];
  user ← cursor_fetchone cursor;
  match found user with
  | Some user =>
      stored_password ← row_item user 4;
      if password_accepted stored_password password then
        first_name ← row_item user 2;
        _ ← session_set (py "user") (text_or first_name email);
        _ ← session_set (py "email") email;
        language ← row_item user 5;
        let lang := text_or language (py "en") in
        _ ← session_set (py "language")
              (get_default (lang_map !! lang) (py "English"));
        mret (redirect (py "/dashboard"))
      else mret INVALID_LOGIN
  | None => mret INVALID_LOGIN
  end.

Definition register (form : gmap str str) : View Reply :=
  '(db, cursor) ← get_db;
  email ← form_item form (py "email");
  first_name ← form_item form (py "first_name");
  last_name ← form_item form (py "last_name");
  let language := get_default (form !! py "language") (py "English") in
  password ← form_item form (py "password");
  _ ← cursor_execute cursor SELECT_USER_ID [PStr email];
  existing ← cursor_fetchone cursor;
  match found existing with
  | Some _ =>
      mret (render_template (py "register.html")
              (Some (py "An account with this email already exists")))
  | None =>
      hashed_password ←
        call (fun w => let '(h, w) := generate_password_hash password w in
                       (Ok h, w));
      _ ← cursor_execute cursor INSERT_USER
            [PStr email; PStr first_name; PStr last_name; PStr language;
             PStr hashed_password];
      _ ← db_commit db;
      _ ← session_set (py "user") first_name;
      _ ← session_set (py "email") email;
      _ ← session_set (py "language") language;
      mret (redirect (py "/dashboard"))
  end.

(** [if existing and existing[5]], then [lang_map.get(lang, "English")]. *)
Definition google_language (language : option str) : str :=
  match language with
  | Some (c :: s) => get_default (lang_map !! (c :: s)) (py "English")
  | _ => py "English"
  end.

(** [if not x] on a text column. *)
Definition empty_text (x : option str) : bool :=
  match x with
  | Some (_ :: _) => false
  | _ => true
  end.

(** The part of [google_callback] after the token. *)
Definition google_sign_in (user_info : gmap str str) : View Reply :=
  email ← form_item user_info (py "email");
  let first_name := get_default (user_info !! py "given_name") [] in
  let last_name := get_default (user_info !! py "family_name") [] in
  google_id ← form_item user_info (py "sub");
  '(db, cursor) ← get_db;
  _ ← cursor_execute cursor SELECT_USER [PStr email];
  existing ← cursor_fetchone cursor;
  _ ← match found existing with
      | Some existing =>
          stored_id ← row_item existing 8;
          _ ← (if empty_text stored_id
               then
                 _ ← cursor_execute cursor UPDATE_GOOGLE_ID
                       [PStr google_id; PStr email];
                 db_commit db
               else mret tt);
          name ← row_item existing 2;
          session_set (py "user") (text_or name email)
      | None =>
          _ ← cursor_execute cursor INSERT_GOOGLE_USER
                [PStr email; PStr first_name; PStr last_name; PStr [];
                 PStr google_id];
          _ ← db_commit db;
          session_set (py "user") (text_or (Some first_name) email)
      end;
  _ ← session_set (py "email") email;
  language ← match found existing with
             | Some existing =>
                 language ← row_item existing 5;
                 mret (google_language language)
             | None => mret (py "English")
             end;
  _ ← session_set (py "language") language;
  mret (redirect (py "/dashboard")).

(** [google_callback.__wrapped__]: the function under the decorator. *)
Definition google_callback_wrapped : View Reply :=
  fun app =>
    match authorize_access_token (world app) with
    | (Raise _, w) =>
        (Returned (redirect (py "/auth/google")), with_world app w)
    | (Ok user_info, w) =>
        match user_info with
        | None => (Returned (redirect (py "/login")), with_world app w)
        | Some user_info =>
            if decide (user_info = ∅)
            then (Returned (redirect (py "/login")), with_world app w)
            else google_sign_in user_info (with_world app w)
        end
    end.

(** The view of the route [/auth/google/callback]. *)
Definition google_callback : View Reply :=
  db_required google_callback_wrapped.

(** The view stops at [prs.save(buf)]: no [prs] is bound in the function
    or in the module, and the lines after it are never reached. *)
Definition download_presentation (pres_id : Z) : View Reply :=
  session ← get_session;
  match session !! py "user" with
  | None => mret (redirect (py "/login"))
  | Some _ =>
      '(db, cursor) ← get_db;
      _ ← cursor_execute cursor SELECT_PRESENTATION
            [PInt pres_id; PStr (get_default (session !! py "email") [])];
      row ← cursor_fetchone cursor;
      match found row with
      | None => mret (redirect (py "/history"))
      | Some _ => raise (NameError (py "prs"))
      end
  end.

(** [delete_account.__wrapped__]: the function under the decorator. *)
Definition delete_account_wrapped : View Reply :=
  session ← get_session;
  match session !! py "user" with
  | None => mret (redirect (py "/login"))
  | Some _ =>
      let email := get_default (session !! py "email") [] in
      _ ← try_except
            ('(db, cursor) ← get_db;
             _ ← cursor_execute cursor DELETE_PRESENTATIONS [PStr email];
             _ ← cursor_execute cursor DELETE_USER [PStr email];
             db_commit db)
            (mret tt);
      _ ← session_pop (py "user");
      _ ← session_pop (py "email");
      _ ← session_pop (py "language");
      mret (redirect (py "/"))
  end.

(** The view of the route [/delete-account]. *)
Definition delete_account : View Reply :=
  db_required delete_account_wrapped.

Definition logout : View Reply :=
  _ ← session_pop (py "user");
  _ ← session_pop (py "email");
  _ ← session_pop (py "language");
  mret (redirect (py "/")).
End Views.

Arguments mkApp {World Connection Cursor} _ _ _ _.
Arguments _db {World Connection Cursor} a.
Arguments _cursor {World Connection Cursor} a.
Arguments world {World Connection Cursor} a.
Arguments session {World Connection Cursor} a.
Arguments with_world {World Connection Cursor} app w.
Arguments with_db {World Connection Cursor} app db.
Arguments with_cursor {World Connection Cursor} app cursor.
Arguments with_session {World Connection Cursor} app s.
Arguments view_ret {World Connection Cursor A} a.
Arguments view_bind {World Connection Cursor A B} k m.
Arguments raise {World Connection Cursor A} e.
Arguments try_except {World Connection Cursor A} m handler.
Arguments call {World Connection Cursor A} f.
Arguments get_session {World Connection Cursor}.
Arguments form_item {World Connection Cursor} form key.
Arguments row_item {World Connection Cursor} row i.
Arguments cursor_execute {World Connection Cursor} execute cursor statement params.
Arguments cursor_fetchone {World Connection Cursor} fetchone cursor.
Arguments db_commit {World Connection Cursor} commit db.
Arguments session_set {World Connection Cursor} key value.
Arguments session_pop {World Connection Cursor} key.
Arguments reconnect {World Connection Cursor} connect db_cursor.
Arguments get_db {World Connection Cursor} connect db_cursor is_connected.
Arguments db_required {World Connection Cursor} connect db_cursor is_connected f.
Arguments login {World Connection Cursor} connect db_cursor is_connected
  execute fetchone check_password_hash form.
Arguments register {World Connection Cursor} connect db_cursor is_connected
  execute fetchone commit generate_password_hash form.
Arguments download_presentation {World Connection Cursor} connect db_cursor
  is_connected execute fetchone pres_id.
Arguments delete_account_wrapped {World Connection Cursor} connect db_cursor
  is_connected execute commit.
Arguments delete_account {World Connection Cursor} connect db_cursor
  is_connected execute commit.
Arguments logout {World Connection Cursor}.
Arguments google_sign_in {World Connection Cursor} connect db_cursor
  is_connected execute fetchone commit user_info.
Arguments google_callback_wrapped {World Connection Cursor} connect
  db_cursor is_connected execute fetchone commit authorize_access_token.
Arguments google_callback {World Connection Cursor} connect db_cursor
  is_connected execute fetchone commit authorize_access_token.
(** * Vocabulary of the properties *)

(** A character [safe_filename] lets through: a word character or a
    hyphen. *)
Definition clean (re_w : N -> bool) (c : N) : Prop :=
  re_w c = true \/ c = HYPHEN.

(** The texts of a shape, run by run. *)
Definition shape_texts (sh : Shape) : list str :=
  match text_frame sh with
  | Some tf => flat_map (fun p => map text (runs p)) (paragraphs tf)
  | None => []
  end.

(** A placeholder: a gray rectangle at the given place, of the given
    size, that reads "IMAGE". *)
Definition is_placeholder (sh : Shape) (left top width height : Q) : Prop :=
  kind sh = AutoShape RECTANGLE /\
  fill sh = Some PLACEHOLDER_GRAY /\
  (sh_left sh == left)%Q /\ (sh_top sh == top)%Q /\
  sh_width sh = width /\ sh_height sh = height /\
  shape_texts sh = [py "IMAGE"].

(** The page indicator of slide [index]: a text box one inch wide that ends
    at the right margin, 0.55 above the bottom edge, with the right-aligned
    text ["index / total"]. *)
Definition page_indicator (index total : nat) : Shape :=
  mkShape TextBox (SW - MG - 1.0)%Q (SH - 0.55)%Q 1.0%Q 0.35%Q
    None LineDefault None
    (Some (frame false
       [paragraph (Some RIGHT)
          [mkRun (str_of_int index ++ py " / " ++ str_of_int total)
                 (Pt 10) false MEDIUM_GRAY]])).

(** The shape a layout draws last is the page indicator of [index]. *)
Definition ends_with_page_indicator (slide : Slide) (index : nat) : Prop :=
  last (shapes slide) = Some (page_indicator index 10).

(** The text box of row [j] in a column of slide 7B that starts at [x]:
    [row_h] below the previous row and [row_h - 0.08] high. *)
Definition grid_row (x card_w row_start row_h : Q) (color : RGBColor)
    (j : nat) (b : str) : Shape :=
  mkShape TextBox (x + 0.25)%Q (row_start + idx j * row_h + 0.06)%Q
    (card_w - 0.50)%Q (row_h - 0.08)%Q None LineDefault None
    (Some (frame true
       [paragraph None
          [mkRun BULLET (Pt 13) true color; mkRun b (Pt 13) false SLATE]])).

(** A slide datum for slide 7 with the fields the layout subscripts. *)
Definition comparison_data (data : SlideData) (title : str)
    (lt : str) (lb : list str) (rt : str) (rb : list str) : Prop :=
  d_title data = Some title /\
  d_left data = Some (mkCard (Some lt) (Some lb)) /\
  d_right data = Some (mkCard (Some rt) (Some rb)).

(** The layout the design entry of [key] selects: variant B exactly when
    the entry is the string ["B"], variant A when the entry is absent or
    is anything else. *)
Definition chosen (designs : gmap str str) (key : str)
    (variant_a variant_b : result Slide) : result Slide :=
  if decide (designs !! key = Some (py "B")) then variant_b else variant_a.

(** ** Example documents *)

#[local] Open Scope string_scope.

Definition example_card (title : string) (bullets : list string) : Card :=
  mkCard (Some (py title)) (Some (map py bullets)).

(** The slides of the prompt's schema, each with the keys of its kind. *)
Definition four_cards : list Card :=
  [example_card "One" ["a"; "b"]; example_card "Two" ["c"; "d"];
   example_card "Three" ["e"; "f"]; example_card "Four" ["g"; "h"]].

Definition four_steps : list Card :=
  [example_card "Step 1" ["x"; "y"]; example_card "Step 2" ["z"];
   example_card "Step 3" []; example_card "Step 4" ["w"]].

Definition cards_slide (k : Z) (cards : list Card) : SlideData :=
  mkSlideData (Some k) (Some (py "Slide title")) (Some cards)
    None None None None None None None.

Definition bullets_slide (k : Z) (bullets : list string) : SlideData :=
  mkSlideData (Some k) (Some (py "Slide title")) None (Some (map py bullets))
    (Some (py "a lighthouse at dawn"))
    (Some (py "85%")) (Some (py "of something important")) None None None.

Definition sides_slide (left right : list string) : SlideData :=
  mkSlideData (Some 7) (Some (py "Slide title")) None None None None None
    (Some (example_card "Left" left)) (Some (example_card "Right" right))
    None.

Definition steps_slide (steps : list Card) : SlideData :=
  mkSlideData (Some 8) (Some (py "Slide title")) None None None None None
    None None (Some steps).

(** Slide [k] of the example document, with the item counts the prompt
    asks for with the designs below: three cards on slides 2 and 10, four
    on slides 3 (variant B) and 5, five bullets, four steps. *)
Definition example_slide (k : Z) : SlideData :=
  match k with
  | 2 => cards_slide 2 (take 3 four_cards)
  | 3 => cards_slide 3 four_cards
  | 5 => cards_slide 5 four_cards
  | 7 => sides_slide ["l1"; "l2"; "l3"] ["r1"; "r2"]
  | 8 => steps_slide four_steps
  | 10 => cards_slide 10 (take 3 four_cards)
  | _ => bullets_slide k ["p1"; "p2"; "p3"; "p4"; "p5"]
  end.

(** The designs of the end-to-end scenario: A and B alternating. *)
Definition example_designs : gmap str str :=
  list_to_map
    [(py "2", py "A"); (py "3", py "B"); (py "4", py "A"); (py "5", py "B");
     (py "6", py "A"); (py "7", py "B"); (py "8", py "A"); (py "9", py "B")].

Definition example_content : Content :=
  mkContent (Some (py "Lighthouses")) (Some (py "A short history"))
    (Some (py "a lighthouse in a storm")) (Some (py "navy"))
    (Some example_designs)
    (Some (map example_slide [2; 3; 4; 5; 6; 7; 8; 9; 10])).

(** The same slide with an empty ["cards"] (and ["steps"], ["bullets"])
    list: every key is present, no item is. *)
Definition empty_lists_slide (k : Z) : SlideData :=
  mkSlideData (Some k) (Some (py "Slide title")) (Some []) (Some [])
    (Some (py "a lighthouse at dawn"))
    (Some (py "85%")) (Some (py "of something important"))
    (Some (example_card "Left" [])) (Some (example_card "Right" []))
    (Some []).

(** Slide 7 with no bullet on the left and two on the right. *)
Definition left_empty_slide : SlideData := sides_slide [] ["r1"; "r2"].

(** The example document with no design chosen (variant A everywhere,
    three cards on slide 3), and slide 8 delivered with an empty list of
    steps. *)
Definition content_without_steps : Content :=
  mkContent (Some (py "Lighthouses")) (Some (py "A short history"))
    (Some (py "a lighthouse in a storm")) (Some (py "navy"))
    None
    (Some [example_slide 2; cards_slide 3 (take 3 four_cards);
           example_slide 4; example_slide 5; example_slide 6;
           example_slide 7; steps_slide []; example_slide 9;
           example_slide 10]).

(** The same document with its four steps, and slide 3 delivered with an
    empty list of cards. *)
Definition content_without_cards : Content :=
  mkContent (Some (py "Lighthouses")) (Some (py "A short history"))
    (Some (py "a lighthouse in a storm")) (Some (py "navy"))
    None
    (Some [example_slide 2; cards_slide 3 [];
           example_slide 4; example_slide 5; example_slide 6;
           example_slide 7; example_slide 8; example_slide 9;
           example_slide 10]).

(** An image service that is down and one that answers. *)
Definition no_image : str -> Z -> Z -> option bytes := fun _ _ _ => None.
Definition some_image : str -> Z -> Z -> option bytes :=
  fun _ _ _ => Some [Byte.x89; Byte.x50; Byte.x4e; Byte.x47].

(** A database that cannot be reached, and one whose [commit] fails. *)
Definition db_offline : unit -> result bool * unit :=
  fun db => (Ok false, db).
Definition db_execute_ok
    : unit -> str -> (str * str * str * bytes) -> result unit * unit :=
  fun db _ _ => (Ok tt, db).
Definition db_commit_fails : unit -> result unit * unit :=
  fun db => (Raise OtherError, db).

(** A serialisation for the examples: the number of shapes of each
    slide. *)
Definition example_save (prs : Presentation) : bytes :=
  map (fun s => match Byte.of_nat (length (shapes s)) with
                | Some b => b
                | None => Byte.xff
                end) (slides prs).

(** The slide index of the example document, and a presentation without
    slides. *)
Definition example_slide_data : gmap Z SlideData :=
  list_to_map (map (fun k => (k, example_slide k)) [2; 3; 4; 5; 6; 7; 8; 9; 10]).

Definition empty_presentation : Presentation :=
  mkPresentation (Inches SW) (Inches SH) [].

(** A logged-in session and the form of a request. *)
Definition example_session : gmap str str :=
  list_to_map [(py "user", py "ada"); (py "email", py "ada@example.org")].
Definition example_form : gmap str str :=
  list_to_map [(py "user_prompt", py "lighthouses")].

#[local] Close Scope string_scope.

(** ** Card rows *)

(** The cards of a slide are its rounded rectangles. *)
Definition is_card (sh : Shape) : bool :=
  match kind sh with
  | AutoShape ROUNDED_RECTANGLE => true
  | _ => false
  end.

Definition card_shapes (s : Slide) : list Shape :=
  List.filter is_card (shapes s).

(** The packing rule: [n] items across [CW] with [n - 1] gaps. *)
Definition row_width (n : nat) : Q :=
  ((CW - float (Z.of_nat n - 1) * GAP) / float (Z.of_nat n))%Q.

(** The slide has [n] cards, each of width [w]. *)
Definition row_of_cards (s : Slide) (n : nat) (w : Q) : Prop :=
  length (card_shapes s) = n /\
  Forall (fun sh => (sh_width sh == w)%Q) (card_shapes s).

(** A card with both of its keys. *)
Definition complete_card (c : Card) : Prop :=
  is_Some (c_title c) /\ is_Some (c_bullets c).

(** Slide 10 with two of its three cards. *)
Definition two_cards_slide : SlideData :=
  mkSlideData (Some 10) (Some (py "Next steps"))
    (Some [mkCard (Some (py "Read")) (Some [py "a"]);
           mkCard (Some (py "Visit")) (Some [py "b"])])
    None None None None None None None.

(** ** Geometry and well-formed data *)

(** A shape with a width and a height that are not negative. *)
Definition nonneg_shape (sh : Shape) : Prop :=
  (0 <= sh_width sh)%Q /\ (0 <= sh_height sh)%Q.

Definition drawable (s : Slide) : Prop := Forall nonneg_shape (shapes s).

(** The item lists of a slide, each with all keys and at least one item. *)
Definition has_cards (d : SlideData) : Prop :=
  exists cs, d_cards d = Some cs /\ cs <> [] /\ Forall complete_card cs.
Definition has_steps (d : SlideData) : Prop :=
  exists ss, d_steps d = Some ss /\ ss <> [] /\ Forall complete_card ss.
Definition has_bullets (d : SlideData) : Prop :=
  exists bs, d_bullets d = Some bs /\ bs <> [].
Definition has_sides (d : SlideData) : Prop :=
  exists l r, d_left d = Some l /\ d_right d = Some r /\
              complete_card l /\ complete_card r.

(** The data of slide [k] has a title and the populated fields the two
    layouts of slide [k] read. *)
Definition well_formed (k : Z) (d : SlideData) : Prop :=
  is_Some (d_title d) /\
  match k with
  | 2 | 3 | 5 | 10 => has_cards d
  | 4 | 6 | 9 => has_bullets d
  | 7 => has_sides d
  | 8 => has_steps d
  | _ => True
  end.

(** * Further vocabulary *)

(** The slides of a deck carry the page indicators 1, 2, ... in order. *)
Definition numbered_in_order (prs : Presentation) : Prop :=
  forall (i : nat) (s : Slide),
    slides prs !! i = Some s -> ends_with_page_indicator s (S i).

(** The cards of a slide stand in a row that starts at the left margin:
    card [i] is [w] wide and starts [i] widths and gaps after [MG]; all
    start at [CT] and are 5.00 high. *)
Definition spaced_row (s : Slide) (n : nat) (w : Q) : Prop :=
  length (card_shapes s) = n /\
  forall (i : nat) (sh : Shape),
    card_shapes s !! i = Some sh ->
    (sh_left sh == MG + idx i * (w + GAP))%Q /\ (sh_width sh == w)%Q /\
    (sh_top sh == CT)%Q /\ (sh_height sh == 5.00)%Q.

(** The left and the right edge of a shape in EMU, as python-pptx keeps
    them: the position and the width are whole numbers of EMU, and the
    right edge is their sum. *)
Definition emu_left (sh : Shape) : Z := Emu (sh_left sh).
Definition emu_right (sh : Shape) : Z := Emu (sh_left sh) + Emu (sh_width sh).

(** The [n] cards of a slide tile the content width, in EMU: the first
    starts at the left margin; each next one starts [GAP] after the one
    before it ends, or one EMU more; the last one ends at the right
    margin [MG + CW], or one EMU before it. *)
Definition tiled_row (s : Slide) (n : nat) : Prop :=
  length (card_shapes s) = n /\
  (forall sh, card_shapes s !! 0%nat = Some sh -> emu_left sh = Emu MG) /\
  (forall (i : nat) (a b : Shape),
      card_shapes s !! i = Some a -> card_shapes s !! S i = Some b ->
      Emu GAP <= emu_left b - emu_right a <= Emu GAP + 1) /\
  (forall sh,
      last (card_shapes s) = Some sh ->
      Emu (MG + CW) - 1 <= emu_right sh <= Emu (MG + CW)).

(** The entry of a slide list that a slide number selects: the last one
    that carries the number. *)
Definition last_numbered (l : list SlideData) (k : Z) : option SlideData :=
  List.find (fun s => bool_decide (d_slide s = Some k)) (rev l).

Definition numbered (s : SlideData) : Prop := d_slide s <> None.

(** An entry of the document for slide [k], with a title. *)
Definition titled_entry (content : Content) (k : Z) : Prop :=
  exists d, d ∈ get_default (k_slides content) [] /\
            d_slide d = Some k /\ d_title d <> None.

(** The image prompt of slide [sn], empty when there is none. *)
Definition slide_prompt (slide_data : gmap Z SlideData) (sn : Z) : str :=
  get_default (slide_data !! sn ≫= d_image_prompt) [].

(** White space only. *)
Definition blank (isspace : N -> bool) (s : str) : Prop :=
  Forall (fun c => isspace c = true) s.

(** A text that starts with an opening and ends with a closing brace,
    as the text of a JSON object does. *)
Definition braced (j : str) : Prop :=
  head j = Some LBRACE /\ last j = Some RBRACE.

Definition BACKTICK : N := 96.

(** What the cleaning needs of the class of white space: the line feed
    belongs to it, the braces and the backtick do not. *)
Definition separates (isspace : N -> bool) : Prop :=
  isspace LF = true /\ isspace BACKTICK = false /\
  isspace LBRACE = false /\ isspace RBRACE = false.

(** A reply that opens a code fence and has no line feed: the fence and
    its text are on one line. *)
Definition one_line_fenced (isspace : N -> bool) (content : str) : Prop :=
  pystr.startswith (pystr.strip isspace content) FENCE = true /\
  LF ∉ pystr.strip isspace content.

(** A chat service that gives the same reply to every call and counts
    the calls. *)
Definition constant_chat (reply : str) (calls : nat) (message : str)
    : result str * nat :=
  (Ok reply, S calls).

(** The addresses asked and the durations slept, in order. *)
Definition urls_of (events : list NetEvent) : list str :=
  omap (fun e => match e with Request url _ => Some url | Sleep _ => None end)
    events.

Definition sleeps_of (events : list NetEvent) : list Z :=
  omap (fun e => match e with Sleep d => Some d | Request _ _ => None end)
    events.

(** A response that is returned as the image. *)
Definition image_response (resp : HttpResponse) : Prop :=
  status_code resp = 200 /\
  (pystr.contains (content_type resp) (py "image") = true \/
   1000 < len (resp_content resp)).

(** A response that refuses the key. *)
Definition auth_error (resp : HttpResponse) : Prop :=
  status_code resp = 401 \/ status_code resp = 403.

(** An event after which [generate_image] goes on. *)
Definition continuing (e : NetEvent) : Prop :=
  match e with
  | Request _ (Responded resp) => ~ image_response resp /\ ~ auth_error resp
  | _ => True
  end.

(** The events of a call that ended with a [return] inside the loops:
    the last event is the response that decided the result. *)
Definition returned (r : option bytes) (new : list NetEvent) : Prop :=
  exists before url resp,
    new = before ++ [Request url (Responded resp)] /\
    Forall continuing before /\
    ((image_response resp /\ r = Some (resp_content resp)) \/
     (auth_error resp /\ r = None)).

(** The events of a call that ran out of attempts. *)
Definition exhausted (r : option bytes) (new : list NetEvent) : Prop :=
  r = None /\ Forall continuing new.

Definition URL_1 : str :=
  py "https://router.huggingface.co/hf-inference/models/black-forest-labs/FLUX.1-schnell".
Definition URL_2 : str :=
  py "https://api-inference.huggingface.co/models/black-forest-labs/FLUX.1-schnell".

(** A service that answers from a list of outcomes, one per request, and
    fails when the list is used up. *)
Definition scripted_post (script : list Posted) (key url inputs : str)
    (img_w img_h : Z) : Posted * list Posted :=
  match script with
  | [] => (Failed, [])
  | outcome :: script' => (outcome, script')
  end.

Definition loading (seconds : Z) : Posted :=
  Responded (mkHttpResponse 503 (py "application/json") []
               (Some (Some seconds))).

Definition picture (body : bytes) : Posted :=
  Responded (mkHttpResponse 200 (py "image/png") body None).

(** A session without the three keys of a logged-in user. *)
Definition logged_out (s : gmap str str) : Prop :=
  s !! py "user" = None /\ s !! py "email" = None /\
  s !! py "language" = None.

(** The session after the three [session.pop]. *)
Definition cleared (s : gmap str str) : gmap str str :=
  delete (py "language") (delete (py "email") (delete (py "user") s)).

(** The language names of the interface. *)
Definition LANGUAGES : list str :=
  [py "English"; py "Spanish"; py "French"; py "German"; py "Italian";
   py "Portuguese"; py "Russian"; py "Chinese"; py "Japanese"; py "Korean";
   py "Arabic"; py "Hindi"; py "Uzbek"].

(** Code of a view that leaves the session as it is. *)
Definition keeps_session {World Connection Cursor A}
    (m : View World Connection Cursor A) : Prop :=
  forall app r app', m app = (r, app') -> session app' = session app.

(** Code of a view that raises nothing. *)
Definition never_raises {World Connection Cursor A}
    (m : View World Connection Cursor A) : Prop :=
  forall app e app', m app <> (Raised e, app').

(** The module holds no connection that answers: [get_db] will try to
    connect. *)
Definition disconnected {World Connection Cursor}
    (is_connected : Connection -> World -> result bool * World)
    (app : App World Connection Cursor) : Prop :=
  match _db app with
  | None => True
  | Some c => (is_connected c (world app)).1 <> Ok true
  end.

(** The server refuses every connection. *)
Definition offline {World Connection}
    (connect : World -> result Connection * World) : Prop :=
  forall w, exists e, (connect w).1 = Raise e.

(** The session [login] leaves after it accepted [email] for the row
    [user]. *)
Definition logged_in_session (s : gmap str str) (email : str)
    (first_name language : option str) : gmap str str :=
  <[py "language" :=
      get_default (lang_map !! text_or language (py "en")) (py "English")]>
    (<[py "email" := email]>
       (<[py "user" := text_or first_name email]> s)).

(** The language [login] restores from the language column. *)
Definition restored_language (language : option str) : str :=
  get_default (lang_map !! text_or language (py "en")) (py "English").

(** A server for the examples: one world, one connection, one cursor;
    every statement succeeds and every [fetchone] returns [row]. *)
Definition always {A} (a : A) (w : unit) : result A * unit := (Ok a, w).
Definition never {A} (w : unit) : result A * unit := (Raise OtherError, w).

Definition example_user : Row :=
  [Some (py "7"); Some (py "ada@example.org"); Some (py "Ada");
   Some (py "Lovelace"); Some (py "scrypt:32768:8:1$salt$c0ffee");
   Some (py "es"); None; None; None].

Definition google_user : Row :=
  [Some (py "8"); Some (py "bob@example.org"); Some (py "Bob");
   Some (py "Babbage"); Some []; None; None; None; Some (py "1089")].

Definition example_app (s : gmap str str) : App unit unit unit :=
  mkApp None None tt s.

Definition login_form (email password : str) : gmap str str :=
  <[py "email" := email]> (<[py "password" := password]> ∅).

Definition ada_session : gmap str str :=
  <[py "user" := py "Ada"]> (<[py "email" := py "ada@example.org"]> ∅).

(** A password check that accepts nothing. *)
Definition reject_all (pwhash password : str) : bool := false.

Definition STORED_HASH : str := py "scrypt:32768:8:1$salt$c0ffee".

(** The views on the example server whose [fetchone] returns [row]. *)
Definition example_login (row : Row) (form : gmap str str)
    : View unit unit unit Reply :=
  login (always tt) (fun _ => always tt) (fun _ => always true)
    (fun _ _ _ => always tt) (fun _ => always (Some row)) reject_all form.

Definition example_download (row : Row) (pres_id : Z)
    : View unit unit unit Reply :=
  download_presentation (always tt) (fun _ => always tt)
    (fun _ => always true) (fun _ _ _ => always tt)
    (fun _ => always (Some row)) pres_id.

(** The application once [get_db] has connected. *)
Definition connected_app (s : gmap str str) : App unit unit unit :=
  mkApp (Some tt) (Some tt) tt s.

(** The session [register] leaves for a new account. *)
Definition registered_session (s : gmap str str)
    (email first_name language : str) : gmap str str :=
  <[py "language" := language]>
    (<[py "email" := email]> (<[py "user" := first_name]> s)).

Definition EMAIL_TAKEN : Reply :=
  render_template (py "register.html")
    (Some (py "An account with this email already exists")).

(** A hash for the examples. *)
Definition example_hash (password : str) (w : unit) : str * unit :=
  ((py "hash$" ++ password)%list, w).

Definition register_form : gmap str str :=
  <[py "email" := py "eve@example.org"]>
    (<[py "first_name" := py "Eve"]>
       (<[py "last_name" := py "Example"]>
          (<[py "password" := py "secret"]> ∅))).

(** A shape that lies on the slide: its box does not cross an edge. *)
Definition on_slide (sh : Shape) : Prop :=
  (0 <= sh_left sh)%Q /\ (0 <= sh_top sh)%Q /\
  (sh_left sh + sh_width sh <= SW)%Q /\ (sh_top sh + sh_height sh <= SH)%Q.

Definition within_slide (s : Slide) : Prop := Forall on_slide (shapes s).

(** The right column of slide 7 has no more rows than the row height
    was computed for: the number of rows of the left column, or one. *)
Definition balanced_columns (d : SlideData) : Prop :=
  forall l r lb rb,
    d_left d = Some l -> d_right d = Some r ->
    c_bullets l = Some lb -> c_bullets r = Some rb ->
    len rb <= Z.max (len lb) 1.

(** Slide 7 of the document, when it is drawn as the grid table, has
    balanced columns. *)
Definition grid_table_balanced (content : Content) : Prop :=
  forall d,
    get_default (k_slide_designs content) ∅ !! py "7" = Some (py "B") ->
    last_numbered (get_default (k_slides content) []) 7 = Some d ->
    balanced_columns d.

(** The claims of the examples. *)
Definition example_claims : gmap str str :=
  <[py "email" := py "bob@example.org"]>
    (<[py "given_name" := py "Bob"]> (<[py "sub" := py "1089"]> ∅)).

(** Events with at most [6 * k] requests and [4 * k] sleeps, each sleep
    between 0 and 60 seconds. *)
Definition bounded_events (k : nat) (new : list NetEvent) : Prop :=
  (length (urls_of new) <= 6 * k)%nat /\
  (length (sleeps_of new) <= 4 * k)%nat /\
  Forall (fun d => 0 <= d <= 60) (sleeps_of new).

(** The seconds slept. *)
Definition seconds_slept (new : list NetEvent) : Z :=
  foldr Z.add 0 (sleeps_of new).
(** * Properties *)

(** ** Reasoning about [result] *)

Lemma bind_Ok {A B} (a : A) (f : A -> result B) : (x ← Ok a; f x) = f a.
Proof. reflexivity. Qed.

Lemma bind_Raise {A B} (e : exn) (f : A -> result B) :
  (x ← Raise e; f x) = Raise e.
Proof. reflexivity. Qed.

Lemma bind_Ok_inv {A B} (m : result A) (f : A -> result B) (b : B) :
  (x ← m; f x) = Ok b -> exists a, m = Ok a /\ f a = Ok b.
Proof. destruct m as [a|e]; [eauto | discriminate]. Qed.

Lemma subscript_Ok_inv {A} (o : option A) (a : A) :
  subscript o = Ok a -> o = Some a.
Proof. destruct o; simpl; congruence. Qed.

(** ** Theme resolution *)

Example apply_theme_navy :
  apply_theme (py "navy") initial_globals =
  Ok (mkGlobals (RGB 15 10 58) (RGB 26 18 100) (RGB 74 69 176)
                (RGB 46 40 144) (RGB 247 247 252) (RGB 255 255 255)
                (RGB 240 240 248)).
Proof. vm_compute. reflexivity. Qed.

Lemma THEMES_unknown (name : str) :
  name ∉ [py "indigo"; py "nature"; py "moss"; py "navy"] ->
  THEMES !! name = None.
Proof.
  intros Hn. unfold THEMES.
  rewrite !lookup_insert_ne, lookup_empty; [reflexivity | ..];
    intros <-; apply Hn; set_solver.
Qed.

Lemma lookup_theme_indigo : lookup_theme (py "indigo") = Ok theme_indigo.
Proof. vm_compute. reflexivity. Qed.

Lemma lookup_theme_total (name : str) :
  lookup_theme name = Ok (get_default (THEMES !! name) theme_indigo).
Proof.
  unfold lookup_theme.
  replace (THEMES !! py "indigo") with (Some theme_indigo)
    by (vm_compute; reflexivity).
  reflexivity.
Qed.

(** C5. Resolving a theme never fails; the seven colours it assigns depend
    on the name alone (not on the colours in force before), so resolving
    the same name twice gives the same palette; and every name that is not
    a key of [THEMES], the empty name among them, gives the palette of
    ["indigo"]. *)
Theorem apply_theme_pure_with_default :
  forall (name : str) (g1 g2 : Globals),
    (exists g', apply_theme name g1 = Ok g') /\
    apply_theme name g1 = apply_theme name g2 /\
    (name ∉ [py "indigo"; py "nature"; py "moss"; py "navy"] ->
     apply_theme name g1 = apply_theme (py "indigo") g1) /\
    apply_theme [] g1 = apply_theme (py "indigo") g1.
Proof.
  intros name g1 g2. unfold apply_theme.
  rewrite !lookup_theme_total. repeat split.
  - eexists. reflexivity.
  - intros Hn. rewrite (THEMES_unknown name Hn). vm_compute. reflexivity.
Qed.

(** An unknown name, resolved: the indigo palette. *)
Lemma apply_theme_pure_with_default_witness :
  apply_theme (py "nonexistent") initial_globals =
  apply_theme (py "indigo") initial_globals.
Proof.
  refine (proj1 (proj2 (proj2
    (apply_theme_pure_with_default (py "nonexistent") initial_globals
       initial_globals))) _).
  vm_compute. intros H. repeat (inversion H as [| ? ? ? H']; subst; clear H; rename H' into H).
Defined.

(** ** File names *)

Example safe_filename_title :
  safe_filename ascii_w ascii_s (py "AI & the  Future: 2030!") =
  py "AI_the_Future_2030".
Proof. vm_compute. reflexivity. Qed.

Example safe_filename_dots :
  safe_filename ascii_w ascii_s (py "...") = py "presentation".
Proof. vm_compute. reflexivity. Qed.

Section SafeFilenameFacts.
Variable re_w : N -> bool.
Variable re_s : N -> bool.

(** What the proofs use of the tables of [re]: no character is both a
    word character and white space; line feed and carriage return are
    white space and the hyphen is not; the underscore and the lower-case
    letters are word characters. *)
Hypothesis w_not_s : forall c, re_w c = true -> re_s c = false.
Hypothesis s_LF : re_s LF = true.
Hypothesis s_CR : re_s CR = true.
Hypothesis s_HYPHEN : re_s HYPHEN = false.
Hypothesis w_UNDERSCORE : re_w UNDERSCORE = true.
Hypothesis w_lower : forall c, (97 <= c <= 122)%N -> re_w c = true.

Lemma clean_not_space c : clean re_w c -> re_s c = false.
Proof. intros [Hw | ->]; auto. Qed.

Lemma clean_kept c : clean re_w c -> stripped re_w re_s c = false.
Proof.
  unfold stripped. intros [-> | ->]; [reflexivity |].
  rewrite N.eqb_refl, !orb_true_r. reflexivity.
Qed.

Lemma clean_not_newline c : clean re_w c -> c <> LF /\ c <> CR.
Proof.
  intros Hc. pose proof (clean_not_space c Hc) as Hs.
  split; intros ->; congruence.
Qed.

Lemma sub_runs_clean (text : str) : forall in_run,
  Forall (clean re_w) (sub_runs re_s in_run (sub_strip re_w re_s text)).
Proof.
  induction text as [| c rest IH]; intros in_run; simpl; [constructor |].
  destruct (stripped re_w re_s c) eqn:Hst; simpl; [apply IH |].
  destruct (re_s c) eqn:Hs.
  - destruct in_run; [apply IH |].
    constructor; [left; exact w_UNDERSCORE | apply IH].
  - constructor; [| apply IH].
    unfold stripped in Hst. rewrite Hs in Hst. unfold clean.
    destruct (re_w c); [left; reflexivity |]. right.
    simpl in Hst. apply negb_false_iff, N.eqb_eq in Hst. exact Hst.
Qed.

Lemma presentation_clean : Forall (clean re_w) (py "presentation").
Proof.
  change (py "presentation")
    with [112; 114; 101; 115; 101; 110; 116; 97; 116; 105; 111; 110]%N.
  repeat (apply List.Forall_cons; [left; apply w_lower; lia |]).
  constructor.
Qed.

Lemma safe_filename_clean (text : str) :
  Forall (clean re_w) (safe_filename re_w re_s text).
Proof.
  unfold safe_filename, sub_whitespace.
  set (t := replace_char CR SPACE (replace_char LF SPACE text)).
  pose proof (sub_runs_clean t false) as Ht.
  apply (Forall_take _ 50%nat) in Ht.
  destruct (take 50 _); [apply presentation_clean | exact Ht].
Qed.

Lemma safe_filename_length (text : str) :
  (length (safe_filename re_w re_s text) <= 50)%nat.
Proof.
  unfold safe_filename.
  match goal with |- context [take 50 ?l] =>
    pose proof (length_take l 50%nat) as Hl; destruct (take 50 l) end.
  - vm_compute. lia.
  - rewrite Hl. apply Nat.le_min_l.
Qed.

Lemma safe_filename_nonempty (text : str) :
  safe_filename re_w re_s text <> [].
Proof.
  unfold safe_filename. destruct (take 50 _); [| discriminate].
  vm_compute. discriminate.
Qed.

Lemma replace_char_clean (old new : N) (y : str) :
  Forall (fun c => c <> old) y -> replace_char old new y = y.
Proof.
  induction 1 as [| c r Hc _ IH]; simpl; [reflexivity |].
  apply N.eqb_neq in Hc. rewrite Hc. f_equal. exact IH.
Qed.

Lemma sub_strip_clean (y : str) :
  Forall (clean re_w) y -> sub_strip re_w re_s y = y.
Proof.
  induction 1 as [| c r Hc _ IH]; simpl; [reflexivity |].
  rewrite (clean_kept c Hc). simpl. f_equal. exact IH.
Qed.

Lemma sub_runs_fixed (y : str) :
  Forall (clean re_w) y -> forall in_run, sub_runs re_s in_run y = y.
Proof.
  induction 1 as [| c r Hc _ IH]; intros in_run; simpl; [reflexivity |].
  rewrite (clean_not_space c Hc). f_equal. apply IH.
Qed.

(** A clean, non-empty name of at most 50 characters is left as it is. *)
Lemma safe_filename_fixed (y : str) :
  Forall (clean re_w) y -> y <> [] -> (length y <= 50)%nat ->
  safe_filename re_w re_s y = y.
Proof.
  intros Hc Hne Hlen. unfold safe_filename, sub_whitespace.
  rewrite (replace_char_clean LF), (replace_char_clean CR);
    try (eapply Forall_impl; [exact Hc |];
         intros c Hcc; apply clean_not_newline; exact Hcc).
  rewrite (sub_strip_clean y Hc), (sub_runs_fixed y Hc).
  rewrite take_ge by exact Hlen.
  destruct y; [contradiction | reflexivity].
Qed.
End SafeFilenameFacts.

Lemma ascii_tables_disjoint c : ascii_w c = true -> ascii_s c = false.
Proof.
  unfold ascii_w, ascii_s. intros H.
  repeat match goal with
  | |- context [(?a <=? ?b)%N] => destruct (N.leb_spec a b)
  | |- context [(?a =? ?b)%N] => destruct (N.eqb_spec a b)
  | H : context [(?a <=? ?b)%N] |- _ => destruct (N.leb_spec a b)
  | H : context [(?a =? ?b)%N] |- _ => destruct (N.eqb_spec a b)
  end; simpl in *; try reflexivity; try discriminate; lia.
Qed.

Lemma ascii_lower_word c : (97 <= c <= 122)%N -> ascii_w c = true.
Proof.
  intros [H1 H2]. unfold ascii_w.
  apply N.leb_le in H1, H2. rewrite H1, H2. simpl.
  rewrite !orb_true_r. reflexivity.
Qed.

(** C4. Whatever the text: sanitising a sanitised name changes nothing,
    the empty text gives ["presentation"], the name has at most 50
    characters, and each of them is a word character (the underscore is
    one) or a hyphen. *)
Theorem safe_filename_idempotent_bounded_clean :
  forall (re_w re_s : N -> bool),
    (forall c, re_w c = true -> re_s c = false) ->
    re_s LF = true -> re_s CR = true -> re_s HYPHEN = false ->
    re_w UNDERSCORE = true ->
    (forall c, (97 <= c <= 122)%N -> re_w c = true) ->
    forall x : str,
      safe_filename re_w re_s (safe_filename re_w re_s x) =
        safe_filename re_w re_s x /\
      safe_filename re_w re_s [] = py "presentation" /\
      (length (safe_filename re_w re_s x) <= 50)%nat /\
      Forall (fun c => re_w c = true \/ c = HYPHEN \/ c = UNDERSCORE)
        (safe_filename re_w re_s x).
Proof.
  intros re_w re_s Hd Hlf Hcr Hhy Hus Hlow x.
  pose proof (safe_filename_clean re_w re_s Hus Hlow x) as Hc.
  repeat split.
  - apply (safe_filename_fixed re_w re_s Hd Hlf Hcr Hhy); auto.
    + apply safe_filename_nonempty.
    + apply safe_filename_length.
  - apply safe_filename_length.
  - eapply Forall_impl; [exact Hc |]. intros c [H | H]; auto.
Qed.

(** The theorem at the tables of the ASCII range and a title with
    punctuation, a line break and repeated blanks. *)
Lemma safe_filename_idempotent_bounded_clean_witness :
  let x := py "Q3 results:
   what's next?" in
  safe_filename ascii_w ascii_s (safe_filename ascii_w ascii_s x) =
    safe_filename ascii_w ascii_s x /\
  safe_filename ascii_w ascii_s x = py "Q3_results_whats_next".
Proof.
  split.
  - apply (safe_filename_idempotent_bounded_clean ascii_w ascii_s
             ascii_tables_disjoint eq_refl eq_refl eq_refl eq_refl
             ascii_lower_word).
  - vm_compute. reflexivity.
Defined.

(** ** Image placeholders *)

(** [int] stays between the whole numbers around its argument. *)
Lemma int_le (x : Q) (n : Z) : (x <= inject_Z n)%Q -> (int x <= n)%Z.
Proof.
  intros H. unfold int. apply Z.quot_le_upper_bound; [reflexivity |].
  unfold Qle in H. simpl in H. lia.
Qed.

Lemma int_ge (x : Q) (n : Z) : (inject_Z n <= x)%Q -> (n <= int x)%Z.
Proof.
  intros H. unfold int. apply Z.quot_le_lower_bound; [reflexivity |].
  unfold Qle in H. simpl in H. lia.
Qed.

(** The sizes whose placeholder python-pptx accepts include every size
    between -4696 and 4697 inches. *)
Lemma margin_accepted_range (size : Q) :
  (-4696 <= size <= 4697)%Q -> margin_accepted (size / 2 - 0.3) = true.
Proof.
  intros [Hlo Hhi]. unfold margin_accepted, Emu, INT32_MIN, INT32_MAX.
  assert (E : (size / 2 == size * (1 # 2))%Q) by reflexivity.
  apply andb_true_iff. split; apply Z.leb_le.
  - apply int_ge. unfold EMUS_PER_INCH, inject_Z. rewrite E. lra.
  - apply int_le. unfold EMUS_PER_INCH, inject_Z. rewrite E. lra.
Qed.

(** The layouts call the image helpers at three sizes only, [IMG_SZ],
    4.50 (slide 6) and [SIDE_H] (slide 1), and python-pptx accepts the
    margin of each. *)
Lemma layout_sizes_accepted :
  margin_accepted (IMG_SZ / 2 - 0.3) = true /\
  margin_accepted (4.50 / 2 - 0.3) = true /\
  margin_accepted (SIDE_H / 2 - 0.3) = true.
Proof. repeat split; vm_compute; reflexivity. Qed.

Lemma checked_placeholder (slide : Slide) (left top width height : Q) :
  Checked.placeholder slide left top width height =
  if margin_accepted (height / 2 - 0.3)
  then Ok (placeholder slide left top width height)
  else Raise ValueError.
Proof.
  unfold Checked.placeholder, set_margin_top, placeholder.
  destruct (margin_accepted _); reflexivity.
Qed.

(** When both checks pass, a helper returns the slide of the helper the
    layouts use. *)
Lemma checked_add_square_image (picture_error : bytes -> option exn)
    (slide : Slide) (image_bytes : option bytes) (left top size : Q) :
  margin_accepted (size / 2 - 0.3) = true ->
  (forall image, image_bytes = Some image -> picture_error image = None) ->
  Checked.add_square_image picture_error slide image_bytes left top size =
  Ok (add_square_image slide image_bytes left top size).
Proof.
  intros Hm Hp. unfold Checked.add_square_image, add_square_image.
  destruct image_bytes as [image |].
  - unfold Checked.add_picture. rewrite (Hp image eq_refl). reflexivity.
  - rewrite checked_placeholder, Hm. reflexivity.
Qed.

Lemma checked_add_side_image (picture_error : bytes -> option exn)
    (slide : Slide) (image_bytes : option bytes) (side : str)
    (width height : Q) :
  margin_accepted (height / 2 - 0.3) = true ->
  (forall image, image_bytes = Some image -> picture_error image = None) ->
  Checked.add_side_image picture_error slide image_bytes side width height =
  Ok (add_side_image slide image_bytes side width height).
Proof.
  intros Hm Hp. unfold Checked.add_side_image, add_side_image.
  cbv zeta. destruct image_bytes as [image |].
  - unfold Checked.add_picture. rewrite (Hp image eq_refl). reflexivity.
  - rewrite checked_placeholder, Hm. reflexivity.
Qed.




(** ** Page indicators *)

Example page_indicator_text :
  shape_texts (page_indicator 7 10) = [py "7 / 10"].
Proof. vm_compute. reflexivity. Qed.

Lemma add_slide_number_last (slide : Slide) (num total : nat) :
  last (shapes (add_slide_number slide num total)) =
  Some (page_indicator num total).
Proof. unfold add_slide_number, add_textbox. simpl. apply last_snoc. Qed.

(** Peeling the binds of a layout that returned a slide, down to its last
    statement. *)
Ltac peel H :=
  cbv beta zeta in H;
  repeat (apply bind_Ok_inv in H; destruct H as (? & _ & H);
          cbv beta zeta in H).

Ltac page_indicator_of layout :=
  let H := fresh "H" in
  intros H; unfold layout in H; peel H;
  injection H as <-; apply add_slide_number_last.

Lemma slide_2a_numbered g data slide :
  slide_2a_dot_badge_rows g data = Ok slide -> ends_with_page_indicator slide 2.
Proof. page_indicator_of slide_2a_dot_badge_rows. Qed.

Lemma slide_2b_numbered g data slide :
  slide_2b_left_accent_cards g data = Ok slide -> ends_with_page_indicator slide 2.
Proof. page_indicator_of slide_2b_left_accent_cards. Qed.

Lemma slide_3a_numbered g data slide :
  slide_3a_three_cards_row g data = Ok slide -> ends_with_page_indicator slide 3.
Proof. page_indicator_of slide_3a_three_cards_row. Qed.

Lemma slide_3b_numbered g data slide :
  slide_3b_four_cards_row g data = Ok slide -> ends_with_page_indicator slide 3.
Proof. page_indicator_of slide_3b_four_cards_row. Qed.

Lemma slide_4a_numbered g data image_bytes slide :
  slide_4a_image_left_bullets g data image_bytes = Ok slide ->
  ends_with_page_indicator slide 4.
Proof. page_indicator_of slide_4a_image_left_bullets. Qed.

Lemma slide_4b_numbered g data image_bytes slide :
  slide_4b_bullets_image_right g data image_bytes = Ok slide ->
  ends_with_page_indicator slide 4.
Proof. page_indicator_of slide_4b_bullets_image_right. Qed.

Lemma slide_5a_numbered g data slide :
  slide_5a_grid_badges g data = Ok slide -> ends_with_page_indicator slide 5.
Proof. page_indicator_of slide_5a_grid_badges. Qed.

Lemma slide_5b_numbered g data slide :
  slide_5b_stat_columns g data = Ok slide -> ends_with_page_indicator slide 5.
Proof. page_indicator_of slide_5b_stat_columns. Qed.

Lemma slide_6a_numbered g data image_bytes slide :
  slide_6a_bullets_banner g data image_bytes = Ok slide ->
  ends_with_page_indicator slide 6.
Proof. page_indicator_of slide_6a_bullets_banner. Qed.

Lemma slide_6b_numbered g data image_bytes slide :
  slide_6b_cards_banner g data image_bytes = Ok slide ->
  ends_with_page_indicator slide 6.
Proof. page_indicator_of slide_6b_cards_banner. Qed.

Lemma slide_7a_numbered g data slide :
  slide_7a_two_cards g data = Ok slide -> ends_with_page_indicator slide 7.
Proof. page_indicator_of slide_7a_two_cards. Qed.

Lemma slide_7b_numbered g data slide :
  slide_7b_grid_table g data = Ok slide -> ends_with_page_indicator slide 7.
Proof. page_indicator_of slide_7b_grid_table. Qed.

Lemma slide_8a_numbered g data slide :
  slide_8a_timeline g data = Ok slide -> ends_with_page_indicator slide 8.
Proof. page_indicator_of slide_8a_timeline. Qed.

Lemma slide_8b_numbered g data slide :
  slide_8b_step_cards g data = Ok slide -> ends_with_page_indicator slide 8.
Proof. page_indicator_of slide_8b_step_cards. Qed.

Lemma slide_9a_numbered g data image_bytes slide :
  slide_9a_stat_image g data image_bytes = Ok slide ->
  ends_with_page_indicator slide 9.
Proof. page_indicator_of slide_9a_stat_image. Qed.

Lemma slide_9b_numbered g data image_bytes slide :
  slide_9b_quote_image g data image_bytes = Ok slide ->
  ends_with_page_indicator slide 9.
Proof. page_indicator_of slide_9b_quote_image. Qed.

Lemma slide_10_numbered g data slide :
  slide_10_closing_cta g data = Ok slide -> ends_with_page_indicator slide 10.
Proof. page_indicator_of slide_10_closing_cta. Qed.

Lemma slide_1_numbered g title subtitle image_bytes :
  ends_with_page_indicator (slide_1_hero_title g title subtitle image_bytes) 1.
Proof. apply add_slide_number_last. Qed.

(** C9. The slide of every layout, both variants of slides 2 to 9 and the
    single layouts of slides 1 and 10, ends with the page indicator
    ["index / 10"] in the bottom-right corner. *)
Theorem every_layout_numbers_its_slide :
  forall (g : Globals) (title subtitle : str) (data : SlideData)
         (image_bytes : option bytes) (slide : Slide),
    ends_with_page_indicator
      (slide_1_hero_title g title subtitle image_bytes) 1 /\
    (slide_2a_dot_badge_rows g data = Ok slide ->
     ends_with_page_indicator slide 2) /\
    (slide_2b_left_accent_cards g data = Ok slide ->
     ends_with_page_indicator slide 2) /\
    (slide_3a_three_cards_row g data = Ok slide ->
     ends_with_page_indicator slide 3) /\
    (slide_3b_four_cards_row g data = Ok slide ->
     ends_with_page_indicator slide 3) /\
    (slide_4a_image_left_bullets g data image_bytes = Ok slide ->
     ends_with_page_indicator slide 4) /\
    (slide_4b_bullets_image_right g data image_bytes = Ok slide ->
     ends_with_page_indicator slide 4) /\
    (slide_5a_grid_badges g data = Ok slide ->
     ends_with_page_indicator slide 5) /\
    (slide_5b_stat_columns g data = Ok slide ->
     ends_with_page_indicator slide 5) /\
    (slide_6a_bullets_banner g data image_bytes = Ok slide ->
     ends_with_page_indicator slide 6) /\
    (slide_6b_cards_banner g data image_bytes = Ok slide ->
     ends_with_page_indicator slide 6) /\
    (slide_7a_two_cards g data = Ok slide ->
     ends_with_page_indicator slide 7) /\
    (slide_7b_grid_table g data = Ok slide ->
     ends_with_page_indicator slide 7) /\
    (slide_8a_timeline g data = Ok slide ->
     ends_with_page_indicator slide 8) /\
    (slide_8b_step_cards g data = Ok slide ->
     ends_with_page_indicator slide 8) /\
    (slide_9a_stat_image g data image_bytes = Ok slide ->
     ends_with_page_indicator slide 9) /\
    (slide_9b_quote_image g data image_bytes = Ok slide ->
     ends_with_page_indicator slide 9) /\
    (slide_10_closing_cta g data = Ok slide ->
     ends_with_page_indicator slide 10).
Proof.
  intros g title subtitle data image_bytes slide.
  split; [apply slide_1_numbered |].
  repeat split;
    eauto using slide_2a_numbered,
      slide_2b_numbered,
      slide_3a_numbered,
      slide_3b_numbered,
      slide_4a_numbered,
      slide_4b_numbered,
      slide_5a_numbered,
      slide_5b_numbered,
      slide_6a_numbered,
      slide_6b_numbered,
      slide_7a_numbered,
      slide_7b_numbered,
      slide_8a_numbered,
      slide_8b_numbered,
      slide_9a_numbered,
      slide_9b_numbered,
      slide_10_numbered.
Qed.

(** ** The grid of slide 7B *)

Lemma truediv_nonzero (a : Q) (z : Z) :
  z <> 0 -> truediv a (float z) = Ok (a / float z)%Q.
Proof.
  intros Hz. unfold truediv.
  destruct (Qeq_bool (float z) 0) eqn:E; [| reflexivity].
  apply Qeq_bool_eq in E. unfold Qeq, float in E. simpl in E. lia.
Qed.

Lemma truediv_zero (a : Q) : truediv a (float 0) = Raise ZeroDivisionError.
Proof. reflexivity. Qed.

Lemma grid_rows_spec (x card_w row_start row_h : Q) (color : RGBColor)
    (bullets : list str) : forall (i : nat) (slide : Slide),
  exists slide',
    for_enumerate (fun j b slide =>
      let y := (row_start + idx j * row_h)%Q in
      let slide :=
        if (0 <? j)%nat
        then add_shape slide RECTANGLE (Inches (x + 0.15)) (Inches y)
               (Inches (card_w - 0.30)) (Pt 0.75)
               (Some CARD_BORDER) LineBackground None None
        else slide in
      mret (add_textbox slide (Inches (x + 0.25)) (Inches (y + 0.06))
              (Inches (card_w - 0.50)) (Inches (row_h - 0.08))
              (frame true
                 [paragraph None
                    [mkRun BULLET (Pt 13) true color;
                     mkRun b (Pt 13) false SLATE]])))
      i bullets slide = Ok slide' /\
    (forall sh, sh ∈ shapes slide -> sh ∈ shapes slide') /\
    (forall k b, bullets !! k = Some b ->
       grid_row x card_w row_start row_h color (i + k) b ∈ shapes slide').
Proof.
  induction bullets as [| b rest IH]; intros i slide.
  - exists slide. split; [reflexivity |]. split; [auto |]. intros k b Hk.
    rewrite lookup_nil in Hk. discriminate.
  - cbn [for_enumerate]. cbv beta zeta. rewrite bind_Ok.
    match goal with |- context [for_enumerate _ (S i) rest ?s] =>
      destruct (IH (S i) s) as (slide' & Hrun & Hold & Hnew);
      assert (Hin : forall sh, sh ∈ shapes slide -> sh ∈ shapes s);
      [| assert (Hrow : grid_row x card_w row_start row_h color i b ∈ shapes s)]
    end.
    + intros sh Hsh. unfold add_textbox, add_shape.
      destruct (0 <? i)%nat; simpl; set_solver.
    + unfold add_textbox, grid_row, Inches. simpl. set_solver.
    + exists slide'. split; [exact Hrun |]. split; [auto |].
      intros [| k] b' Hk.
      * simpl in Hk. injection Hk as <-. rewrite Nat.add_0_r. auto.
      * simpl in Hk. replace (i + S k)%nat with (S i + k)%nat by lia. auto.
Qed.

(** A column of slide 7B is always drawn: the shapes already on the slide
    stay, and row [k] is the text box [grid_row ... k]. *)
Lemma grid_rows_Ok (slide : Slide) (x card_w row_start row_h : Q)
    (color : RGBColor) (bullets : list str) :
  exists slide',
    grid_rows slide x card_w row_start row_h color bullets = Ok slide' /\
    (forall sh, sh ∈ shapes slide -> sh ∈ shapes slide') /\
    (forall k b, bullets !! k = Some b ->
       grid_row x card_w row_start row_h color k b ∈ shapes slide').
Proof.
  unfold grid_rows.
  exact (grid_rows_spec x card_w row_start row_h color bullets 0%nat slide).
Qed.

(** Slide 7B with its fields present: no division by zero, a slide, and
    both columns in rows of the height the left column gives. *)
Lemma slide_7b_rows :
  forall (g : Globals) (data : SlideData) (title lt rt : str)
         (lb rb : list str),
    comparison_data data title lt lb rt rb ->
    let card_w := ((CW - GAP) / 2)%Q in
    let row_start := (CT + 0.80)%Q in
    let row_h := ((5.00 - 1.00) / float (Z.max (len lb) 1))%Q in
    (forall data', slide_7b_grid_table g data' <> Raise ZeroDivisionError) /\
    exists slide,
      slide_7b_grid_table g data = Ok slide /\
      (forall j b, lb !! j = Some b ->
         grid_row MG card_w row_start row_h (ROYAL_BLUE g) j b
           ∈ shapes slide) /\
      (forall j b, rb !! j = Some b ->
         grid_row (MG + card_w + GAP)%Q card_w row_start row_h
           (WARM_CORAL g) j b ∈ shapes slide).
Proof.
  intros g data title lt rt lb rb (Ht & Hl & Hr) card_w row_start row_h.
  split.
  - intros d. unfold slide_7b_grid_table.
    destruct (d_title d); [| discriminate]. cbn [subscript]. rewrite bind_Ok.
    cbv zeta.
    destruct (d_left d) as [L |]; [| discriminate]. cbn [subscript].
    rewrite bind_Ok.
    destruct (d_right d) as [R |]; [| discriminate]. cbn [subscript].
    rewrite bind_Ok.
    destruct (c_title L); [| discriminate]. cbn [subscript]. rewrite bind_Ok.
    destruct (c_bullets L) as [bl |]; [| discriminate]. cbn [subscript].
    rewrite bind_Ok.
    rewrite truediv_nonzero by lia. rewrite bind_Ok.
    match goal with |- context [grid_rows ?s ?x ?cw ?rs ?rh ?c bl] =>
      destruct (grid_rows_Ok s x cw rs rh c bl) as (sl1 & Hrun & _) end.
    rewrite Hrun, bind_Ok.
    destruct (c_title R); [| discriminate]. cbn [subscript]. rewrite bind_Ok.
    destruct (c_bullets R) as [br |]; [| discriminate]. cbn [subscript].
    rewrite bind_Ok.
    match goal with |- context [grid_rows ?s ?x ?cw ?rs ?rh ?c br] =>
      destruct (grid_rows_Ok s x cw rs rh c br) as (sl2 & Hrun2 & _) end.
    rewrite Hrun2, bind_Ok. discriminate.
  - unfold slide_7b_grid_table. rewrite Ht, Hl, Hr. cbn [subscript].
    rewrite !bind_Ok. cbv zeta. cbn [c_title c_bullets subscript].
    rewrite !bind_Ok.
    rewrite truediv_nonzero by lia. rewrite bind_Ok.
    match goal with |- context [grid_rows ?s ?x ?cw ?rs ?rh ?c lb] =>
      pose proof (grid_rows_Ok s x cw rs rh c lb)
        as (sl1 & Hrun & _ & Hrows) end.
    rewrite Hrun, !bind_Ok.
    match goal with |- context [grid_rows ?s ?x ?cw ?rs ?rh ?c rb] =>
      pose proof (grid_rows_Ok s x cw rs rh c rb)
        as (sl2 & Hrun2 & Hold2 & Hrows2) end.
    rewrite Hrun2, bind_Ok.
    eexists. split; [reflexivity |]. split.
    + intros j b Hj. unfold add_slide_number, add_textbox. simpl.
      apply elem_of_app. left. apply Hold2.
      unfold add_textbox, add_shape. simpl.
      apply elem_of_app. left. apply elem_of_app. left.
      apply (Hrows j b Hj).
    + intros j b Hj. unfold add_slide_number, add_textbox. simpl.
      apply elem_of_app. left. apply (Hrows2 j b Hj).
Qed.

(** C10. Slide 7B divides by [max(len(left bullets), 1)]: with the fields
    of the slide present it always returns a slide, also when the left
    list is empty, and no data makes it raise [ZeroDivisionError]; the row
    height is [(5.00 - 1.00) / max(len(left bullets), 1)], and the rows of
    the right column are placed and sized with that same height, whatever
    the number of right bullets. *)
Theorem slide_7b_row_height_from_left_column :
  forall (g : Globals) (data : SlideData) (title lt rt : str)
         (lb rb : list str),
    comparison_data data title lt lb rt rb ->
    let card_w := ((CW - GAP) / 2)%Q in
    let row_start := (CT + 0.80)%Q in
    let row_h := ((5.00 - 1.00) / float (Z.max (len lb) 1))%Q in
    (forall data', slide_7b_grid_table g data' <> Raise ZeroDivisionError) /\
    exists slide,
      slide_7b_grid_table g data = Ok slide /\
      (forall j b, lb !! j = Some b ->
         grid_row MG card_w row_start row_h (ROYAL_BLUE g) j b
           ∈ shapes slide) /\
      (forall j b, rb !! j = Some b ->
         grid_row (MG + card_w + GAP)%Q card_w row_start row_h
           (WARM_CORAL g) j b ∈ shapes slide).
Proof. exact slide_7b_rows. Qed.

(** An instance: the left column has no bullet, the right column has
    two, and the second right row sits one full row height, 4.00 divided
    by 1, below the first. *)
Lemma slide_7b_row_height_from_left_column_witness :
  exists slide,
    slide_7b_grid_table initial_globals left_empty_slide = Ok slide /\
    grid_row (MG + (CW - GAP) / 2 + GAP)%Q ((CW - GAP) / 2)%Q (CT + 0.80)%Q
      ((5.00 - 1.00) / float 1)%Q (WARM_CORAL initial_globals) 1 (py "r2")
      ∈ shapes slide.
Proof.
  destruct (slide_7b_row_height_from_left_column initial_globals
              left_empty_slide (py "Slide title") (py "Left") (py "Right")
              [] [py "r1"; py "r2"] (conj eq_refl (conj eq_refl eq_refl)))
    as (_ & slide & H & _ & Hright).
  exists slide. split; [exact H |]. exact (Hright 1%nat (py "r2") eq_refl).
Defined.

(** ** The assembler *)

Lemma design_is_B_spec (designs : gmap str str) (key : str) :
  design_is_B designs key = bool_decide (designs !! key = Some (py "B")).
Proof.
  unfold design_is_B. destruct (designs !! key) as [v |]; simpl.
  - apply bool_decide_ext. split; [intros -> | intros [= ->]]; reflexivity.
  - vm_compute. reflexivity.
Qed.

(** One [if designs.get(key, "A") == "B": ... else: ...] block that
    returned a slide. *)
Lemma dispatch_inv (designs : gmap str str) (key : str)
    (slides : gmap Z SlideData) (k : Z)
    (variant_a variant_b : SlideData -> result Slide) (s : Slide) :
  (if design_is_B designs key
   then d ← subscript (slides !! k); variant_b d
   else d ← subscript (slides !! k); variant_a d) = Ok s ->
  exists d, slides !! k = Some d /\
            chosen designs key (variant_a d) (variant_b d) = Ok s.
Proof.
  rewrite design_is_B_spec. unfold chosen. intros H.
  destruct (decide (designs !! key = Some (py "B"))) as [e | n];
    [rewrite bool_decide_eq_true_2 in H by exact e
    | rewrite bool_decide_eq_false_2 in H by exact n];
    apply bind_Ok_inv in H; destruct H as (d & Hd & H);
    apply subscript_Ok_inv in Hd; eauto.
Qed.

(** The assembler that returned a deck found the nine slide data and
    appended ten slides, each the result of the layout its design entry
    selects. *)
Lemma assemble_Ok_inv (g : Globals) (prs prs' : Presentation)
    (raw_title subtitle : str) (slide_data : gmap Z SlideData)
    (designs : gmap str str) (images : gmap Z (option bytes)) :
  assemble g prs raw_title subtitle slide_data designs images = Ok prs' ->
  exists d2 d3 d4 d5 d6 d7 d8 d9 d10,
    slide_data !! 2 = Some d2 /\ slide_data !! 3 = Some d3 /\
    slide_data !! 4 = Some d4 /\ slide_data !! 5 = Some d5 /\
    slide_data !! 6 = Some d6 /\ slide_data !! 7 = Some d7 /\
    slide_data !! 8 = Some d8 /\ slide_data !! 9 = Some d9 /\
    slide_data !! 10 = Some d10 /\
    map Ok (slides prs') =
    map Ok (slides prs) ++
    [Ok (slide_1_hero_title g raw_title subtitle (images_get images 1));
     chosen designs (py "2")
       (slide_2a_dot_badge_rows g d2) (slide_2b_left_accent_cards g d2);
     chosen designs (py "3")
       (slide_3a_three_cards_row g d3) (slide_3b_four_cards_row g d3);
     chosen designs (py "4")
       (slide_4a_image_left_bullets g d4 (images_get images 4))
       (slide_4b_bullets_image_right g d4 (images_get images 4));
     chosen designs (py "5")
       (slide_5a_grid_badges g d5) (slide_5b_stat_columns g d5);
     chosen designs (py "6")
       (slide_6a_bullets_banner g d6 (images_get images 6))
       (slide_6b_cards_banner g d6 (images_get images 6));
     chosen designs (py "7")
       (slide_7a_two_cards g d7) (slide_7b_grid_table g d7);
     chosen designs (py "8")
       (slide_8a_timeline g d8) (slide_8b_step_cards g d8);
     chosen designs (py "9")
       (slide_9a_stat_image g d9 (images_get images 9))
       (slide_9b_quote_image g d9 (images_get images 9));
     slide_10_closing_cta g d10].
Proof.
  intros H. unfold assemble in H. cbv beta zeta in H.
  apply bind_Ok_inv in H. destruct H as (s2 & H2 & H).
  apply bind_Ok_inv in H. destruct H as (s3 & H3 & H).
  apply bind_Ok_inv in H. destruct H as (s4 & H4 & H).
  apply bind_Ok_inv in H. destruct H as (s5 & H5 & H).
  apply bind_Ok_inv in H. destruct H as (s6 & H6 & H).
  apply bind_Ok_inv in H. destruct H as (s7 & H7 & H).
  apply bind_Ok_inv in H. destruct H as (s8 & H8 & H).
  apply bind_Ok_inv in H. destruct H as (s9 & H9 & H).
  apply bind_Ok_inv in H. destruct H as (d10 & Hd10 & H).
  apply bind_Ok_inv in H. destruct H as (s10 & H10 & H).
  apply subscript_Ok_inv in Hd10.
  apply dispatch_inv in H2, H3, H4, H5, H6, H7, H8, H9.
  destruct H2 as (d2 & Hd2 & H2). destruct H3 as (d3 & Hd3 & H3).
  destruct H4 as (d4 & Hd4 & H4). destruct H5 as (d5 & Hd5 & H5).
  destruct H6 as (d6 & Hd6 & H6). destruct H7 as (d7 & Hd7 & H7).
  destruct H8 as (d8 & Hd8 & H8). destruct H9 as (d9 & Hd9 & H9).
  exists d2, d3, d4, d5, d6, d7, d8, d9, d10.
  repeat (split; [assumption |]).
  injection H as <-. rewrite H2, H3, H4, H5, H6, H7, H8, H9, H10.
  unfold add_slide. simpl. rewrite !map_app. simpl.
  rewrite <- !app_assoc. reflexivity.
Qed.

(** C6. When the assembler returns, the deck is the deck it was given
    followed by ten slides: the title slide, drawn with the image of
    index 1; for each index 2 to 9 the slide of variant B when the design
    entry of that index is ["B"], and of variant A when the entry is
    absent or is any other value; and the single layout of slide 10.
    Only the layouts of slides 4, 6 and 9 (and the title slide) receive an
    image, so the deck depends on the images of no other index. *)
Theorem assemble_dispatches_on_design :
  forall (g : Globals) (prs prs' : Presentation) (raw_title subtitle : str)
         (slide_data : gmap Z SlideData) (designs : gmap str str)
         (images : gmap Z (option bytes)),
    assemble g prs raw_title subtitle slide_data designs images = Ok prs' ->
    (exists d2 d3 d4 d5 d6 d7 d8 d9 d10,
       slide_data !! 2 = Some d2 /\ slide_data !! 3 = Some d3 /\
       slide_data !! 4 = Some d4 /\ slide_data !! 5 = Some d5 /\
       slide_data !! 6 = Some d6 /\ slide_data !! 7 = Some d7 /\
       slide_data !! 8 = Some d8 /\ slide_data !! 9 = Some d9 /\
       slide_data !! 10 = Some d10 /\
       map Ok (slides prs') =
       map Ok (slides prs) ++
       [Ok (slide_1_hero_title g raw_title subtitle (images_get images 1));
        chosen designs (py "2")
          (slide_2a_dot_badge_rows g d2) (slide_2b_left_accent_cards g d2);
        chosen designs (py "3")
          (slide_3a_three_cards_row g d3) (slide_3b_four_cards_row g d3);
        chosen designs (py "4")
          (slide_4a_image_left_bullets g d4 (images_get images 4))
          (slide_4b_bullets_image_right g d4 (images_get images 4));
        chosen designs (py "5")
          (slide_5a_grid_badges g d5) (slide_5b_stat_columns g d5);
        chosen designs (py "6")
          (slide_6a_bullets_banner g d6 (images_get images 6))
          (slide_6b_cards_banner g d6 (images_get images 6));
        chosen designs (py "7")
          (slide_7a_two_cards g d7) (slide_7b_grid_table g d7);
        chosen designs (py "8")
          (slide_8a_timeline g d8) (slide_8b_step_cards g d8);
        chosen designs (py "9")
          (slide_9a_stat_image g d9 (images_get images 9))
          (slide_9b_quote_image g d9 (images_get images 9));
        slide_10_closing_cta g d10]) /\
    (forall images' : gmap Z (option bytes),
       images_get images' 1 = images_get images 1 ->
       images_get images' 4 = images_get images 4 ->
       images_get images' 6 = images_get images 6 ->
       images_get images' 9 = images_get images 9 ->
       assemble g prs raw_title subtitle slide_data designs images' = Ok prs').
Proof.
  intros g prs prs' raw_title subtitle slide_data designs images H.
  split; [exact (assemble_Ok_inv _ _ _ _ _ _ _ _ H) |].
  intros images' E1 E4 E6 E9. rewrite <- H. unfold assemble.
  rewrite E1, E4, E6, E9. reflexivity.
Qed.

(** The example document, designs A and B alternating: the third slide of
    the deck is the four-card row of variant 3B. *)
Lemma assemble_dispatches_on_design_witness :
  exists prs',
    assemble initial_globals empty_presentation (py "Lighthouses") []
      example_slide_data example_designs ∅ = Ok prs' /\
    map Ok (slides prs') !! 2%nat =
      Some (slide_3b_four_cards_row initial_globals (example_slide 3)).
Proof.
  destruct (assemble initial_globals empty_presentation (py "Lighthouses") []
              example_slide_data example_designs ∅) as [prs' | e] eqn:E.
  - exists prs'. split; [reflexivity |].
    destruct (assemble_dispatches_on_design _ _ _ _ _ _ _ _ E)
      as [(d2 & d3 & d4 & d5 & d6 & d7 & d8 & d9 & d10 & _ & H3 & _ & _ & _
             & _ & _ & _ & _ & Hmap) _].
    rewrite Hmap. vm_compute in H3. injection H3 as <-. reflexivity.
  - vm_compute in E. discriminate.
Defined.

(** ** Saving to the history *)

(** C8. Once the deck is built, the response is the download of the
    serialised deck under the sanitised file name, whatever the three
    database operations do: whether [get_db] finds no connection or raises,
    whether the insertion or the commit raises, the exception stays inside
    [save_history] and the bytes sent are the bytes that were built. *)
Theorem history_failure_keeps_download :
  forall (generate_slide_content : str -> option Content)
         (generate_image : str -> Z -> Z -> option bytes)
         (save : Presentation -> bytes) (re_w re_s : N -> bool)
         (Database : Type)
         (get_db : Database -> result bool * Database)
         (cursor_execute :
            Database -> str -> (str * str * str * bytes) ->
            result unit * Database)
         (db_commit : Database -> result unit * Database)
         (g g' : Globals) (db : Database) (session form : gmap str str)
         (user user_prompt : str) (content : Content) (prs : Presentation),
    session !! py "user" = Some user ->
    form !! py "user_prompt" = Some user_prompt ->
    generate_slide_content user_prompt = Some content ->
    apply_theme (get_default (k_theme content) (py "indigo")) g = Ok g' ->
    build_deck generate_image g' user_prompt content = Ok prs ->
    (generate_ppt generate_slide_content generate_image save re_w re_s
       Database get_db cursor_execute db_commit g db session form).1.1 =
    Ok (SendFile (save prs)
          (safe_filename re_w re_s (get_default (k_title content) user_prompt)
             ++ py ".pptx")
          PPTX_MIMETYPE).
Proof.
  intros gsc gi save re_w re_s Database get_db cursor_execute db_commit
    g g' db session form user user_prompt content prs Hu Hf Hc Ht Hd.
  unfold generate_ppt. rewrite Hu, Hf, Hc, Ht, Hd.
  destruct (save_history _ _ _ _ _ _ _ _ _) as [r db']. reflexivity.
Qed.

(** The example document with a database whose commit fails: the file is
    sent all the same. *)
Lemma history_failure_keeps_download_witness :
  exists data,
    (generate_ppt (fun _ => Some example_content) no_image example_save
       ascii_w ascii_s unit (fun db => (Ok true, db)) db_execute_ok
       db_commit_fails initial_globals tt example_session example_form).1.1 =
    Ok (SendFile data (py "Lighthouses.pptx") PPTX_MIMETYPE) /\
    length data = 10%nat.
Proof.
  destruct (apply_theme (get_default (k_theme example_content) (py "indigo"))
              initial_globals) as [g' | e] eqn:Et;
    [| vm_compute in Et; discriminate].
  destruct (build_deck no_image g' (py "lighthouses") example_content)
    as [prs | e] eqn:Ed.
  - exists (example_save prs). split.
    + exact (history_failure_keeps_download (fun _ => Some example_content)
               no_image example_save ascii_w ascii_s unit
               (fun db => (Ok true, db)) db_execute_ok db_commit_fails
               initial_globals g' tt example_session example_form
               (py "ada") (py "lighthouses") example_content prs
               eq_refl eq_refl eq_refl Et Ed).
    + vm_compute in Et. injection Et as <-. vm_compute in Ed.
      injection Ed as <-. reflexivity.
  - vm_compute in Et. injection Et as <-. vm_compute in Ed. discriminate.
Defined.

(** ** Empty item lists *)

(** C2 (the code at the failing input). A slide whose ["cards"],
    ["steps"] or ["bullets"] list is present and empty makes the seven
    layouts that divide by the item count raise [ZeroDivisionError]: they
    have no guard for [n = 0] and draw nothing. *)
Theorem empty_item_list_divides_by_zero :
  forall g : Globals,
    slide_3a_three_cards_row g (empty_lists_slide 3)
      = Raise ZeroDivisionError /\
    slide_8a_timeline g (empty_lists_slide 8) = Raise ZeroDivisionError /\
    slide_2b_left_accent_cards g (empty_lists_slide 2)
      = Raise ZeroDivisionError /\
    slide_3b_four_cards_row g (empty_lists_slide 3)
      = Raise ZeroDivisionError /\
    slide_5b_stat_columns g (empty_lists_slide 5)
      = Raise ZeroDivisionError /\
    slide_6b_cards_banner g (empty_lists_slide 6) None
      = Raise ZeroDivisionError /\
    slide_8b_step_cards g (empty_lists_slide 8) = Raise ZeroDivisionError.
Proof. intros g. repeat split; reflexivity. Qed.

(** The layouts with fixed geometry, and slide 7B with its [max(..., 1)],
    do draw a slide from the same data. *)
Lemma empty_item_list_fixed_layouts :
  forall g : Globals,
    (exists s, slide_2a_dot_badge_rows g (empty_lists_slide 2) = Ok s) /\
    (exists s, slide_5a_grid_badges g (empty_lists_slide 5) = Ok s) /\
    (exists s, slide_7b_grid_table g (empty_lists_slide 7) = Ok s) /\
    (exists s, slide_10_closing_cta g (empty_lists_slide 10) = Ok s).
Proof. intros g. repeat split; eexists; reflexivity. Qed.

(** C1 (the code at the failing input). The documents
    [content_without_steps] and [content_without_cards] have the slides 2
    to 10, each with every key its layout reads and the item counts the
    prompt asks for, but for one list that is present and empty: the steps
    of slide 8 in the first, the cards of slide 3 in the second.  Either
    request ends in [ZeroDivisionError] and no deck is produced. *)
Theorem deck_of_document_without_cards_raises :
  map d_slide (get_default (k_slides content_without_steps) []) =
    map Some [2; 3; 4; 5; 6; 7; 8; 9; 10] /\
  build_deck some_image initial_globals (py "lighthouses")
    content_without_steps = Raise ZeroDivisionError /\
  (generate_ppt (fun _ => Some content_without_steps) some_image example_save
     ascii_w ascii_s unit (fun db => (Ok true, db)) db_execute_ok
     (fun db => (Ok tt, db)) initial_globals tt example_session
     example_form).1.1 = Raise ZeroDivisionError /\
  map d_slide (get_default (k_slides content_without_cards) []) =
    map Some [2; 3; 4; 5; 6; 7; 8; 9; 10] /\
  build_deck some_image initial_globals (py "lighthouses")
    content_without_cards = Raise ZeroDivisionError /\
  (generate_ppt (fun _ => Some content_without_cards) some_image example_save
     ascii_w ascii_s unit (fun db => (Ok true, db)) db_execute_ok
     (fun db => (Ok tt, db)) initial_globals tt example_session
     example_form).1.1 = Raise ZeroDivisionError.
Proof. repeat split; vm_compute; reflexivity. Qed.

(** ** Loops *)

(** A loop whose body succeeds on every item that satisfies [P], at every
    index below [bound], and takes the invariant [I] from one index to the
    next, succeeds and establishes the invariant at the final index. *)
Lemma for_enumerate_spec {A S} (P : A -> Prop) (I : nat -> S -> Prop)
    (bound : nat) (body : nat -> A -> S -> result S) :
  (forall i x s, (i < bound)%nat -> P x -> I i s ->
     exists s', body i x s = Ok s' /\ I (Datatypes.S i) s') ->
  forall (l : list A) (i : nat) (s : S),
    Forall P l -> (i + length l <= bound)%nat -> I i s ->
    exists s', for_enumerate body i l s = Ok s' /\ I (i + length l)%nat s'.
Proof.
  intros Hbody l. induction l as [| x r IH]; intros i s HP Hlen HI.
  - exists s. rewrite Nat.add_0_r. split; [reflexivity | exact HI].
  - simpl in Hlen. inversion HP as [| ? ? Hx Hr]; subst.
    destruct (Hbody i x s) as (s1 & Hs1 & HI1); [lia | exact Hx | exact HI |].
    destruct (IH (Datatypes.S i) s1 Hr) as (s' & Hs' & HI'); [lia | exact HI1 |].
    exists s'. cbn [for_enumerate]. rewrite Hs1, bind_Ok.
    split; [exact Hs' |].
    replace (i + length (x :: r))%nat with (Datatypes.S i + length r)%nat
      by (simpl; lia).
    exact HI'.
Qed.

Lemma item_Ok {A} (l : list A) (i : nat) :
  (i < length l)%nat -> exists a, item l i = Ok a.
Proof.
  intros H. unfold item. destruct (lookup_lt_is_Some_2 l i H) as [a ->].
  eauto.
Qed.

Lemma len_take_nonzero {A} (n : nat) (l : list A) :
  l <> [] -> (0 < n)%nat -> len (take n l) <> 0.
Proof.
  intros Hl Hn. unfold len. rewrite length_take.
  destruct l; [contradiction | simpl; lia].
Qed.

(** ** Card rows *)

Lemma card_shapes_app (bg : RGBColor) (l1 l2 : list Shape) :
  card_shapes (mkSlide bg (l1 ++ l2)) =
  card_shapes (mkSlide bg l1) ++ List.filter is_card l2.
Proof. unfold card_shapes. simpl. apply List.filter_app. Qed.

Lemma card_shapes_textbox s l t w h tf :
  card_shapes (add_textbox s l t w h tf) = card_shapes s.
Proof.
  unfold add_textbox, card_shapes. simpl.
  rewrite List.filter_app. simpl. apply app_nil_r.
Qed.

Lemma card_shapes_bullet_text g s l t w h bs bc fs tc :
  card_shapes (add_bullet_text g s l t w h bs bc fs tc) = card_shapes s.
Proof. unfold add_bullet_text. apply card_shapes_textbox. Qed.

Lemma card_shapes_rectangle s l t w h fl ln adj tf :
  card_shapes (add_shape s RECTANGLE l t w h fl ln adj tf) = card_shapes s.
Proof.
  unfold add_shape, card_shapes. simpl.
  rewrite List.filter_app. simpl. apply app_nil_r.
Qed.

Lemma card_shapes_slide_number s num total :
  card_shapes (add_slide_number s num total) = card_shapes s.
Proof. unfold add_slide_number. apply card_shapes_textbox. Qed.

(** [add_card] draws one card of the width it is given. *)
Lemma card_shapes_add_card s l t w h bg accent :
  exists sh,
    card_shapes (add_card s l t w h bg accent) = card_shapes s ++ [sh] /\
    sh_width sh = w.
Proof.
  unfold add_card.
  eexists. split.
  - destruct accent; [rewrite card_shapes_rectangle |];
      unfold add_shape, card_shapes; simpl;
      rewrite List.filter_app; reflexivity.
  - reflexivity.
Qed.

Lemma card_shapes_add_card_with_bullets g s l t w h title bs bg ac tc bc :
  exists sh,
    card_shapes (add_card_with_bullets g s l t w h title bs bg ac tc bc) =
      card_shapes s ++ [sh] /\
    sh_width sh = w.
Proof.
  unfold add_card_with_bullets.
  rewrite card_shapes_bullet_text, card_shapes_textbox.
  apply card_shapes_add_card.
Qed.

(** One more card of width [w] in a row of [i] such cards. *)
Lemma row_of_cards_snoc s s' sh i w :
  row_of_cards s i w ->
  card_shapes s' = card_shapes s ++ [sh] -> sh_width sh = w ->
  row_of_cards s' (Datatypes.S i) w.
Proof.
  intros [Hn Hw] E Hsh. unfold row_of_cards. rewrite E. split.
  - rewrite length_app. simpl. lia.
  - apply Forall_app. split; [exact Hw |].
    constructor; [rewrite Hsh; reflexivity | constructor].
Qed.

Lemma row_of_cards_same s s' n w :
  card_shapes s' = card_shapes s -> row_of_cards s n w -> row_of_cards s' n w.
Proof. unfold row_of_cards. intros ->. auto. Qed.

Lemma row_of_cards_titled g bg title n w :
  n = 0%nat -> row_of_cards (section_title (_new_slide g bg) title) n w.
Proof. intros ->. split; [reflexivity | constructor]. Qed.

(** Running a loop found in the goal: [P] holds of the items, [I] is the
    invariant and [bound] bounds the index. *)
Ltac run_loop P I bound s' Hrun Hinv :=
  match goal with
  | |- context [for_enumerate ?body 0%nat ?l ?s0] =>
      let H := fresh "Hloop" in
      assert (H : exists s', for_enumerate body 0%nat l s0 = Ok s' /\
                             I (0 + length l)%nat s');
      [ apply (for_enumerate_spec P I bound body)
      | destruct H as (s' & Hrun & Hinv); rewrite Hrun, bind_Ok ]
  end.

Ltac take_item l i a :=
  let H := fresh in
  destruct (item_Ok l i) as [a H];
  [ simpl; try apply Nat.mod_upper_bound; lia | rewrite H, bind_Ok; clear H ].

Lemma slide_3a_row (g : Globals) (data : SlideData) (title : str)
    (cards : list Card) :
  d_title data = Some title -> d_cards data = Some cards ->
  cards <> [] -> Forall complete_card cards ->
  exists s,
    slide_3a_three_cards_row g data = Ok s /\
    row_of_cards s (min (length cards) 3) (row_width (min (length cards) 3)).
Proof.
  intros Ht Hc Hne Hall. unfold slide_3a_three_cards_row.
  rewrite Ht, Hc. cbn [subscript]. rewrite !bind_Ok. cbv zeta.
  rewrite truediv_nonzero by (apply len_take_nonzero; [exact Hne | lia]).
  rewrite bind_Ok. unfold len. rewrite length_take, Nat.min_comm.
  set (n := min (length cards) 3). fold (row_width n).
  run_loop complete_card (fun i s => row_of_cards s i (row_width n)) 3%nat
    s' Hrun Hinv.
  - intros i c s Hi [[t Et] [b Eb]] HI. rewrite Et, Eb. cbn [subscript].
    rewrite !bind_Ok.
    take_item [WHITE; WHITE; WHITE] i bg.
    take_item [ROYAL_BLUE g; WARM_CORAL g; TEAL g] (i mod 3)%nat accent.
    eexists. split; [reflexivity |].
    match goal with |- row_of_cards (add_card_with_bullets ?g ?s ?l ?t ?w ?h
                                       ?ti ?bs ?bg ?ac ?tc ?bc) _ _ =>
      destruct (card_shapes_add_card_with_bullets g s l t w h ti bs bg ac tc bc)
        as (sh & E & Hw) end.
    eapply row_of_cards_snoc; eauto.
  - apply Forall_take. exact Hall.
  - rewrite length_take. lia.
  - apply row_of_cards_titled. reflexivity.
  - eexists. split; [reflexivity |].
    eapply row_of_cards_same; [apply card_shapes_slide_number |].
    rewrite length_take, Nat.min_comm in Hinv. exact Hinv.
Qed.

Lemma min_len_take_4 {A} (l : list A) : Z.min (len (take 4 l)) 4 = len (take 4 l).
Proof. unfold len. rewrite length_take. lia. Qed.

Lemma take_len {A} (l : list A) : take (Z.to_nat (len l)) l = l.
Proof. unfold len. rewrite Nat2Z.id. apply take_ge. lia. Qed.

Lemma slide_3b_row (g : Globals) (data : SlideData) (title : str)
    (cards : list Card) :
  d_title data = Some title -> d_cards data = Some cards ->
  cards <> [] -> Forall complete_card cards ->
  exists s,
    slide_3b_four_cards_row g data = Ok s /\
    row_of_cards s (min (length cards) 4) (row_width (min (length cards) 4)).
Proof.
  intros Ht Hc Hne Hall. unfold slide_3b_four_cards_row.
  rewrite Ht, Hc. cbn [subscript]. rewrite !bind_Ok. cbv zeta.
  rewrite min_len_take_4, take_len.
  rewrite truediv_nonzero by (apply len_take_nonzero; [exact Hne | lia]).
  rewrite bind_Ok. unfold len. rewrite length_take, Nat.min_comm.
  set (n := min (length cards) 4). fold (row_width n).
  run_loop complete_card (fun i s => row_of_cards s i (row_width n)) 4%nat
    s' Hrun Hinv.
  - intros i c s Hi [[t Et] [b Eb]] HI. rewrite Et, Eb. cbn [subscript].
    rewrite !bind_Ok.
    take_item [LIGHT_BLUE_TINT g; LIGHT_CORAL_TINT g;
               LIGHT_BLUE_TINT g; LIGHT_CORAL_TINT g] i bg.
    take_item [ROYAL_BLUE g; WARM_CORAL g; TEAL g; ROYAL_BLUE g]
      (i mod 4)%nat accent.
    eexists. split; [reflexivity |].
    match goal with |- row_of_cards (add_card_with_bullets ?g ?s ?l ?t ?w ?h
                                       ?ti ?bs ?bg ?ac ?tc ?bc) _ _ =>
      destruct (card_shapes_add_card_with_bullets g s l t w h ti bs bg ac tc bc)
        as (sh & E & Hw) end.
    eapply row_of_cards_snoc; eauto.
  - apply Forall_take. exact Hall.
  - rewrite length_take. lia.
  - apply row_of_cards_titled. reflexivity.
  - eexists. split; [reflexivity |].
    eapply row_of_cards_same; [apply card_shapes_slide_number |].
    rewrite length_take, Nat.min_comm in Hinv. exact Hinv.
Qed.

Lemma slide_5b_row (g : Globals) (data : SlideData) (title : str)
    (cards : list Card) :
  d_title data = Some title -> d_cards data = Some cards ->
  cards <> [] -> Forall complete_card cards ->
  exists s,
    slide_5b_stat_columns g data = Ok s /\
    row_of_cards s (min (length cards) 4) (row_width (min (length cards) 4)).
Proof.
  intros Ht Hc Hne Hall. unfold slide_5b_stat_columns.
  rewrite Ht, Hc. cbn [subscript]. rewrite !bind_Ok. cbv zeta.
  rewrite truediv_nonzero by (apply len_take_nonzero; [exact Hne | lia]).
  rewrite bind_Ok.
  replace (len (take 4 cards)) with (Z.of_nat (min (length cards) 4))
    by (unfold len; rewrite length_take, Nat.min_comm; reflexivity).
  set (n := min (length cards) 4). fold (row_width n).
  run_loop complete_card (fun i s => row_of_cards s i (row_width n)) 4%nat
    s' Hrun Hinv.
  - intros i c s Hi [[t Et] [b Eb]] HI.
    take_item [ROYAL_BLUE g; WARM_CORAL g; TEAL g; ROYAL_BLUE g]
      (i mod 4)%nat color.
    rewrite Et, Eb. cbn [subscript]. rewrite !bind_Ok.
    eexists. split; [reflexivity |].
    match goal with |- context [add_card ?s ?l ?t ?w ?h ?bg ?ac] =>
      destruct (card_shapes_add_card s l t w h bg ac) as (sh & E & Hw) end.
    eapply row_of_cards_snoc; [exact HI | | exact Hw].
    rewrite card_shapes_bullet_text. unfold add_accent_line.
    rewrite card_shapes_rectangle, card_shapes_textbox. exact E.
  - apply Forall_take. exact Hall.
  - rewrite length_take. lia.
  - apply row_of_cards_titled. reflexivity.
  - eexists. split; [reflexivity |].
    eapply row_of_cards_same; [apply card_shapes_slide_number |].
    rewrite length_take, Nat.min_comm in Hinv. exact Hinv.
Qed.

(** Slide 10 draws the cards it is given, three at most, each at the
    third of the row whatever their number. *)
Lemma slide_10_row (g : Globals) (data : SlideData) (title : str)
    (cards : list Card) :
  d_title data = Some title -> d_cards data = Some cards ->
  Forall complete_card cards ->
  exists s,
    slide_10_closing_cta g data = Ok s /\
    row_of_cards s (min (length cards) 3) ((CW - 2 * GAP) / 3)%Q.
Proof.
  intros Ht Hc Hall. unfold slide_10_closing_cta.
  rewrite Ht, Hc. cbn [subscript]. rewrite !bind_Ok. cbv zeta.
  run_loop complete_card
    (fun i s => row_of_cards s i ((CW - 2 * GAP) / 3)%Q) 3%nat s' Hrun Hinv.
  - intros i c s Hi [[t Et] [b Eb]] HI. rewrite Et, Eb. cbn [subscript].
    rewrite !bind_Ok.
    eexists. split; [reflexivity |].
    match goal with |- row_of_cards (add_card_with_bullets ?g ?s ?l ?t ?w ?h
                                       ?ti ?bs ?bg ?ac ?tc ?bc) _ _ =>
      destruct (card_shapes_add_card_with_bullets g s l t w h ti bs bg ac tc bc)
        as (sh & E & Hw) end.
    eapply row_of_cards_snoc; eauto.
  - apply Forall_take. exact Hall.
  - rewrite length_take. lia.
  - split; [reflexivity | constructor].
  - eexists. split; [reflexivity |].
    eapply row_of_cards_same; [apply card_shapes_slide_number |].
    rewrite length_take, Nat.min_comm in Hinv. exact Hinv.
Qed.

(** C3, as the code has it. Slides 3A, 3B and 5B draw the cards
    delivered, at most 3, 4 and 4 of them and at least one, in a row in
    which each card is [(CW - (n - 1) * GAP) / n] wide for the number [n] of
    cards drawn, so fewer cards are wider cards.  Slide 10 draws its cards,
    three at most, at the fixed width [(CW - 2 * GAP) / 3] whatever their
    number. *)
Theorem card_rows_follow_packing_rule :
  forall (g : Globals) (data : SlideData) (title : str) (cards : list Card),
    d_title data = Some title -> d_cards data = Some cards ->
    Forall complete_card cards ->
    (cards <> [] ->
     (exists s,
        slide_3a_three_cards_row g data = Ok s /\
        row_of_cards s (min (length cards) 3)
          (row_width (min (length cards) 3))) /\
     (exists s,
        slide_3b_four_cards_row g data = Ok s /\
        row_of_cards s (min (length cards) 4)
          (row_width (min (length cards) 4))) /\
     (exists s,
        slide_5b_stat_columns g data = Ok s /\
        row_of_cards s (min (length cards) 4)
          (row_width (min (length cards) 4)))) /\
    (exists s,
       slide_10_closing_cta g data = Ok s /\
       row_of_cards s (min (length cards) 3) ((CW - 2 * GAP) / 3)%Q).
Proof.
  intros g data title cards Ht Hc Hall. split.
  - intros Hne.
    split; [exact (slide_3a_row g data title cards Ht Hc Hne Hall) |].
    split; [exact (slide_3b_row g data title cards Ht Hc Hne Hall) |].
    exact (slide_5b_row g data title cards Ht Hc Hne Hall).
  - exact (slide_10_row g data title cards Ht Hc Hall).
Qed.

(** Two cards and nothing else: slide 3A makes them [(CW - GAP) / 2]
    wide. *)
Lemma card_rows_follow_packing_rule_witness :
  exists s,
    slide_3a_three_cards_row initial_globals two_cards_slide = Ok s /\
    row_of_cards s 2 ((CW - float (2 - 1) * GAP) / float 2)%Q.
Proof.
  assert (Hall : Forall complete_card
                   [mkCard (Some (py "Read")) (Some [py "a"]);
                    mkCard (Some (py "Visit")) (Some [py "b"])])
    by (repeat constructor; eexists; reflexivity).
  destruct (card_rows_follow_packing_rule initial_globals two_cards_slide
              (py "Next steps") _ eq_refl eq_refl Hall) as [Hrows _].
  destruct Hrows as [H3a _]; [discriminate |]. exact H3a.
Defined.

(** C3 as it is worded fails on slide 10: with two cards delivered, the
    cards are not [(CW - GAP) / 2] wide, the width of the rule for
    [n = 2]. *)
Lemma slide_10_keeps_nominal_width :
  exists s,
    slide_10_closing_cta initial_globals two_cards_slide = Ok s /\
    length (card_shapes s) = 2%nat /\
    ~ Forall (fun sh => (sh_width sh == row_width 2)%Q) (card_shapes s).
Proof.
  eexists. split; [vm_compute; reflexivity |]. split; [reflexivity |].
  intros H. unfold card_shapes in H. simpl in H.
  inversion H as [| ? ? Hw _]. vm_compute in Hw. discriminate.
Qed.

(** ** Shapes of non-negative size *)

(** Closed comparisons of rationals, and linear ones once the units are
    unfolded. *)
Ltac qclosed := vm_compute; discriminate.
Ltac qlinear :=
  unfold Inches, Pt, CW, SW, SH, MG, CT, GAP, IMG_SZ, IMG_RX, IMG_TOP,
    TXT_BW, SIDE_W, SIDE_H in *;
  lra.

Lemma drawable_snoc bg (l : list Shape) (sh : Shape) :
  Forall nonneg_shape l -> (0 <= sh_width sh)%Q -> (0 <= sh_height sh)%Q ->
  drawable (mkSlide bg (l ++ [sh])).
Proof.
  intros Hl Hw Hh. unfold drawable. simpl. apply Forall_app.
  split; [exact Hl |]. constructor; [split; assumption | constructor].
Qed.

Lemma drawable_new_slide g bg : drawable (_new_slide g bg).
Proof. constructor. Qed.

Lemma drawable_textbox s l t w h tf :
  (0 <= w)%Q -> (0 <= h)%Q -> drawable s -> drawable (add_textbox s l t w h tf).
Proof. intros Hw Hh Hs. apply drawable_snoc; assumption. Qed.

Lemma drawable_shape s k l t w h fl ln adj tf :
  (0 <= w)%Q -> (0 <= h)%Q -> drawable s ->
  drawable (add_shape s k l t w h fl ln adj tf).
Proof. intros Hw Hh Hs. apply drawable_snoc; assumption. Qed.

Lemma drawable_picture s image l t w h :
  (0 <= w)%Q -> (0 <= h)%Q -> drawable s ->
  drawable (add_picture s image l t w h).
Proof. intros Hw Hh Hs. apply drawable_snoc; assumption. Qed.

Lemma drawable_slide_number s num total :
  drawable s -> drawable (add_slide_number s num total).
Proof. intros Hs. apply drawable_textbox; [qclosed | qclosed | exact Hs]. Qed.

Lemma drawable_section_title s txt :
  drawable s -> drawable (section_title s txt).
Proof. intros Hs. apply drawable_textbox; [qclosed | qclosed | exact Hs]. Qed.

Lemma drawable_accent_line g s l t w color :
  (0 <= w)%Q -> drawable s -> drawable (add_accent_line g s l t w color).
Proof. intros Hw Hs. apply drawable_shape; [exact Hw | qclosed | exact Hs]. Qed.

Lemma drawable_circle s l t size color :
  (0 <= size)%Q -> drawable s -> drawable (add_circle s l t size color).
Proof. intros Hw Hs. apply drawable_shape; assumption. Qed.

Lemma drawable_dot_badge g s l t color :
  drawable s -> drawable (add_dot_badge g s l t color).
Proof. intros Hs. apply drawable_shape; [qclosed | qclosed | exact Hs]. Qed.

Lemma drawable_square_image s image l t size :
  (0 <= size)%Q -> drawable s -> drawable (add_square_image s image l t size).
Proof.
  intros Hw Hs. unfold add_square_image, placeholder.
  destruct image; [apply drawable_picture | apply drawable_shape]; assumption.
Qed.

Lemma drawable_side_image s image side w h :
  (0 <= w)%Q -> (0 <= h)%Q -> drawable s ->
  drawable (add_side_image s image side w h).
Proof.
  intros Hw Hh Hs. unfold add_side_image, placeholder.
  destruct image; [apply drawable_picture | apply drawable_shape]; assumption.
Qed.

Lemma drawable_bullet_text g s l t w h bs bc fs tc :
  (0 <= w)%Q -> (0 <= h)%Q -> drawable s ->
  drawable (add_bullet_text g s l t w h bs bc fs tc).
Proof. intros Hw Hh Hs. apply drawable_textbox; assumption. Qed.

Lemma drawable_card s l t w h bg accent :
  (0.16 <= w)%Q -> (0 <= h)%Q -> drawable s ->
  drawable (add_card s l t w h bg accent).
Proof.
  intros Hw Hh Hs. unfold add_card.
  assert (Hc : drawable (add_shape s ROUNDED_RECTANGLE l t w h
                           (Some (or_else bg WHITE))
                           (LineSolid CARD_BORDER (Pt 0.75))
                           (Some CARD_RADIUS) None))
    by (apply drawable_shape; [qlinear | exact Hh | exact Hs]).
  destruct accent; [| exact Hc].
  apply drawable_shape; [qlinear | qclosed | exact Hc].
Qed.

Lemma drawable_card_left_accent s l t w h bg accent :
  (0 <= w)%Q -> (0.16 <= h)%Q -> drawable s ->
  drawable (add_card_left_accent s l t w h bg accent).
Proof.
  intros Hw Hh Hs. unfold add_card_left_accent.
  assert (Hc : drawable (add_shape s ROUNDED_RECTANGLE l t w h
                           (Some (or_else bg WHITE))
                           (LineSolid CARD_BORDER (Pt 0.75))
                           (Some CARD_RADIUS) None))
    by (apply drawable_shape; [exact Hw | qlinear | exact Hs]).
  destruct accent; [| exact Hc].
  apply drawable_shape; [qclosed | qlinear | exact Hc].
Qed.

Lemma drawable_card_with_bullets g s l t w h title bs bg ac tc bc :
  (0.40 <= w)%Q -> (0.70 <= h)%Q -> drawable s ->
  drawable (add_card_with_bullets g s l t w h title bs bg ac tc bc).
Proof.
  intros Hw Hh Hs. unfold add_card_with_bullets.
  apply drawable_bullet_text; [qlinear | qlinear |].
  apply drawable_textbox; [qlinear | qclosed |].
  apply drawable_card; [qlinear | qlinear | exact Hs].
Qed.

(** The text frame of a circle is set on the circle just drawn. *)
Lemma set_text_frame_circle s l t size color tf :
  set_text_frame (add_circle s l t size color) tf =
  add_shape s OVAL l t size size (Some color) LineBackground None (Some tf).
Proof.
  unfold set_text_frame, add_circle, add_shape. simpl.
  rewrite reverse_snoc. simpl. rewrite reverse_involutive. reflexivity.
Qed.

Lemma drawable_stat_banner g s data top h :
  (0 <= h)%Q -> drawable s -> drawable (stat_banner g s data top h).
Proof. intros Hh Hs. apply drawable_shape; [qclosed | exact Hh | exact Hs]. Qed.

(** ** Every layout draws its slide *)

Ltac draw :=
  repeat first
    [ assumption
    | apply drawable_slide_number
    | apply drawable_section_title
    | apply drawable_new_slide
    | apply drawable_stat_banner
    | apply drawable_card_with_bullets
    | apply drawable_card_left_accent
    | apply drawable_card
    | apply drawable_bullet_text
    | apply drawable_accent_line
    | apply drawable_dot_badge
    | apply drawable_square_image
    | apply drawable_side_image
    | apply drawable_circle
    | apply drawable_textbox
    | apply drawable_shape
    | qclosed
    | qlinear
    | unfold Inches; apply Q.min_glb ].

(** The start of a layout: the title and the fields are read. *)
Ltac read_fields :=
  repeat (progress (repeat match goal with
                           | H : _ = Some _ |- _ => rewrite H
                           end;
                    cbn [subscript]; rewrite ?bind_Ok)).

Ltac open_layout layout := unfold layout; cbv zeta; read_fields.

(** The body of a loop over complete cards. *)
Ltac read_card :=
  match goal with
  | H : complete_card ?c |- _ =>
      let t := fresh "t" in let b := fresh "b" in
      let Et := fresh "Et" in let Eb := fresh "Eb" in
      destruct H as [[t Et] [b Eb]]; rewrite ?Et, ?Eb;
      cbn [subscript]; rewrite ?bind_Ok
  end.

Ltac finish_layout Hinv :=
  eexists; split; [reflexivity |]; draw.

Lemma slide_1_draws g title subtitle image_bytes :
  drawable (slide_1_hero_title g title subtitle image_bytes).
Proof.
  unfold slide_1_hero_title. cbv zeta.
  apply drawable_slide_number. destruct subtitle; draw.
Qed.

Lemma slide_2a_draws g d :
  is_Some (d_title d) -> has_cards d ->
  exists s, slide_2a_dot_badge_rows g d = Ok s /\ drawable s.
Proof.
  intros [title Ht] (cs & Hc & _ & Hall). open_layout slide_2a_dot_badge_rows.
  run_loop complete_card (fun (_ : nat) s => drawable s) 3%nat s' Hrun Hinv.
  - intros i c s Hi Hcard HI.
    take_item [ROYAL_BLUE g; WARM_CORAL g; TEAL g] (i mod 3)%nat color.
    read_card. eexists. split; [reflexivity |]. draw.
  - apply Forall_take. exact Hall.
  - rewrite length_take. lia.
  - draw.
  - finish_layout Hinv.
Qed.

Lemma len_take_range {A} (n : nat) (l : list A) :
  l <> [] -> (0 < n)%nat -> 1 <= len (take n l) <= Z.of_nat n.
Proof.
  intros Hl Hn. unfold len. rewrite length_take.
  destruct l; [contradiction | simpl; lia].
Qed.

(** The quotients of the layouts at the item counts they can meet. *)
Lemma row_bound (n : Z) :
  1 <= n <= 4 -> (0.40 <= (CW - float (n - 1) * GAP) / float n)%Q.
Proof.
  intros H. assert (n = 1 \/ n = 2 \/ n = 3 \/ n = 4)
    as [-> | [-> | [-> | ->]]] by lia; qclosed.
Qed.

Lemma stack_bound_2b (n : Z) :
  1 <= n <= 3 ->
  (0.60 <= Qmin ((SH - CT - MG - float (n - 1) * 0.20) / float n) 1.60)%Q.
Proof.
  intros H. assert (n = 1 \/ n = 2 \/ n = 3) as [-> | [-> | ->]] by lia;
    qclosed.
Qed.

Lemma stack_bound_6b (n : Z) :
  1 <= n <= 5 ->
  (0.24 <= Qmin ((SH - 1.10 - CT - 0.20 - float (n - 1) * 0.15) / float n)
             0.80)%Q.
Proof.
  intros H. assert (n = 1 \/ n = 2 \/ n = 3 \/ n = 4 \/ n = 5)
    as [-> | [-> | [-> | [-> | ->]]]] by lia; qclosed.
Qed.

Lemma column_bound_8a (n : Z) : 1 <= n <= 4 -> (0 <= CW / float n)%Q.
Proof.
  intros H. assert (n = 1 \/ n = 2 \/ n = 3 \/ n = 4)
    as [-> | [-> | [-> | ->]]] by lia; qclosed.
Qed.

Lemma stack_bound_8b (n : Z) :
  1 <= n <= 4 ->
  (0.52 <= Qmin ((5.00 - float (n - 1) * 0.20) / float n) 1.10)%Q.
Proof.
  intros H. assert (n = 1 \/ n = 2 \/ n = 3 \/ n = 4)
    as [-> | [-> | [-> | ->]]] by lia; qclosed.
Qed.

Lemma slide_2b_draws g d :
  is_Some (d_title d) -> has_cards d ->
  exists s, slide_2b_left_accent_cards g d = Ok s /\ drawable s.
Proof.
  intros [title Ht] (cs & Hc & Hne & Hall).
  open_layout slide_2b_left_accent_cards.
  pose proof (len_take_range 3 cs Hne ltac:(lia)) as Hn.
  rewrite truediv_nonzero by lia. rewrite bind_Ok.
  match goal with |- context [Qmin ?q 1.60%Q] =>
    assert (Hh : (0.60 <= Qmin q 1.60)%Q) by (apply stack_bound_2b; lia);
    set (card_h := Qmin q 1.60%Q) in *; clearbody card_h end.
  run_loop complete_card (fun (_ : nat) s => drawable s) 3%nat s' Hrun Hinv.
  - intros i c s Hi Hcard HI.
    take_item [ROYAL_BLUE g; WARM_CORAL g; TEAL g] (i mod 3)%nat color.
    read_card. eexists. split; [reflexivity |]. draw.
  - apply Forall_take. exact Hall.
  - rewrite length_take. lia.
  - draw.
  - finish_layout Hinv.
Qed.

Lemma slide_3a_draws g d :
  is_Some (d_title d) -> has_cards d ->
  exists s, slide_3a_three_cards_row g d = Ok s /\ drawable s.
Proof.
  intros [title Ht] (cs & Hc & Hne & Hall).
  open_layout slide_3a_three_cards_row.
  pose proof (len_take_range 3 cs Hne ltac:(lia)) as Hn.
  rewrite truediv_nonzero by lia. rewrite bind_Ok.
  match goal with |- context [for_enumerate _ _ _ _] =>
    pose proof (row_bound (len (take 3 cs)) ltac:(lia)) as Hw end.
  set (card_w := ((CW - float (len (take 3 cs) - 1) * GAP) /
                  float (len (take 3 cs)))%Q) in *.
  clearbody card_w.
  run_loop complete_card (fun (_ : nat) s => drawable s) 3%nat s' Hrun Hinv.
  - intros i c s Hi Hcard HI. read_card.
    take_item [WHITE; WHITE; WHITE] i bg.
    take_item [ROYAL_BLUE g; WARM_CORAL g; TEAL g] (i mod 3)%nat accent.
    eexists. split; [reflexivity |]. draw.
  - apply Forall_take. exact Hall.
  - rewrite length_take. lia.
  - draw.
  - finish_layout Hinv.
Qed.

Lemma slide_3b_draws g d :
  is_Some (d_title d) -> has_cards d ->
  exists s, slide_3b_four_cards_row g d = Ok s /\ drawable s.
Proof.
  intros [title Ht] (cs & Hc & Hne & Hall).
  open_layout slide_3b_four_cards_row.
  rewrite min_len_take_4, take_len.
  pose proof (len_take_range 4 cs Hne ltac:(lia)) as Hn.
  rewrite truediv_nonzero by lia. rewrite bind_Ok.
  pose proof (row_bound (len (take 4 cs)) ltac:(lia)) as Hw.
  set (card_w := ((CW - float (len (take 4 cs) - 1) * GAP) /
                  float (len (take 4 cs)))%Q) in *.
  clearbody card_w.
  run_loop complete_card (fun (_ : nat) s => drawable s) 4%nat s' Hrun Hinv.
  - intros i c s Hi Hcard HI. read_card.
    take_item [LIGHT_BLUE_TINT g; LIGHT_CORAL_TINT g;
               LIGHT_BLUE_TINT g; LIGHT_CORAL_TINT g] i bg.
    take_item [ROYAL_BLUE g; WARM_CORAL g; TEAL g; ROYAL_BLUE g]
      (i mod 4)%nat accent.
    eexists. split; [reflexivity |]. draw.
  - apply Forall_take. exact Hall.
  - rewrite length_take. lia.
  - draw.
  - finish_layout Hinv.
Qed.

Lemma slide_4a_draws g d image_bytes :
  is_Some (d_title d) -> has_bullets d ->
  exists s, slide_4a_image_left_bullets g d image_bytes = Ok s /\ drawable s.
Proof.
  intros [title Ht] (bs & Hb & _). open_layout slide_4a_image_left_bullets.
  finish_layout I.
Qed.

Lemma slide_4b_draws g d image_bytes :
  is_Some (d_title d) -> has_bullets d ->
  exists s, slide_4b_bullets_image_right g d image_bytes = Ok s /\ drawable s.
Proof.
  intros [title Ht] (bs & Hb & _). open_layout slide_4b_bullets_image_right.
  finish_layout I.
Qed.

Lemma slide_5a_draws g d :
  is_Some (d_title d) -> has_cards d ->
  exists s, slide_5a_grid_badges g d = Ok s /\ drawable s.
Proof.
  intros [title Ht] (cs & Hc & _ & Hall). open_layout slide_5a_grid_badges.
  run_loop complete_card (fun (_ : nat) s => drawable s) 4%nat s' Hrun Hinv.
  - intros i c s Hi Hcard HI.
    match goal with |- context [item ?positions i] =>
      take_item positions i p end.
    destruct p as [lx ly]. read_card.
    take_item [WHITE; LIGHT_BLUE_TINT g; LIGHT_BLUE_TINT g; WHITE] i bg.
    take_item [TEAL g; TEAL g; TEAL g; TEAL g] i accent.
    eexists. split; [reflexivity |].
    rewrite set_text_frame_circle. draw.
  - apply Forall_take. exact Hall.
  - rewrite length_take. lia.
  - draw.
  - finish_layout Hinv.
Qed.

Lemma slide_5b_draws g d :
  is_Some (d_title d) -> has_cards d ->
  exists s, slide_5b_stat_columns g d = Ok s /\ drawable s.
Proof.
  intros [title Ht] (cs & Hc & Hne & Hall).
  open_layout slide_5b_stat_columns.
  pose proof (len_take_range 4 cs Hne ltac:(lia)) as Hn.
  rewrite truediv_nonzero by lia. rewrite bind_Ok.
  pose proof (row_bound (len (take 4 cs)) ltac:(lia)) as Hw.
  set (card_w := ((CW - float (len (take 4 cs) - 1) * GAP) /
                  float (len (take 4 cs)))%Q) in *.
  clearbody card_w.
  run_loop complete_card (fun (_ : nat) s => drawable s) 4%nat s' Hrun Hinv.
  - intros i c s Hi Hcard HI.
    take_item [ROYAL_BLUE g; WARM_CORAL g; TEAL g; ROYAL_BLUE g]
      (i mod 4)%nat color.
    read_card. eexists. split; [reflexivity |]. draw.
  - apply Forall_take. exact Hall.
  - rewrite length_take. lia.
  - draw.
  - finish_layout Hinv.
Qed.

Lemma slide_6a_draws g d image_bytes :
  is_Some (d_title d) -> has_bullets d ->
  exists s, slide_6a_bullets_banner g d image_bytes = Ok s /\ drawable s.
Proof.
  intros [title Ht] (bs & Hb & _). open_layout slide_6a_bullets_banner.
  finish_layout I.
Qed.

Lemma slide_6b_draws g d image_bytes :
  is_Some (d_title d) -> has_bullets d ->
  exists s, slide_6b_cards_banner g d image_bytes = Ok s /\ drawable s.
Proof.
  intros [title Ht] (bs & Hb & Hne). open_layout slide_6b_cards_banner.
  assert (Hn : 1 <= Z.min (len bs) 5 <= 5)
    by (unfold len; destruct bs; [contradiction | simpl; lia]).
  rewrite truediv_nonzero by lia. rewrite bind_Ok.
  match goal with |- context [Qmin ?q 0.80%Q] =>
    assert (Hh : (0.24 <= Qmin q 0.80)%Q) by (apply stack_bound_6b; lia);
    set (card_h := Qmin q 0.80%Q) in *; clearbody card_h end.
  run_loop (fun _ : str => True) (fun (_ : nat) s => drawable s) 5%nat
    s' Hrun Hinv.
  - intros i b s Hi _ HI.
    take_item [ROYAL_BLUE g; WARM_CORAL g; TEAL g; ROYAL_BLUE g; WARM_CORAL g]
      (i mod 5)%nat accent.
    rewrite ?bind_Ok.
    eexists. split; [reflexivity |]. draw.
  - apply Forall_true. auto.
  - rewrite length_take. lia.
  - draw.
  - finish_layout Hinv.
Qed.

Lemma slide_7a_draws g d :
  is_Some (d_title d) -> has_sides d ->
  exists s, slide_7a_two_cards g d = Ok s /\ drawable s.
Proof.
  intros [title Ht] (l & r & Hl & Hr & [[lt Elt] [lb Elb]] & [[rt Ert] [rb Erb]]).
  open_layout slide_7a_two_cards.
  finish_layout I.
Qed.

Lemma slide_8a_draws g d :
  is_Some (d_title d) -> has_steps d ->
  exists s, slide_8a_timeline g d = Ok s /\ drawable s.
Proof.
  intros [title Ht] (ss & Hs & Hne & Hall). open_layout slide_8a_timeline.
  pose proof (len_take_range 4 ss Hne ltac:(lia)) as Hn.
  rewrite truediv_nonzero by lia. rewrite bind_Ok.
  pose proof (column_bound_8a (len (take 4 ss)) ltac:(lia)) as Hw.
  set (step_w := (CW / float (len (take 4 ss)))%Q) in *. clearbody step_w.
  run_loop complete_card (fun (_ : nat) s => drawable s) 4%nat s' Hrun Hinv.
  - intros i c s Hi Hcard HI.
    take_item [ROYAL_BLUE g; WARM_CORAL g; TEAL g; ROYAL_BLUE g]
      (i mod 4)%nat color.
    read_card.
    eexists. split; [reflexivity |].
    rewrite set_text_frame_circle. draw.
  - apply Forall_take. exact Hall.
  - rewrite length_take. lia.
  - draw.
  - finish_layout Hinv.
Qed.

Lemma slide_8b_draws g d :
  is_Some (d_title d) -> has_steps d ->
  exists s, slide_8b_step_cards g d = Ok s /\ drawable s.
Proof.
  intros [title Ht] (ss & Hs & Hne & Hall). open_layout slide_8b_step_cards.
  pose proof (len_take_range 4 ss Hne ltac:(lia)) as Hn.
  rewrite truediv_nonzero by lia. rewrite bind_Ok.
  match goal with |- context [Qmin ?q 1.10%Q] =>
    assert (Hh : (0.52 <= Qmin q 1.10)%Q) by (apply stack_bound_8b; lia);
    set (card_h := Qmin q 1.10%Q) in *; clearbody card_h end.
  run_loop complete_card (fun (_ : nat) s => drawable s) 4%nat s' Hrun Hinv.
  - intros i c s Hi Hcard HI.
    take_item [ROYAL_BLUE g; WARM_CORAL g; TEAL g; ROYAL_BLUE g]
      (i mod 4)%nat accent.
    read_card.
    eexists. split; [reflexivity |].
    rewrite set_text_frame_circle. draw.
  - apply Forall_take. exact Hall.
  - rewrite length_take. lia.
  - draw.
  - finish_layout Hinv.
Qed.

Lemma slide_9a_draws g d image_bytes :
  is_Some (d_title d) -> has_bullets d ->
  exists s, slide_9a_stat_image g d image_bytes = Ok s /\ drawable s.
Proof.
  intros [title Ht] (bs & Hb & _). open_layout slide_9a_stat_image.
  finish_layout I.
Qed.

Lemma slide_9b_draws g d image_bytes :
  is_Some (d_title d) -> has_bullets d ->
  exists s, slide_9b_quote_image g d image_bytes = Ok s /\ drawable s.
Proof.
  intros [title Ht] (bs & Hb & _). open_layout slide_9b_quote_image.
  finish_layout I.
Qed.

Lemma slide_10_draws g d :
  is_Some (d_title d) -> has_cards d ->
  exists s, slide_10_closing_cta g d = Ok s /\ drawable s.
Proof.
  intros [title Ht] (cs & Hc & _ & Hall). open_layout slide_10_closing_cta.
  run_loop complete_card (fun (_ : nat) s => drawable s) 3%nat s' Hrun Hinv.
  - intros i c s Hi Hcard HI. read_card.
    eexists. split; [reflexivity |]. draw.
  - apply Forall_take. exact Hall.
  - rewrite length_take. lia.
  - draw.
  - finish_layout Hinv.
Qed.

Lemma slide_7b_returns g d :
  is_Some (d_title d) -> has_sides d ->
  exists s, slide_7b_grid_table g d = Ok s.
Proof.
  intros [title Ht] (l & r & Hl & Hr & Hcl & Hcr).
  destruct l as [lt lb], r as [rt rb].
  destruct Hcl as [[lt' Elt] [lb' Elb]], Hcr as [[rt' Ert] [rb' Erb]].
  simpl in Elt, Elb, Ert, Erb. subst.
  destruct (slide_7b_rows g d title lt' rt' lb' rb'
              (conj Ht (conj Hl Hr))) as (_ & s & Hs & _).
  eauto.
Qed.

(** Slide 7B has no bound on its rows: up to fifty bullets on the left the
    rows keep a height that is not negative. *)
Lemma grid_rows_draws (slide : Slide) (x card_w row_start row_h : Q)
    (color : RGBColor) (bullets : list str) :
  (0.50 <= card_w)%Q -> (0.08 <= row_h)%Q -> drawable slide ->
  exists slide',
    grid_rows slide x card_w row_start row_h color bullets = Ok slide' /\
    drawable slide'.
Proof.
  intros Hw Hh Hs. unfold grid_rows.
  destruct (for_enumerate_spec (fun _ : str => True)
              (fun (_ : nat) s => drawable s) (length bullets)
              (fun j b slide =>
                 let y := (row_start + idx j * row_h)%Q in
                 let slide :=
                   if (0 <? j)%nat
                   then add_shape slide RECTANGLE (Inches (x + 0.15))
                          (Inches y) (Inches (card_w - 0.30)) (Pt 0.75)
                          (Some CARD_BORDER) LineBackground None None
                   else slide in
                 mret (add_textbox slide (Inches (x + 0.25))
                         (Inches (y + 0.06)) (Inches (card_w - 0.50))
                         (Inches (row_h - 0.08))
                         (frame true
                            [paragraph None
                               [mkRun BULLET (Pt 13) true color;
                                mkRun b (Pt 13) false SLATE]])))
              ) with (l := bullets) (i := 0%nat) (s := slide)
    as (s' & Hrun & Hinv).
  - intros i b s Hi _ HI. eexists. split; [reflexivity |].
    cbv zeta. destruct (0 <? i)%nat; draw.
  - apply Forall_true. auto.
  - lia.
  - exact Hs.
  - eauto.
Qed.

Lemma row_height_bound (m : Z) :
  1 <= m <= 50 -> (0.08 <= (5.00 - 1.00) / float m)%Q.
Proof.
  intros Hm. apply Qle_shift_div_l.
  - unfold float. apply (Qlt_le_trans _ 1); [reflexivity |].
    change 1%Q with (inject_Z 1). rewrite <- Zle_Qle. lia.
  - assert (float m <= 50)%Q
      by (unfold float; change 50%Q with (inject_Z 50);
          rewrite <- Zle_Qle; lia).
    lra.
Qed.

Lemma slide_7b_draws g d :
  is_Some (d_title d) -> has_sides d ->
  (forall l lb, d_left d = Some l -> c_bullets l = Some lb ->
                (length lb <= 50)%nat) ->
  exists s, slide_7b_grid_table g d = Ok s /\ drawable s.
Proof.
  intros [title Ht] (l & r & Hl & Hr & [[lt Elt] [lb Elb]] & [[rt Ert] [rb Erb]])
    Hmax.
  specialize (Hmax l lb Hl Elb).
  open_layout slide_7b_grid_table.
  rewrite truediv_nonzero by lia. rewrite bind_Ok.
  assert (Hh : (0.08 <= (5.00 - 1.00) / float (Z.max (len lb) 1))%Q)
    by (apply row_height_bound; unfold len; lia).
  set (row_h := ((5.00 - 1.00) / float (Z.max (len lb) 1))%Q) in *.
  clearbody row_h.
  match goal with |- context [grid_rows ?s ?x ?cw ?rs row_h ?c lb] =>
    destruct (grid_rows_draws s x cw rs row_h c lb) as (s1 & Hrun1 & Hd1);
    [qclosed | exact Hh | draw |] end.
  rewrite Hrun1, bind_Ok. read_fields.
  match goal with |- context [grid_rows ?s ?x ?cw ?rs row_h ?c rb] =>
    destruct (grid_rows_draws s x cw rs row_h c rb) as (s2 & Hrun2 & Hd2);
    [qclosed | exact Hh | draw |] end.
  rewrite Hrun2, bind_Ok.
  finish_layout I.
Qed.

(** With at least one item, the seven layouts that divide by the item
    count return a slide, and no shape on it has a negative width or
    height. *)
Lemma nonempty_item_lists_are_drawn (g : Globals) (d : SlideData)
    (image_bytes : option bytes) :
  is_Some (d_title d) ->
  (has_cards d ->
   (exists s, slide_2b_left_accent_cards g d = Ok s /\ drawable s) /\
   (exists s, slide_3a_three_cards_row g d = Ok s /\ drawable s) /\
   (exists s, slide_3b_four_cards_row g d = Ok s /\ drawable s) /\
   (exists s, slide_5b_stat_columns g d = Ok s /\ drawable s)) /\
  (has_bullets d ->
   exists s, slide_6b_cards_banner g d image_bytes = Ok s /\ drawable s) /\
  (has_steps d ->
   (exists s, slide_8a_timeline g d = Ok s /\ drawable s) /\
   (exists s, slide_8b_step_cards g d = Ok s /\ drawable s)).
Proof.
  intros Ht. repeat split; intros;
    auto using slide_2b_draws, slide_3a_draws, slide_3b_draws, slide_5b_draws,
      slide_6b_draws, slide_8a_draws, slide_8b_draws.
Qed.

(** ** Ten slides *)

Lemma dispatch_Ok (designs : gmap str str) (key : str)
    (slide_data : gmap Z SlideData) (k : Z) (d : SlideData)
    (variant_a variant_b : SlideData -> result Slide) :
  slide_data !! k = Some d ->
  (exists s, variant_a d = Ok s) -> (exists s, variant_b d = Ok s) ->
  exists s,
    (if design_is_B designs key
     then d ← subscript (slide_data !! k); variant_b d
     else d ← subscript (slide_data !! k); variant_a d) = Ok s /\
    (variant_a d = Ok s \/ variant_b d = Ok s).
Proof.
  intros Hk [sa Ha] [sb Hb]. rewrite Hk. cbn [subscript]. rewrite !bind_Ok.
  destruct (design_is_B designs key); eauto.
Qed.

Lemma returns {P : Slide -> Prop} (r : result Slide) :
  (exists s, r = Ok s /\ P s) -> exists s, r = Ok s.
Proof. intros (s & Hs & _). eauto. Qed.

(** With the data of slides 2 to 10 present and well formed, the ten
    layout calls succeed on a presentation without slides, whatever the
    designs and the images, and leave ten slides whose page indicators
    count from 1 to 10. *)
Lemma assemble_well_formed (g : Globals) (raw_title subtitle : str)
    (slide_data : gmap Z SlideData) (designs : gmap str str)
    (images : gmap Z (option bytes)) :
  (forall k, 2 <= k <= 10 ->
     exists d, slide_data !! k = Some d /\ well_formed k d) ->
  exists prs,
    assemble g empty_presentation raw_title subtitle slide_data designs images
      = Ok prs /\
    length (slides prs) = 10%nat /\
    (forall (i : nat) (s : Slide),
       slides prs !! i = Some s -> ends_with_page_indicator s (S i)).
Proof.
  intros Hall.
  destruct (Hall 2 ltac:(lia)) as (d2 & H2 & Ht2 & Hf2).
  destruct (Hall 3 ltac:(lia)) as (d3 & H3 & Ht3 & Hf3).
  destruct (Hall 4 ltac:(lia)) as (d4 & H4 & Ht4 & Hf4).
  destruct (Hall 5 ltac:(lia)) as (d5 & H5 & Ht5 & Hf5).
  destruct (Hall 6 ltac:(lia)) as (d6 & H6 & Ht6 & Hf6).
  destruct (Hall 7 ltac:(lia)) as (d7 & H7 & Ht7 & Hf7).
  destruct (Hall 8 ltac:(lia)) as (d8 & H8 & Ht8 & Hf8).
  destruct (Hall 9 ltac:(lia)) as (d9 & H9 & Ht9 & Hf9).
  destruct (Hall 10 ltac:(lia)) as (d10 & H10 & Ht10 & Hf10).
  cbn beta iota in Hf2, Hf3, Hf4, Hf5, Hf6, Hf7, Hf8, Hf9, Hf10.
  unfold assemble. cbv zeta.
  destruct (dispatch_Ok designs (py "2") slide_data 2 d2
              (slide_2a_dot_badge_rows g) (slide_2b_left_accent_cards g) H2)
    as (s2 & -> & N2);
    [eapply returns, slide_2a_draws | eapply returns, slide_2b_draws |]; auto.
  destruct (dispatch_Ok designs (py "3") slide_data 3 d3
              (slide_3a_three_cards_row g) (slide_3b_four_cards_row g) H3)
    as (s3 & -> & N3);
    [eapply returns, slide_3a_draws | eapply returns, slide_3b_draws |]; auto.
  destruct (dispatch_Ok designs (py "4") slide_data 4 d4
              (fun d => slide_4a_image_left_bullets g d (images_get images 4))
              (fun d => slide_4b_bullets_image_right g d (images_get images 4))
              H4)
    as (s4 & -> & N4);
    [eapply returns, slide_4a_draws | eapply returns, slide_4b_draws |]; auto.
  destruct (dispatch_Ok designs (py "5") slide_data 5 d5
              (slide_5a_grid_badges g) (slide_5b_stat_columns g) H5)
    as (s5 & -> & N5);
    [eapply returns, slide_5a_draws | eapply returns, slide_5b_draws |]; auto.
  destruct (dispatch_Ok designs (py "6") slide_data 6 d6
              (fun d => slide_6a_bullets_banner g d (images_get images 6))
              (fun d => slide_6b_cards_banner g d (images_get images 6)) H6)
    as (s6 & -> & N6);
    [eapply returns, slide_6a_draws | eapply returns, slide_6b_draws |]; auto.
  destruct (dispatch_Ok designs (py "7") slide_data 7 d7
              (slide_7a_two_cards g) (slide_7b_grid_table g) H7)
    as (s7 & -> & N7);
    [eapply returns, slide_7a_draws | apply slide_7b_returns |]; auto.
  destruct (dispatch_Ok designs (py "8") slide_data 8 d8
              (slide_8a_timeline g) (slide_8b_step_cards g) H8)
    as (s8 & -> & N8);
    [eapply returns, slide_8a_draws | eapply returns, slide_8b_draws |]; auto.
  destruct (dispatch_Ok designs (py "9") slide_data 9 d9
              (fun d => slide_9a_stat_image g d (images_get images 9))
              (fun d => slide_9b_quote_image g d (images_get images 9)) H9)
    as (s9 & -> & N9);
    [eapply returns, slide_9a_draws | eapply returns, slide_9b_draws |]; auto.
  rewrite !bind_Ok, H10. cbn [subscript]. rewrite bind_Ok.
  destruct (slide_10_draws g d10 Ht10 Hf10) as (s10 & E10 & _).
  rewrite E10, bind_Ok.
  eexists. split; [reflexivity |]. split; [reflexivity |].
  intros i s Hi. simpl in Hi.
  do 10 (destruct i as [| i];
         [ injection Hi as <-;
           first [ solve [apply slide_1_numbered]
                 | solve [destruct N2; eauto using slide_2a_numbered, slide_2b_numbered]
                 | solve [destruct N3; eauto using slide_3a_numbered, slide_3b_numbered]
                 | solve [destruct N4; eauto using slide_4a_numbered, slide_4b_numbered]
                 | solve [destruct N5; eauto using slide_5a_numbered, slide_5b_numbered]
                 | solve [destruct N6; eauto using slide_6a_numbered, slide_6b_numbered]
                 | solve [destruct N7; eauto using slide_7a_numbered, slide_7b_numbered]
                 | solve [destruct N8; eauto using slide_8a_numbered, slide_8b_numbered]
                 | solve [destruct N9; eauto using slide_9a_numbered, slide_9b_numbered]
                 | solve [eauto using slide_10_numbered] ]
         | simpl in Hi ]).
  discriminate.
Qed.

(** The deck of a content document whose slides 2 to 10 are present and
    well formed: ten slides, numbered in order. *)
Lemma build_deck_well_formed (generate_image : str -> Z -> Z -> option bytes)
    (g : Globals) (user_prompt : str) (content : Content)
    (slide_data : gmap Z SlideData) :
  index_slides (get_default (k_slides content) []) ∅ = Ok slide_data ->
  (forall k, 2 <= k <= 10 ->
     exists d, slide_data !! k = Some d /\ well_formed k d) ->
  exists prs,
    build_deck generate_image g user_prompt content = Ok prs /\
    length (slides prs) = 10%nat /\
    (forall (i : nat) (s : Slide),
       slides prs !! i = Some s -> ends_with_page_indicator s (S i)).
Proof.
  intros Hidx Hall. unfold build_deck. rewrite Hidx, bind_Ok.
  apply (assemble_well_formed g _ _ slide_data _ _ Hall).
Qed.

(** The end-to-end scenarios of the specification: the example document
    with designs A and B alternating, with images and without any. *)
Example example_deck_with_images :
  exists prs,
    build_deck some_image initial_globals (py "lighthouses") example_content
      = Ok prs /\
    map (fun s => length (shapes s)) (slides prs) =
      [5; 11; 18; 4; 22; 5; 14; 15; 6; 15]%nat.
Proof. eexists. split; vm_compute; reflexivity. Qed.

Example example_deck_without_images :
  exists prs,
    build_deck no_image initial_globals (py "lighthouses") example_content
      = Ok prs /\
    map (fun s => List.filter (fun t => bool_decide (t = py "IMAGE"))
                    (flat_map shape_texts (shapes s)))
        (slides prs) =
      [[py "IMAGE"]; []; []; [py "IMAGE"]; []; [py "IMAGE"]; []; []; 
       [py "IMAGE"]; []].
Proof. eexists. split; vm_compute; reflexivity. Qed.

(** The document of the failing requests with all its items: ten
    slides. *)
Example nominal_deck_variant_A :
  exists prs,
    build_deck some_image initial_globals (py "lighthouses")
      (mkContent (k_title content_without_steps) None None None None
         (Some [example_slide 2; cards_slide 3 (take 3 four_cards);
                example_slide 4; example_slide 5; example_slide 6;
                example_slide 7; example_slide 8; example_slide 9;
                example_slide 10])) = Ok prs /\
    length (slides prs) = 10%nat.
Proof. eexists. split; vm_compute; reflexivity. Qed.

(** Slide 5B with two of its four cards: two columns of half the row. *)
Example slide_5b_two_cards :
  exists s,
    slide_5b_stat_columns initial_globals two_cards_slide = Ok s /\
    map sh_width (card_shapes s) = [(CW - float (2 - 1) * GAP) / float 2;
                                    (CW - float (2 - 1) * GAP) / float 2]%Q.
Proof. eexists. split; reflexivity. Qed.

(** An instance: slide 5B of the example document ends with the
    indicator "5 / 10". *)
Lemma every_layout_numbers_its_slide_witness :
  exists s,
    slide_5b_stat_columns initial_globals (example_slide 5) = Ok s /\
    (shape_texts <$> last (shapes s)) = Some [py "5 / 10"].
Proof.
  destruct (slide_5b_stat_columns initial_globals (example_slide 5))
    as [s | e] eqn:E; [| vm_compute in E; discriminate].
  exists s. split; [reflexivity |].
  pose proof (every_layout_numbers_its_slide initial_globals [] []
                (example_slide 5) None s) as H.
  destruct H as (_ & _ & _ & _ & _ & _ & _ & _ & H5b & _).
  unfold ends_with_page_indicator in H5b. rewrite (H5b E). reflexivity.
Defined.

(** * Further properties of the code *)

(** ** Decks that are sent *)

Lemma chosen_cases (designs : gmap str str) (key : str)
    (a b : result Slide) (s : Slide) :
  chosen designs key a b = Ok s -> a = Ok s \/ b = Ok s.
Proof. unfold chosen. destruct (decide _); auto. Qed.

(** A deck the assembler returns for a presentation without slides has
    ten slides, numbered in order. *)
Lemma assemble_ten_numbered (g : Globals) (prs : Presentation)
    (raw_title subtitle : str) (slide_data : gmap Z SlideData)
    (designs : gmap str str) (images : gmap Z (option bytes)) :
  assemble g empty_presentation raw_title subtitle slide_data designs images
    = Ok prs ->
  length (slides prs) = 10%nat /\ numbered_in_order prs.
Proof.
  intros H. apply assemble_Ok_inv in H.
  destruct H as (d2 & d3 & d4 & d5 & d6 & d7 & d8 & d9 & d10 & _ & _ & _ & _
                 & _ & _ & _ & _ & _ & Hmap).
  simpl in Hmap.
  assert (Hlen : length (slides prs) = 10%nat)
    by (rewrite <- (length_map Ok), Hmap; reflexivity).
  split; [exact Hlen |].
  destruct (slides prs) as [| s1 [| s2 [| s3 [| s4 [| s5 [| s6 [| s7 [| s8
    [| s9 [| s10 [| ? ?]]]]]]]]]]] eqn:Es; try discriminate.
  simpl in Hmap.
  injection Hmap as E1 E2 E3 E4 E5 E6 E7 E8 E9 E10.
  symmetry in E2, E3, E4, E5, E6, E7, E8, E9, E10.
  apply chosen_cases in E2, E3, E4, E5, E6, E7, E8, E9.
  unfold numbered_in_order. rewrite Es. intros i s Hi.
  do 10 (destruct i as [| i];
         [ simpl in Hi; injection Hi as <-;
           first
             [ solve [subst; apply slide_1_numbered]
             | solve [destruct E2; eauto using slide_2a_numbered, slide_2b_numbered]
             | solve [destruct E3; eauto using slide_3a_numbered, slide_3b_numbered]
             | solve [destruct E4; eauto using slide_4a_numbered, slide_4b_numbered]
             | solve [destruct E5; eauto using slide_5a_numbered, slide_5b_numbered]
             | solve [destruct E6; eauto using slide_6a_numbered, slide_6b_numbered]
             | solve [destruct E7; eauto using slide_7a_numbered, slide_7b_numbered]
             | solve [destruct E8; eauto using slide_8a_numbered, slide_8b_numbered]
             | solve [destruct E9; eauto using slide_9a_numbered, slide_9b_numbered]
             | solve [eauto using slide_10_numbered] ]
         | simpl in Hi ]).
  discriminate.
Qed.

Lemma build_deck_ten_numbered (generate_image : str -> Z -> Z -> option bytes)
    (g : Globals) (user_prompt : str) (content : Content) (prs : Presentation) :
  build_deck generate_image g user_prompt content = Ok prs ->
  length (slides prs) = 10%nat /\ numbered_in_order prs.
Proof.
  unfold build_deck. intros H.
  apply bind_Ok_inv in H. destruct H as (slide_data & _ & H).
  exact (assemble_ten_numbered _ _ _ _ _ _ _ H).
Qed.

(** X1. Every file [generate_ppt] sends is the serialisation of a deck of
    exactly ten slides whose page indicators read 1 to 10 in order,
    whatever the content document, the designs and the images were. *)
Theorem sent_file_is_ten_slide_deck :
  forall (generate_slide_content : str -> option Content)
         (generate_image : str -> Z -> Z -> option bytes)
         (save : Presentation -> bytes) (re_w re_s : N -> bool)
         (Database : Type)
         (get_db : Database -> result bool * Database)
         (cursor_execute :
            Database -> str -> (str * str * str * bytes) ->
            result unit * Database)
         (db_commit : Database -> result unit * Database)
         (g g' : Globals) (db db' : Database) (session form : gmap str str)
         (data : bytes) (name mimetype : str),
    generate_ppt generate_slide_content generate_image save re_w re_s
      Database get_db cursor_execute db_commit g db session form =
    (Ok (SendFile data name mimetype), g', db') ->
    exists prs,
      data = save prs /\ length (slides prs) = 10%nat /\ numbered_in_order prs.
Proof.
  intros gsc gi save re_w re_s Database get_db cursor_execute db_commit
    g g' db db' session form data name mimetype H.
  unfold generate_ppt in H.
  destruct (session !! py "user"); [| discriminate].
  destruct (form !! py "user_prompt") as [user_prompt |]; [| discriminate].
  destruct (gsc user_prompt) as [content |]; [| discriminate].
  destruct (apply_theme _ g) as [g1 |]; [| discriminate].
  destruct (build_deck gi g1 user_prompt content) as [prs |] eqn:Ed;
    [| discriminate].
  destruct (save_history _ _ _ _ _ _ _ _ _) as [r db1].
  injection H as <- _ _ _ _. exists prs.
  split; [reflexivity |]. exact (build_deck_ten_numbered _ _ _ _ _ Ed).
Qed.

(** The example request: the file sent is the deck of ten slides. *)
Lemma sent_file_is_ten_slide_deck_witness :
  exists prs,
    (generate_ppt (fun _ => Some example_content) some_image example_save
       ascii_w ascii_s unit db_offline db_execute_ok db_commit_fails
       initial_globals tt example_session example_form).1.1 =
      Ok (SendFile (example_save prs) (py "Lighthouses.pptx") PPTX_MIMETYPE) /\
    length (slides prs) = 10%nat.
Proof.
  destruct (generate_ppt (fun _ => Some example_content) some_image
              example_save ascii_w ascii_s unit db_offline db_execute_ok
              db_commit_fails initial_globals tt example_session example_form)
    as [[r g'] db'] eqn:E.
  pose proof E as E'. vm_compute in E'. injection E' as Er _ _.
  destruct r as [[location | message status | data name mimetype] | e];
    try discriminate.
  destruct (sent_file_is_ten_slide_deck _ _ _ _ _ _ _ _ _ _ _ _ _ _ _ _ _ _ E)
    as (prs & Hdata & Hlen & _).
  exists prs. split; [| exact Hlen].
  simpl. rewrite <- Hdata. injection Er as _ <- <-. reflexivity.
Defined.

(** ** Card rows tile the content width *)

Lemma card_shapes_add_card_at s l t w h bg accent :
  exists sh,
    card_shapes (add_card s l t w h bg accent) = card_shapes s ++ [sh] /\
    sh_left sh = l /\ sh_top sh = t /\ sh_width sh = w /\ sh_height sh = h.
Proof.
  unfold add_card. eexists. split.
  - destruct accent; [rewrite card_shapes_rectangle |];
      unfold add_shape, card_shapes; simpl;
      rewrite List.filter_app; reflexivity.
  - repeat split.
Qed.

Lemma card_shapes_add_card_with_bullets_at g s l t w h title bs bg ac tc bc :
  exists sh,
    card_shapes (add_card_with_bullets g s l t w h title bs bg ac tc bc) =
      card_shapes s ++ [sh] /\
    sh_left sh = l /\ sh_top sh = t /\ sh_width sh = w /\ sh_height sh = h.
Proof.
  unfold add_card_with_bullets.
  rewrite card_shapes_bullet_text, card_shapes_textbox.
  apply card_shapes_add_card_at.
Qed.

Lemma spaced_row_snoc s s' sh i w :
  spaced_row s i w ->
  card_shapes s' = card_shapes s ++ [sh] ->
  sh_left sh = Inches (MG + idx i * (w + GAP))%Q -> sh_top sh = Inches CT ->
  sh_width sh = Inches w -> sh_height sh = Inches 5.00%Q ->
  spaced_row s' (S i) w.
Proof.
  intros [Hn Hrow] E Hl Ht Hw Hh. unfold spaced_row. rewrite E. split.
  - rewrite length_app. simpl. lia.
  - intros j sh' Hj. destruct (decide (j < i)%nat) as [Hlt | Hge].
    + rewrite lookup_app_l in Hj by lia. auto.
    + rewrite lookup_app_r in Hj by lia. rewrite Hn in Hj.
      destruct (j - i)%nat as [| k] eqn:Ej; simpl in Hj; [| discriminate].
      injection Hj as <-. assert (j = i) as -> by lia.
      rewrite Hl, Ht, Hw, Hh. unfold Inches. repeat split; reflexivity.
Qed.

Lemma spaced_row_titled g bg title w :
  spaced_row (section_title (_new_slide g bg) title) 0 w.
Proof.
  split; [reflexivity |]. intros i sh Hi.
  change (card_shapes (section_title (_new_slide g bg) title))
    with (@nil Shape) in Hi.
  rewrite lookup_nil in Hi. discriminate.
Qed.

Lemma spaced_row_same s s' n w :
  card_shapes s' = card_shapes s -> spaced_row s n w -> spaced_row s' n w.
Proof. unfold spaced_row. intros ->. auto. Qed.

Ltac place_card HI :=
  match goal with
  | |- spaced_row (add_card_with_bullets ?g ?s ?l ?t ?w ?h
                     ?ti ?bs ?bg ?ac ?tc ?bc) _ _ =>
      destruct (card_shapes_add_card_with_bullets_at
                  g s l t w h ti bs bg ac tc bc)
        as (sh & E & Hl & Htop & Hw & Hh);
      exact (spaced_row_snoc _ _ _ _ _ HI E Hl Htop Hw Hh)
  end.

Lemma slide_3a_spaced (g : Globals) (data : SlideData) (title : str)
    (cards : list Card) :
  d_title data = Some title -> d_cards data = Some cards ->
  cards <> [] -> Forall complete_card cards ->
  exists s,
    slide_3a_three_cards_row g data = Ok s /\
    spaced_row s (min (length cards) 3) (row_width (min (length cards) 3)).
Proof.
  intros Ht Hc Hne Hall. unfold slide_3a_three_cards_row.
  rewrite Ht, Hc. cbn [subscript]. rewrite !bind_Ok. cbv zeta.
  rewrite truediv_nonzero by (apply len_take_nonzero; [exact Hne | lia]).
  rewrite bind_Ok. unfold len. rewrite length_take, Nat.min_comm.
  set (n := min (length cards) 3). fold (row_width n).
  run_loop complete_card (fun i s => spaced_row s i (row_width n)) 3%nat
    s' Hrun Hinv.
  - intros i c s Hi [[t Et] [b Eb]] HI. rewrite Et, Eb. cbn [subscript].
    rewrite !bind_Ok.
    take_item [WHITE; WHITE; WHITE] i bg.
    take_item [ROYAL_BLUE g; WARM_CORAL g; TEAL g] (i mod 3)%nat accent.
    eexists. split; [reflexivity |]. place_card HI.
  - apply Forall_take. exact Hall.
  - rewrite length_take. lia.
  - apply spaced_row_titled.
  - eexists. split; [reflexivity |].
    eapply spaced_row_same; [apply card_shapes_slide_number |].
    rewrite length_take, Nat.min_comm in Hinv. exact Hinv.
Qed.

Lemma slide_3b_spaced (g : Globals) (data : SlideData) (title : str)
    (cards : list Card) :
  d_title data = Some title -> d_cards data = Some cards ->
  cards <> [] -> Forall complete_card cards ->
  exists s,
    slide_3b_four_cards_row g data = Ok s /\
    spaced_row s (min (length cards) 4) (row_width (min (length cards) 4)).
Proof.
  intros Ht Hc Hne Hall. unfold slide_3b_four_cards_row.
  rewrite Ht, Hc. cbn [subscript]. rewrite !bind_Ok. cbv zeta.
  rewrite min_len_take_4, take_len.
  rewrite truediv_nonzero by (apply len_take_nonzero; [exact Hne | lia]).
  rewrite bind_Ok. unfold len. rewrite length_take, Nat.min_comm.
  set (n := min (length cards) 4). fold (row_width n).
  run_loop complete_card (fun i s => spaced_row s i (row_width n)) 4%nat
    s' Hrun Hinv.
  - intros i c s Hi [[t Et] [b Eb]] HI. rewrite Et, Eb. cbn [subscript].
    rewrite !bind_Ok.
    take_item [LIGHT_BLUE_TINT g; LIGHT_CORAL_TINT g;
               LIGHT_BLUE_TINT g; LIGHT_CORAL_TINT g] i bg.
    take_item [ROYAL_BLUE g; WARM_CORAL g; TEAL g; ROYAL_BLUE g]
      (i mod 4)%nat accent.
    eexists. split; [reflexivity |]. place_card HI.
  - apply Forall_take. exact Hall.
  - rewrite length_take. lia.
  - apply spaced_row_titled.
  - eexists. split; [reflexivity |].
    eapply spaced_row_same; [apply card_shapes_slide_number |].
    rewrite length_take, Nat.min_comm in Hinv. exact Hinv.
Qed.

Lemma slide_5b_spaced (g : Globals) (data : SlideData) (title : str)
    (cards : list Card) :
  d_title data = Some title -> d_cards data = Some cards ->
  cards <> [] -> Forall complete_card cards ->
  exists s,
    slide_5b_stat_columns g data = Ok s /\
    spaced_row s (min (length cards) 4) (row_width (min (length cards) 4)).
Proof.
  intros Ht Hc Hne Hall. unfold slide_5b_stat_columns.
  rewrite Ht, Hc. cbn [subscript]. rewrite !bind_Ok. cbv zeta.
  rewrite truediv_nonzero by (apply len_take_nonzero; [exact Hne | lia]).
  rewrite bind_Ok.
  replace (len (take 4 cards)) with (Z.of_nat (min (length cards) 4))
    by (unfold len; rewrite length_take, Nat.min_comm; reflexivity).
  set (n := min (length cards) 4). fold (row_width n).
  run_loop complete_card (fun i s => spaced_row s i (row_width n)) 4%nat
    s' Hrun Hinv.
  - intros i c s Hi [[t Et] [b Eb]] HI.
    take_item [ROYAL_BLUE g; WARM_CORAL g; TEAL g; ROYAL_BLUE g]
      (i mod 4)%nat color.
    rewrite Et, Eb. cbn [subscript]. rewrite !bind_Ok.
    eexists. split; [reflexivity |].
    match goal with |- context [add_card ?s ?l ?t ?w ?h ?bg ?ac] =>
      destruct (card_shapes_add_card_at s l t w h bg ac)
        as (sh & E & Hl & Htop & Hw & Hh) end.
    eapply spaced_row_snoc; [exact HI | | exact Hl | exact Htop | exact Hw
                            | exact Hh].
    rewrite card_shapes_bullet_text. unfold add_accent_line.
    rewrite card_shapes_rectangle, card_shapes_textbox. exact E.
  - apply Forall_take. exact Hall.
  - rewrite length_take. lia.
  - apply spaced_row_titled.
  - eexists. split; [reflexivity |].
    eapply spaced_row_same; [apply card_shapes_slide_number |].
    rewrite length_take, Nat.min_comm in Hinv. exact Hinv.
Qed.

(** [int] and [Emu] do not depend on the fraction that writes a number. *)
Lemma int_Qeq (x y : Q) : (x == y)%Q -> int x = int y.
Proof.
  intros E. unfold int, Qeq in *.
  rewrite <- (Z.quot_mul_cancel_r (Qnum x) (Z.pos (Qden x)) (Z.pos (Qden y)))
    by discriminate.
  rewrite <- (Z.quot_mul_cancel_r (Qnum y) (Z.pos (Qden y)) (Z.pos (Qden x)))
    by discriminate.
  rewrite E. f_equal. apply Z.mul_comm.
Qed.

Lemma Emu_Qeq (x y : Q) : (x == y)%Q -> Emu x = Emu y.
Proof. intros E. unfold Emu. apply int_Qeq. rewrite E. reflexivity. Qed.

(** The edges of a card of a spaced row, in EMU. *)
Lemma spaced_row_edges s n w i sh :
  spaced_row s n w -> card_shapes s !! i = Some sh ->
  emu_left sh = Emu (MG + idx i * (w + GAP)) /\
  emu_right sh = Emu (MG + idx i * (w + GAP)) + Emu w.
Proof.
  intros [_ Hrow] Hi. destruct (Hrow i sh Hi) as (Hl & Hw & _).
  unfold emu_left, emu_right.
  rewrite (Emu_Qeq _ _ Hl), (Emu_Qeq _ _ Hw). split; reflexivity.
Qed.

(** The rows of the packing rule, for the one to four cards a layout
    draws: in EMU the cards tile the content width. *)
Lemma spaced_row_tiled (s : Slide) (n : nat) :
  (1 <= n <= 4)%nat -> spaced_row s n (row_width n) -> tiled_row s n.
Proof.
  intros Hn Hrow. pose proof Hrow as [Hlen _].
  split; [exact Hlen |]. split; [| split].
  - intros sh H0. destruct (spaced_row_edges _ _ _ _ _ Hrow H0) as [-> _].
    apply Emu_Qeq. unfold idx, float. simpl. ring.
  - intros i a b Ha Hb.
    pose proof (lookup_lt_Some _ _ _ Hb) as Hlt. rewrite Hlen in Hlt.
    destruct (spaced_row_edges _ _ _ _ _ Hrow Ha) as [_ ->].
    destruct (spaced_row_edges _ _ _ _ _ Hrow Hb) as [-> _].
    assert (Hc : ((n = 2 /\ i = 0) \/ (n = 3 /\ (i = 0 \/ i = 1)) \/
                  (n = 4 /\ (i = 0 \/ i = 1 \/ i = 2)))%nat) by lia.
    destruct Hc as [[-> ->] | [[-> [-> | ->]] | [-> [-> | [-> | ->]]]]];
      vm_compute; split; discriminate.
  - intros sh Hl. rewrite last_lookup, Hlen in Hl.
    destruct (spaced_row_edges _ _ _ _ _ Hrow Hl) as [_ ->].
    assert (Hc : (n = 1 \/ n = 2 \/ n = 3 \/ n = 4)%nat) by lia.
    destruct Hc as [-> | [-> | [-> | ->]]];
      vm_compute; split; discriminate.
Qed.

(** X4. The cards slides 3A, 3B and 5B draw tile the content width, in
    the whole EMU python-pptx keeps of each length: the first card
    starts at the left margin [MG]; each next card starts after the card
    before it has ended, [GAP] further or one EMU more, so no two
    overlap; and the last card ends at the right margin [MG + CW] or one
    EMU before it. *)
Theorem card_rows_tile_content_width :
  forall (g : Globals) (data : SlideData) (title : str) (cards : list Card)
         (s3a s3b s5b : Slide),
    d_title data = Some title -> d_cards data = Some cards ->
    cards <> [] -> Forall complete_card cards ->
    (slide_3a_three_cards_row g data = Ok s3a ->
     tiled_row s3a (min (length cards) 3)) /\
    (slide_3b_four_cards_row g data = Ok s3b ->
     tiled_row s3b (min (length cards) 4)) /\
    (slide_5b_stat_columns g data = Ok s5b ->
     tiled_row s5b (min (length cards) 4)).
Proof.
  intros g data title cards s3a s3b s5b Ht Hc Hne Hall.
  assert (1 <= length cards)%nat
    by (destruct cards; [contradiction | simpl; lia]).
  split; [| split]; intros Hs.
  - destruct (slide_3a_spaced g data title cards Ht Hc Hne Hall)
      as (s & E & Hrow).
    rewrite Hs in E. injection E as <-.
    apply spaced_row_tiled; [lia | exact Hrow].
  - destruct (slide_3b_spaced g data title cards Ht Hc Hne Hall)
      as (s & E & Hrow).
    rewrite Hs in E. injection E as <-.
    apply spaced_row_tiled; [lia | exact Hrow].
  - destruct (slide_5b_spaced g data title cards Ht Hc Hne Hall)
      as (s & E & Hrow).
    rewrite Hs in E. injection E as <-.
    apply spaced_row_tiled; [lia | exact Hrow].
Qed.

(** Two cards on slide 3B: both are 5410047 EMU wide, the first from
    548640 and the second from 6233007, so the gap is 274320 EMU and the
    row ends at 11643054, one EMU before the right margin 11643055. *)
Lemma card_rows_tile_content_width_witness :
  exists s a b,
    slide_3b_four_cards_row initial_globals two_cards_slide = Ok s /\
    tiled_row s 2 /\
    card_shapes s = [a; b] /\
    emu_left a = 548640 /\ emu_right a = 5958687 /\
    emu_left b = 6233007 /\ emu_right b = 11643054 /\
    Emu (MG + CW) = 11643055.
Proof.
  assert (Hall : Forall complete_card
                   [mkCard (Some (py "Read")) (Some [py "a"]);
                    mkCard (Some (py "Visit")) (Some [py "b"])])
    by (repeat constructor; eexists; reflexivity).
  destruct (slide_3b_four_cards_row initial_globals two_cards_slide)
    as [s | e] eqn:E; [| vm_compute in E; discriminate E].
  destruct (card_rows_tile_content_width initial_globals two_cards_slide
              (py "Next steps") _ s s s eq_refl eq_refl
              ltac:(discriminate) Hall)
    as (_ & H3b & _).
  specialize (H3b E).
  vm_compute in E. injection E as <-.
  do 3 eexists. split; [reflexivity |]. split; [exact H3b |].
  split; [reflexivity |]. repeat split; vm_compute; reflexivity.
Defined.

(** ** The slide index and the images *)

Lemma index_slides_app (l : list SlideData) : forall (s : SlideData) m,
  index_slides (l ++ [s]) m =
  m' ← index_slides l m; k ← subscript (d_slide s); Ok (<[k := s]> m').
Proof.
  induction l as [| a l IH]; intros s m; cbn [index_slides app].
  - rewrite bind_Ok. destruct (d_slide s); reflexivity.
  - destruct (d_slide a) as [k |]; cbn [subscript].
    + rewrite !bind_Ok. apply IH.
    + reflexivity.
Qed.

Lemma index_slides_spec (l : list SlideData) :
  match index_slides l ∅ with
  | Ok m => Forall numbered l /\ forall k, m !! k = last_numbered l k
  | Raise e => e = KeyError /\ Exists (fun s => d_slide s = None) l
  end.
Proof.
  induction l as [| s l IH] using rev_ind.
  - cbn. split; [constructor | intros k; apply lookup_empty].
  - rewrite index_slides_app.
    destruct (index_slides l ∅) as [m | e].
    + destruct IH as [Hall Hm]. rewrite bind_Ok.
      destruct (d_slide s) as [k |] eqn:Ek; cbn [subscript].
      * rewrite bind_Ok. split.
        -- apply Forall_app. split; [exact Hall |].
           constructor; [| constructor]. unfold numbered. congruence.
        -- intros j. unfold last_numbered. rewrite rev_unit.
           cbn [List.find]. rewrite Ek.
           destruct (decide (k = j)) as [-> | Hne].
           ++ rewrite bool_decide_eq_true_2 by reflexivity.
              apply lookup_insert_eq.
           ++ rewrite bool_decide_eq_false_2 by congruence.
              rewrite lookup_insert_ne by exact Hne. apply Hm.
      * split; [reflexivity |]. apply Exists_app. right. constructor.
        exact Ek.
    + destruct IH as [-> Hex]. split; [reflexivity |].
      apply Exists_app. left. exact Hex.
Qed.

(** X5. The slide index [{s["slide"]: s for s in ...}]: it exists exactly
    when every entry of the list carries a slide number, a KeyError
    otherwise; and where a number is repeated, the index holds the last
    entry that carries it. *)
Theorem index_slides_keeps_last_entry :
  forall l : list SlideData,
    match index_slides l ∅ with
    | Ok m => Forall numbered l /\ forall k, m !! k = last_numbered l k
    | Raise e => e = KeyError /\ Exists (fun s => d_slide s = None) l
    end.
Proof. exact index_slides_spec. Qed.

Lemma images_get_insert (images : gmap Z (option bytes)) (k j : Z)
    (v : option bytes) :
  images_get (<[k := v]> images) j =
  if decide (k = j) then v else images_get images j.
Proof.
  unfold images_get. destruct (decide (k = j)) as [-> | Hne].
  - rewrite lookup_insert_eq. reflexivity.
  - rewrite lookup_insert_ne by exact Hne. reflexivity.
Qed.

Lemma fetch_images_spec (generate_image : str -> Z -> Z -> option bytes)
    (content : Content) (slide_data : gmap Z SlideData) (k : Z) :
  images_get (fetch_images generate_image content slide_data) k =
  if decide (k = 1) then
    match get_default (k_title_image_prompt content) [] with
    | [] => None
    | prompt => generate_image prompt 768 1152
    end
  else if decide (k = 4 \/ k = 6 \/ k = 9) then
    match slide_prompt slide_data k with
    | [] => None
    | prompt => generate_image prompt 1024 1024
    end
  else None.
Proof.
  unfold fetch_images. cbn [foldl]. cbv zeta.
  assert (He : forall sn,
             match slide_data !! sn with
             | Some d => get_default (d_image_prompt d) []
             | None => []
             end = slide_prompt slide_data sn).
  { intros sn. unfold slide_prompt. destruct (slide_data !! sn); reflexivity. }
  rewrite !He.
  destruct (slide_prompt slide_data 4) eqn:E4;
  destruct (slide_prompt slide_data 6) eqn:E6;
  destruct (slide_prompt slide_data 9) eqn:E9;
  destruct (get_default (k_title_image_prompt content) []) eqn:E1;
  rewrite ?images_get_insert; unfold images_get; rewrite lookup_empty;
  cbn [get_default];
  repeat (case_decide; subst; rewrite ?E4, ?E6, ?E9;
          try reflexivity; try lia);
  match goal with H : _ \/ _ \/ _ |- _ => destruct H as [-> | [-> | ->]] end;
  rewrite ?E4, ?E6, ?E9; try reflexivity; try lia.
Qed.

(** X6. The images the layouts are given: slide 1 gets the image of the
    document's title prompt at 768 x 1152, slides 4, 6 and 9 the image of
    their own prompt at 1024 x 1024, and no image is looked up where the
    prompt is missing or empty; every other slide number has no image,
    whatever prompt its entry carries. *)
Theorem images_come_from_four_prompts :
  forall (generate_image : str -> Z -> Z -> option bytes)
         (content : Content) (slide_data : gmap Z SlideData) (k : Z),
    images_get (fetch_images generate_image content slide_data) k =
    if decide (k = 1) then
      match get_default (k_title_image_prompt content) [] with
      | [] => None
      | prompt => generate_image prompt 768 1152
      end
    else if decide (k = 4 \/ k = 6 \/ k = 9) then
      match slide_prompt slide_data k with
      | [] => None
      | prompt => generate_image prompt 1024 1024
      end
    else None.
Proof. exact fetch_images_spec. Qed.

(** ** What a deck that is sent says about the document *)

Ltac title_read layout :=
  let H := fresh "H" in
  intros H; unfold layout in H;
  destruct (d_title _); [discriminate | cbn [subscript] in H; discriminate].

Lemma slide_2a_reads_title g d s :
  slide_2a_dot_badge_rows g d = Ok s -> d_title d <> None.
Proof. title_read slide_2a_dot_badge_rows. Qed.

Lemma slide_2b_reads_title g d s :
  slide_2b_left_accent_cards g d = Ok s -> d_title d <> None.
Proof. title_read slide_2b_left_accent_cards. Qed.

Lemma slide_3a_reads_title g d s :
  slide_3a_three_cards_row g d = Ok s -> d_title d <> None.
Proof. title_read slide_3a_three_cards_row. Qed.

Lemma slide_3b_reads_title g d s :
  slide_3b_four_cards_row g d = Ok s -> d_title d <> None.
Proof. title_read slide_3b_four_cards_row. Qed.

Lemma slide_4a_reads_title g d im s :
  slide_4a_image_left_bullets g d im = Ok s -> d_title d <> None.
Proof. title_read slide_4a_image_left_bullets. Qed.

Lemma slide_4b_reads_title g d im s :
  slide_4b_bullets_image_right g d im = Ok s -> d_title d <> None.
Proof. title_read slide_4b_bullets_image_right. Qed.

Lemma slide_5a_reads_title g d s :
  slide_5a_grid_badges g d = Ok s -> d_title d <> None.
Proof. title_read slide_5a_grid_badges. Qed.

Lemma slide_5b_reads_title g d s :
  slide_5b_stat_columns g d = Ok s -> d_title d <> None.
Proof. title_read slide_5b_stat_columns. Qed.

Lemma slide_6a_reads_title g d im s :
  slide_6a_bullets_banner g d im = Ok s -> d_title d <> None.
Proof. title_read slide_6a_bullets_banner. Qed.

Lemma slide_6b_reads_title g d im s :
  slide_6b_cards_banner g d im = Ok s -> d_title d <> None.
Proof. title_read slide_6b_cards_banner. Qed.

Lemma slide_7a_reads_title g d s :
  slide_7a_two_cards g d = Ok s -> d_title d <> None.
Proof. title_read slide_7a_two_cards. Qed.

Lemma slide_7b_reads_title g d s :
  slide_7b_grid_table g d = Ok s -> d_title d <> None.
Proof. title_read slide_7b_grid_table. Qed.

Lemma slide_8a_reads_title g d s :
  slide_8a_timeline g d = Ok s -> d_title d <> None.
Proof. title_read slide_8a_timeline. Qed.

Lemma slide_8b_reads_title g d s :
  slide_8b_step_cards g d = Ok s -> d_title d <> None.
Proof. title_read slide_8b_step_cards. Qed.

Lemma slide_9a_reads_title g d im s :
  slide_9a_stat_image g d im = Ok s -> d_title d <> None.
Proof. title_read slide_9a_stat_image. Qed.

Lemma slide_9b_reads_title g d im s :
  slide_9b_quote_image g d im = Ok s -> d_title d <> None.
Proof. title_read slide_9b_quote_image. Qed.

Lemma slide_10_reads_title g d s :
  slide_10_closing_cta g d = Ok s -> d_title d <> None.
Proof. title_read slide_10_closing_cta. Qed.

Lemma last_numbered_entry (l : list SlideData) (k : Z) (d : SlideData) :
  last_numbered l k = Some d -> d ∈ l /\ d_slide d = Some k.
Proof.
  unfold last_numbered. intros H. apply find_some in H.
  destruct H as [Hin Hk]. split.
  - apply list_elem_of_In. apply in_rev. exact Hin.
  - apply bool_decide_eq_true_1 in Hk. exact Hk.
Qed.

Lemma build_deck_titled_entries
    (generate_image : str -> Z -> Z -> option bytes)
    (g : Globals) (user_prompt : str) (content : Content)
    (prs : Presentation) :
  build_deck generate_image g user_prompt content = Ok prs ->
  forall k, 2 <= k <= 10 -> titled_entry content k.
Proof.
  unfold build_deck. intros H.
  apply bind_Ok_inv in H. destruct H as (slide_data & Hidx & H).
  pose proof (index_slides_spec (get_default (k_slides content) [])) as Hspec.
  rewrite Hidx in Hspec. destruct Hspec as [_ Hlast].
  apply assemble_Ok_inv in H.
  destruct H as (d2 & d3 & d4 & d5 & d6 & d7 & d8 & d9 & d10 & H2 & H3 & H4
                 & H5 & H6 & H7 & H8 & H9 & H10 & Hmap).
  simpl in Hmap.
  destruct (slides prs) as [| s1 [| s2 [| s3 [| s4 [| s5 [| s6 [| s7 [| s8
    [| s9 [| s10 [| ? ?]]]]]]]]]]] eqn:Es; try discriminate.
  simpl in Hmap.
  injection Hmap as E1 E2 E3 E4 E5 E6 E7 E8 E9 E10.
  symmetry in E2, E3, E4, E5, E6, E7, E8, E9, E10.
  apply chosen_cases in E2, E3, E4, E5, E6, E7, E8, E9.
  assert (Hentry : forall k d, slide_data !! k = Some d -> d_title d <> None ->
                               titled_entry content k).
  { intros k d Hk Ht. rewrite Hlast in Hk. apply last_numbered_entry in Hk.
    destruct Hk as [Hin Hn]. exists d. auto. }
  intros k Hk.
  assert (Hcases : k = 2 \/ k = 3 \/ k = 4 \/ k = 5 \/ k = 6 \/ k = 7 \/
                   k = 8 \/ k = 9 \/ k = 10) by lia.
  destruct Hcases as [-> | [-> | [-> | [-> | [-> | [-> | [-> | [-> | ->]]]]]]]].
  - apply (Hentry 2 d2 H2).
    destruct E2; eauto using slide_2a_reads_title, slide_2b_reads_title.
  - apply (Hentry 3 d3 H3).
    destruct E3; eauto using slide_3a_reads_title, slide_3b_reads_title.
  - apply (Hentry 4 d4 H4).
    destruct E4; eauto using slide_4a_reads_title, slide_4b_reads_title.
  - apply (Hentry 5 d5 H5).
    destruct E5; eauto using slide_5a_reads_title, slide_5b_reads_title.
  - apply (Hentry 6 d6 H6).
    destruct E6; eauto using slide_6a_reads_title, slide_6b_reads_title.
  - apply (Hentry 7 d7 H7).
    destruct E7; eauto using slide_7a_reads_title, slide_7b_reads_title.
  - apply (Hentry 8 d8 H8).
    destruct E8; eauto using slide_8a_reads_title, slide_8b_reads_title.
  - apply (Hentry 9 d9 H9).
    destruct E9; eauto using slide_9a_reads_title, slide_9b_reads_title.
  - apply (Hentry 10 d10 H10). eauto using slide_10_reads_title.
Qed.

(** X7. No partial deck is sent: when [generate_ppt] sends a file, the
    content document had, for every slide number from 2 to 10, an entry
    with that number and a title. *)
Theorem sent_file_needs_all_nine_entries :
  forall (generate_slide_content : str -> option Content)
         (generate_image : str -> Z -> Z -> option bytes)
         (save : Presentation -> bytes) (re_w re_s : N -> bool)
         (Database : Type)
         (get_db : Database -> result bool * Database)
         (cursor_execute :
            Database -> str -> (str * str * str * bytes) ->
            result unit * Database)
         (db_commit : Database -> result unit * Database)
         (g g' : Globals) (db db' : Database) (session form : gmap str str)
         (data : bytes) (name mimetype : str),
    generate_ppt generate_slide_content generate_image save re_w re_s
      Database get_db cursor_execute db_commit g db session form =
    (Ok (SendFile data name mimetype), g', db') ->
    exists user_prompt content,
      form !! py "user_prompt" = Some user_prompt /\
      generate_slide_content user_prompt = Some content /\
      forall k, 2 <= k <= 10 -> titled_entry content k.
Proof.
  intros gsc gi save re_w re_s Database get_db cursor_execute db_commit
    g g' db db' session form data name mimetype H.
  unfold generate_ppt in H.
  destruct (session !! py "user"); [| discriminate].
  destruct (form !! py "user_prompt") as [user_prompt |]; [| discriminate].
  destruct (gsc user_prompt) as [content |] eqn:Ec; [| discriminate].
  destruct (apply_theme _ g) as [g1 |]; [| discriminate].
  destruct (build_deck gi g1 user_prompt content) as [prs |] eqn:Ed;
    [| discriminate].
  exists user_prompt, content. split; [reflexivity |]. split; [exact Ec |].
  exact (build_deck_titled_entries _ _ _ _ _ Ed).
Qed.

(** The example request: its document has a titled entry for slide 7. *)
Lemma sent_file_needs_all_nine_entries_witness :
  titled_entry example_content 7.
Proof.
  destruct (generate_ppt (fun _ => Some example_content) some_image
              example_save ascii_w ascii_s unit db_offline db_execute_ok
              db_commit_fails initial_globals tt example_session example_form)
    as [[r g'] db'] eqn:E.
  pose proof E as E'. vm_compute in E'. injection E' as Er _ _.
  destruct r as [[location | message status | data name mimetype] | e];
    try discriminate.
  destruct (sent_file_needs_all_nine_entries _ _ _ _ _ _ _ _ _ _ _ _ _ _ _
              _ _ _ E) as (user_prompt & content & _ & Hc & Hall).
  injection Hc as <-. apply Hall. lia.
Defined.

(** ** Methods of [str] *)

Lemma startswith_single (s : str) (c : N) :
  pystr.startswith s [c] = true <-> head s = Some c.
Proof.
  destruct s as [| x s]; simpl.
  - split; discriminate.
  - rewrite andb_true_r, N.eqb_eq. split; congruence.
Qed.

Lemma startswith_app (a b : str) : pystr.startswith (a ++ b) a = true.
Proof.
  induction a as [| x a IH]; simpl; [reflexivity |].
  rewrite N.eqb_refl. exact IH.
Qed.

Lemma startswith_short (sub s : str) :
  (length s < length sub)%nat -> pystr.startswith s sub = false.
Proof.
  revert s. induction sub as [| p sub IH]; intros s H; simpl in *; [lia |].
  destruct s as [| c s]; [reflexivity |]. simpl in H.
  rewrite IH by lia. apply andb_false_r.
Qed.

Lemma endswith_single (s : str) (c : N) :
  pystr.endswith s [c] = true <-> last s = Some c.
Proof.
  unfold pystr.endswith. cbn [rev app]. rewrite startswith_single.
  destruct s as [| x s] using rev_ind; [simpl; split; discriminate |].
  rewrite rev_unit, last_snoc. reflexivity.
Qed.

(** [find] of one character: absent, or the index of an occurrence. *)
Lemma find_from_single (s : str) (c : N) : forall i, 0 <= i ->
  (pystr.find_from s [c] i = -1 /\ c ∉ s) \/
  (i <= pystr.find_from s [c] i /\
   head (drop (Z.to_nat (pystr.find_from s [c] i - i)) s) = Some c).
Proof.
  induction s as [| x s IH]; intros i Hi.
  - left. split; [reflexivity | apply not_elem_of_nil].
  - cbn [pystr.find_from].
    destruct (pystr.startswith (x :: s) [c]) eqn:Es.
    + right. split; [lia |]. rewrite Z.sub_diag. simpl.
      apply startswith_single in Es. exact Es.
    + destruct (IH (i + 1) ltac:(lia)) as [[E Hn] | [Hle Hd]].
      * left. split; [exact E |]. apply not_elem_of_cons. split; [| exact Hn].
        intros ->. simpl in Es. rewrite N.eqb_refl in Es. discriminate.
      * right. split; [lia |].
        replace (Z.to_nat (pystr.find_from s [c] (i + 1) - i))
          with (S (Z.to_nat (pystr.find_from s [c] (i + 1) - (i + 1))))
          by lia.
        exact Hd.
Qed.

(** [rfind] of one character: absent, or the index of an occurrence. *)
Lemma rfind_from_single (s : str) (c : N) : forall i, 0 <= i ->
  (pystr.rfind_from s [c] i = -1 /\ c ∉ s) \/
  (i <= pystr.rfind_from s [c] i /\
   s !! Z.to_nat (pystr.rfind_from s [c] i - i) = Some c).
Proof.
  induction s as [| x s IH]; intros i Hi.
  - left. split; [reflexivity | apply not_elem_of_nil].
  - cbn [pystr.rfind_from]. cbv zeta.
    destruct (IH (i + 1) ltac:(lia)) as [[E Hn] | [Hle Hd]].
    + rewrite E, Z.eqb_refl.
      destruct (pystr.startswith (x :: s) [c]) eqn:Es.
      * right. split; [lia |]. rewrite Z.sub_diag. simpl.
        apply startswith_single in Es. exact Es.
      * left. split; [reflexivity |]. apply not_elem_of_cons.
        split; [| exact Hn].
        intros ->. simpl in Es. rewrite N.eqb_refl in Es. discriminate.
    + destruct (pystr.rfind_from s [c] (i + 1) =? -1) eqn:En;
        [apply Z.eqb_eq in En; lia |].
      right. split; [lia |].
      replace (Z.to_nat (pystr.rfind_from s [c] (i + 1) - i))
        with (S (Z.to_nat (pystr.rfind_from s [c] (i + 1) - (i + 1))))
        by lia.
      exact Hd.
Qed.

Lemma last_take_S (s : str) (n : nat) (c : N) :
  s !! n = Some c -> last (take (S n) s) = Some c.
Proof.
  intros H. rewrite last_lookup, length_take.
  pose proof (lookup_lt_Some _ _ _ H) as Hlt.
  replace (Nat.pred (min (S n) (length s))) with n by lia.
  rewrite lookup_take_lt by lia. exact H.
Qed.

Lemma head_take_S (s : str) (n : nat) : head (take (S n) s) = head s.
Proof. destruct s; reflexivity. Qed.

(** ** The text handed to the JSON parser *)

(** The search for the opening brace. *)
Lemma open_brace_first (raw : str) :
  let raw' :=
    if negb (pystr.startswith raw [LBRACE])
    then
      let start := pystr.find raw [LBRACE] in
      if negb (start =? -1) then pystr.slice_from raw start else raw
    else raw in
  LBRACE ∈ raw' -> head raw' = Some LBRACE.
Proof.
  cbv zeta. destruct (pystr.startswith raw [LBRACE]) eqn:Es; cbn [negb].
  - intros _. apply startswith_single. exact Es.
  - unfold pystr.find.
    destruct (find_from_single raw LBRACE 0 ltac:(lia)) as [[E Hn] | [Hle Hd]].
    + rewrite E. cbn. intros H. contradiction.
    + destruct (pystr.find_from raw [LBRACE] 0 =? -1) eqn:En;
        [apply Z.eqb_eq in En; lia |].
      cbn [negb]. intros _. unfold pystr.slice_from.
      rewrite Z.sub_0_r in Hd. exact Hd.
Qed.

(** The search for the closing brace keeps a leading opening brace. *)
Lemma close_brace_last (raw : str) :
  let raw' :=
    if negb (pystr.endswith raw [RBRACE])
    then
      let end_ := pystr.rfind raw [RBRACE] in
      if negb (end_ =? -1) then pystr.slice_to raw (end_ + 1) else raw
    else raw in
  (RBRACE ∈ raw' -> last raw' = Some RBRACE) /\
  (LBRACE ∈ raw' -> LBRACE ∈ raw /\ head raw' = head raw).
Proof.
  cbv zeta. destruct (pystr.endswith raw [RBRACE]) eqn:Es; cbn [negb].
  - split; [intros _; apply endswith_single; exact Es | auto].
  - unfold pystr.rfind.
    destruct (rfind_from_single raw RBRACE 0 ltac:(lia)) as [[E Hn] | [Hle Hd]].
    + rewrite E. cbn. split; [intros H; contradiction | auto].
    + destruct (pystr.rfind_from raw [RBRACE] 0 =? -1) eqn:En;
        [apply Z.eqb_eq in En; lia |].
      cbn [negb]. unfold pystr.slice_to. rewrite Z.sub_0_r in Hd.
      replace (Z.to_nat (pystr.rfind_from raw [RBRACE] 0 + 1))
        with (S (Z.to_nat (pystr.rfind_from raw [RBRACE] 0))) by lia.
      split.
      * intros _. apply last_take_S. exact Hd.
      * intros H. split; [| apply head_take_S].
        apply elem_of_take in H. destruct H as (i & H & _).
        eapply list_elem_of_lookup_2. exact H.
Qed.

Lemma extract_json_braces (isspace : N -> bool) (content raw : str) :
  extract_json isspace content = Ok raw ->
  (LBRACE ∈ raw -> head raw = Some LBRACE) /\
  (RBRACE ∈ raw -> last raw = Some RBRACE).
Proof.
  unfold extract_json. cbv zeta. intros H.
  apply bind_Ok_inv in H. destruct H as (r1 & _ & H). cbv beta in H.
  set (r2 := pystr.strip isspace r1) in H.
  pose proof (open_brace_first r2) as HA. cbv zeta in HA.
  set (rA := if negb (pystr.startswith r2 [LBRACE]) then _ else _) in *.
  pose proof (close_brace_last rA) as HB. cbv zeta in HB.
  set (out := if negb (pystr.endswith rA [RBRACE]) then _ else _) in *.
  destruct HB as [HB1 HB2].
  assert (E : raw = out) by congruence. rewrite E.
  split; [| exact HB1].
  intros Hin. destruct (HB2 Hin) as [HinA Hhead].
  rewrite Hhead. apply HA. exact HinA.
Qed.

(** *** White space *)

Lemma lstrip_blank isspace (pre s : str) :
  blank isspace pre -> pystr.lstrip isspace (pre ++ s) = pystr.lstrip isspace s.
Proof.
  induction 1 as [| c pre Hc _ IH]; [reflexivity |].
  simpl. rewrite Hc. exact IH.
Qed.

Lemma lstrip_head isspace (s : str) (c : N) :
  head s = Some c -> isspace c = false -> pystr.lstrip isspace s = s.
Proof.
  destruct s as [| x s]; [discriminate |]. simpl. intros [= ->] ->.
  reflexivity.
Qed.

Lemma rstrip_blank isspace (s post : str) :
  blank isspace post -> pystr.rstrip isspace (s ++ post) = pystr.rstrip isspace s.
Proof.
  intros H. unfold pystr.rstrip. rewrite rev_app_distr.
  rewrite lstrip_blank; [reflexivity |].
  unfold blank. apply Forall_rev. exact H.
Qed.

Lemma head_rev_last (s : str) : head (rev s) = last s.
Proof.
  destruct s as [| x s] using rev_ind; [reflexivity |].
  rewrite rev_unit, last_snoc. reflexivity.
Qed.

Lemma rstrip_last isspace (s : str) (c : N) :
  last s = Some c -> isspace c = false -> pystr.rstrip isspace s = s.
Proof.
  intros Hl Hc. unfold pystr.rstrip.
  rewrite (lstrip_head isspace (rev s) c); [apply rev_involutive | | exact Hc].
  rewrite head_rev_last. exact Hl.
Qed.

(** [strip] removes the white space around a text whose ends are not
    white space. *)
Lemma strip_core isspace (pre core post : str) (a b : N) :
  blank isspace pre -> blank isspace post ->
  head core = Some a -> isspace a = false ->
  last core = Some b -> isspace b = false ->
  pystr.strip isspace (pre ++ core ++ post) = core.
Proof.
  intros Hpre Hpost Ha Hna Hb Hnb. unfold pystr.strip.
  rewrite lstrip_blank by exact Hpre.
  rewrite (lstrip_head isspace (core ++ post) a);
    [| destruct core; [discriminate | exact Ha] | exact Hna].
  rewrite rstrip_blank by exact Hpost.
  apply (rstrip_last isspace core b Hb Hnb).
Qed.

(** *** Searching *)

Lemma find_from_skip (a r : str) (c : N) : forall i,
  c ∉ a -> pystr.find_from (a ++ c :: r) [c] i = i + len a.
Proof.
  induction a as [| x a IH]; intros i Hn.
  - cbn. rewrite N.eqb_refl. cbn. unfold len. simpl. lia.
  - apply not_elem_of_cons in Hn. destruct Hn as [Hx Hn].
    cbn [app pystr.find_from pystr.startswith].
    destruct (N.eqb_spec x c) as [-> | _]; [contradiction |].
    cbn [andb]. rewrite IH by exact Hn. unfold len. simpl length. lia.
Qed.

Lemma find_from_found (a sub b : str) : forall i,
  0 <= i -> pystr.find_from (a ++ sub ++ b) sub i <> -1.
Proof.
  induction a as [| x a IH]; intros i Hi.
  - cbn [app]. destruct (sub ++ b) eqn:E; cbn [pystr.find_from];
      rewrite <- E, startswith_app; lia.
  - cbn [app pystr.find_from].
    destruct (pystr.startswith _ _); [lia | apply IH; lia].
Qed.

Lemma rfind_from_short (sub s : str) : forall i,
  (length s < length sub)%nat -> pystr.rfind_from s sub i = -1.
Proof.
  induction s as [| x s IH]; intros i H.
  - cbn. rewrite startswith_short by exact H. reflexivity.
  - cbn [pystr.rfind_from]. cbv zeta. simpl in H.
    rewrite IH by lia. rewrite Z.eqb_refl.
    rewrite startswith_short by (simpl; lia). reflexivity.
Qed.

Lemma rfind_from_suffix (a sub : str) : forall i,
  sub <> [] -> 0 <= i -> pystr.rfind_from (a ++ sub) sub i = i + len a.
Proof.
  induction a as [| x a IH]; intros i Hne Hi.
  - cbn [app]. destruct sub as [| p sub]; [contradiction |].
    cbn [pystr.rfind_from]. cbv zeta.
    rewrite rfind_from_short by (simpl; lia). rewrite Z.eqb_refl.
    rewrite <- (app_nil_r (p :: sub)) at 1. rewrite startswith_app.
    unfold len. simpl. lia.
  - cbn [app pystr.rfind_from]. cbv zeta. rewrite IH by (trivial; lia).
    destruct (i + 1 + len a =? -1) eqn:E;
      [apply Z.eqb_eq in E; unfold len in E; lia |].
    unfold len. simpl length. lia.
Qed.

Lemma rfind_from_absent (s : str) (c : N) (i : Z) :
  0 <= i -> c ∉ s -> pystr.rfind_from s [c] i = -1.
Proof.
  intros Hi Hn.
  destruct (rfind_from_single s c i Hi) as [[E _] | [_ Hd]]; [exact E |].
  apply list_elem_of_lookup_2 in Hd. contradiction.
Qed.

Lemma rfind_from_last (a b : str) (c : N) : forall i,
  0 <= i -> c ∉ b -> pystr.rfind_from (a ++ c :: b) [c] i = i + len a.
Proof.
  induction a as [| x a IH]; intros i Hi Hn.
  - cbn [app pystr.rfind_from]. cbv zeta.
    rewrite rfind_from_absent by (trivial; lia). rewrite Z.eqb_refl.
    cbn. rewrite N.eqb_refl. cbn. unfold len. simpl. lia.
  - cbn [app pystr.rfind_from]. cbv zeta. rewrite IH by (trivial; lia).
    destruct (i + 1 + len a =? -1) eqn:E;
      [apply Z.eqb_eq in E; unfold len in E; lia |].
    unfold len. simpl length. lia.
Qed.

Lemma contains_fence (a b : str) : pystr.contains (a ++ FENCE ++ b) FENCE = true.
Proof.
  unfold pystr.contains, pystr.find.
  destruct (pystr.find_from (a ++ FENCE ++ b) FENCE 0 =? -1) eqn:E;
    [| reflexivity].
  apply Z.eqb_eq in E. exfalso. revert E. apply find_from_found. lia.
Qed.

(** A text in braces is left as it is by the two searches. *)
Lemma braced_kept (j : str) :
  braced j ->
  pystr.startswith j [LBRACE] = true /\ pystr.endswith j [RBRACE] = true.
Proof.
  intros [Hh Hl]. split; [apply startswith_single | apply endswith_single];
    assumption.
Qed.

Lemma extract_json_fenced (isspace : N -> bool) (pre tag j post : str) :
  separates isspace -> blank isspace pre -> blank isspace post ->
  LF ∉ tag -> braced j ->
  extract_json isspace
    (pre ++ (FENCE ++ tag ++ [LF] ++ j ++ [LF] ++ FENCE) ++ post) = Ok j.
Proof.
  intros (Hlf & Hbt & Hlb & Hrb) Hpre Hpost Htag Hj.
  pose proof Hj as [Hh Hl].
  unfold extract_json. cbv zeta.
  rewrite (strip_core isspace pre _ post BACKTICK BACKTICK Hpre Hpost);
    [| reflexivity | exact Hbt | | exact Hbt].
  2:{ rewrite !app_assoc. unfold FENCE. cbn [py list_ascii_of_string map].
      rewrite !last_app. reflexivity. }
  rewrite startswith_app.
  assert (Hsplit : pystr.split_1 (FENCE ++ tag ++ [LF] ++ j ++ [LF] ++ FENCE)
                     [LF] = Ok (j ++ [LF] ++ FENCE)).
  { unfold pystr.split_1, pystr.find. cbv zeta.
    replace (FENCE ++ tag ++ [LF] ++ j ++ [LF] ++ FENCE)
      with ((FENCE ++ tag) ++ LF :: (j ++ [LF] ++ FENCE))
      by (rewrite <- !app_assoc; reflexivity).
    rewrite find_from_skip.
    2:{ apply not_elem_of_app. split; [| exact Htag].
        unfold FENCE, LF. cbn. intros H.
        repeat (apply elem_of_cons in H; destruct H as [H | H];
                [discriminate |]).
        apply elem_of_nil in H. exact H. }
    destruct (0 + len (FENCE ++ tag) =? -1) eqn:E;
      [apply Z.eqb_eq in E; unfold len in E; lia |].
    f_equal. unfold pystr.slice_from.
    replace (Z.to_nat (0 + len (FENCE ++ tag) + len [LF]))
      with (length ((FENCE ++ tag) ++ [LF]))
      by (unfold len; rewrite length_app; simpl; lia).
    change (LF :: (j ++ [LF] ++ FENCE)) with ([LF] ++ (j ++ [LF] ++ FENCE)).
    rewrite app_assoc. apply drop_app_length. }
  rewrite Hsplit, bind_Ok.
  replace (j ++ [LF] ++ FENCE) with ((j ++ [LF]) ++ FENCE ++ [])
    by (rewrite app_nil_r, <- app_assoc; reflexivity).
  rewrite contains_fence, bind_Ok. rewrite app_nil_r.
  unfold pystr.rsplit_0, pystr.rfind. cbv zeta.
  rewrite rfind_from_suffix by (try discriminate; lia).
  destruct (0 + len (j ++ [LF]) =? -1) eqn:E;
    [apply Z.eqb_eq in E; unfold len in E; lia |].
  unfold pystr.slice_to.
  replace (Z.to_nat (0 + len (j ++ [LF]))) with (length (j ++ [LF]))
    by (unfold len; lia).
  rewrite take_app_length.
  replace (j ++ [LF]) with ([] ++ j ++ [LF]) by reflexivity.
  rewrite (strip_core isspace [] j [LF] LBRACE RBRACE);
    [| constructor | repeat constructor; exact Hlf | exact Hh | exact Hlb
     | exact Hl | exact Hrb].
  destruct (braced_kept j Hj) as [E1 E2].
  rewrite E1. cbn [negb]. rewrite E2. reflexivity.
Qed.

Lemma lstrip_app_head isspace (a s : str) (c : N) :
  head s = Some c -> isspace c = false ->
  pystr.lstrip isspace (a ++ s) = pystr.lstrip isspace a ++ s.
Proof.
  intros Hh Hc. induction a as [| x a IH].
  - simpl. apply (lstrip_head isspace s c Hh Hc).
  - simpl. destruct (isspace x); [exact IH | reflexivity].
Qed.

Lemma rstrip_app_last isspace (s b : str) (c : N) :
  last s = Some c -> isspace c = false ->
  pystr.rstrip isspace (s ++ b) = s ++ pystr.rstrip isspace b.
Proof.
  intros Hl Hc. unfold pystr.rstrip. rewrite rev_app_distr.
  rewrite (lstrip_app_head isspace (rev b) (rev s) c);
    [| rewrite head_rev_last; exact Hl | exact Hc].
  rewrite rev_app_distr, rev_involutive. reflexivity.
Qed.

Lemma lstrip_elem isspace (s : str) (c : N) :
  c ∈ pystr.lstrip isspace s -> c ∈ s.
Proof.
  induction s as [| x s IH]; simpl; [auto |].
  destruct (isspace x); [| auto]. intros H. apply elem_of_cons. auto.
Qed.

Lemma elem_of_rev (s : str) (c : N) : c ∈ rev s <-> c ∈ s.
Proof. rewrite !list_elem_of_In. symmetry. apply in_rev. Qed.

Lemma rstrip_elem isspace (s : str) (c : N) :
  c ∈ pystr.rstrip isspace s -> c ∈ s.
Proof.
  unfold pystr.rstrip. rewrite elem_of_rev. intros H.
  apply lstrip_elem in H. apply elem_of_rev. exact H.
Qed.

Lemma startswith_fence_head (s : str) :
  pystr.startswith s FENCE = true -> head s = Some BACKTICK.
Proof.
  destruct s as [| x s]; [discriminate |].
  change FENCE with [96; 96; 96]%N. cbn [pystr.startswith head].
  destruct (N.eqb_spec x 96) as [-> | _]; intros H;
    [reflexivity | cbn [andb] in H; discriminate H].
Qed.

(** A text in braces between a text without opening brace and a text
    without closing brace is what the two searches leave. *)
Lemma braces_found (a j b : str) :
  braced j -> LBRACE ∉ a -> RBRACE ∉ b ->
  let raw := a ++ j ++ b in
  let raw :=
    if negb (pystr.startswith raw [LBRACE])
    then
      let start := pystr.find raw [LBRACE] in
      if negb (start =? -1) then pystr.slice_from raw start else raw
    else raw in
  (if negb (pystr.endswith raw [RBRACE])
   then
     let end_ := pystr.rfind raw [RBRACE] in
     if negb (end_ =? -1) then pystr.slice_to raw (end_ + 1) else raw
   else raw) = j.
Proof.
  intros [Hh Hl] Ha Hb. cbv zeta.
  assert (HA : (if negb (pystr.startswith (a ++ j ++ b) [LBRACE])
                then
                  if negb (pystr.find (a ++ j ++ b) [LBRACE] =? -1)
                  then pystr.slice_from (a ++ j ++ b)
                         (pystr.find (a ++ j ++ b) [LBRACE])
                  else a ++ j ++ b
                else a ++ j ++ b) = j ++ b).
  { destruct j as [| c j']; [discriminate |]. injection Hh as ->.
    destruct a as [| x a'].
    - cbn [app pystr.startswith]. rewrite N.eqb_refl. reflexivity.
    - apply not_elem_of_cons in Ha as Hx. destruct Hx as [Hx _].
      cbn [app pystr.startswith].
      destruct (N.eqb_spec x LBRACE) as [-> | _]; [contradiction |].
      cbn [andb negb]. unfold pystr.find.
      change (x :: a' ++ LBRACE :: j' ++ b)
        with ((x :: a') ++ LBRACE :: (j' ++ b)).
      rewrite find_from_skip by exact Ha.
      destruct (0 + len (x :: a') =? -1) eqn:E;
        [apply Z.eqb_eq in E; unfold len in E; lia |].
      cbn [negb]. unfold pystr.slice_from.
      replace (Z.to_nat (0 + len (x :: a'))) with (length (x :: a'))
        by (unfold len; lia).
      apply drop_app_length. }
  rewrite HA. clear HA.
  apply last_Some in Hl. destruct Hl as [j' ->].
  destruct b as [| y b'] using rev_ind.
  - rewrite app_nil_r.
    assert (E : pystr.endswith (j' ++ [RBRACE]) [RBRACE] = true)
      by (apply endswith_single, last_snoc).
    rewrite E. reflexivity.
  - clear IHb'. apply not_elem_of_app in Hb as Hy. destruct Hy as [_ Hy].
    assert (E : pystr.endswith ((j' ++ [RBRACE]) ++ b' ++ [y]) [RBRACE]
                = false).
    { destruct (pystr.endswith _ _) eqn:E; [| reflexivity].
      apply endswith_single in E. rewrite !app_assoc, last_snoc in E.
      injection E as ->. exfalso. apply Hy. left. }
    rewrite E. cbn [negb]. unfold pystr.rfind.
    replace ((j' ++ [RBRACE]) ++ b' ++ [y])
      with (j' ++ RBRACE :: (b' ++ [y]))
      by (rewrite <- app_assoc; reflexivity).
    rewrite rfind_from_last by (trivial; lia).
    destruct (0 + len j' =? -1) eqn:En;
      [apply Z.eqb_eq in En; unfold len in En; lia |].
    cbn [negb]. unfold pystr.slice_to.
    replace (Z.to_nat (0 + len j' + 1)) with (length (j' ++ [RBRACE]))
      by (unfold len; rewrite length_app; simpl; lia).
    change (RBRACE :: (b' ++ [y])) with ([RBRACE] ++ (b' ++ [y])).
    rewrite app_assoc. apply take_app_length.
Qed.

Lemma extract_json_embedded (isspace : N -> bool) (a j b : str) :
  isspace LBRACE = false -> isspace RBRACE = false -> braced j ->
  LBRACE ∉ a -> BACKTICK ∉ a -> RBRACE ∉ b ->
  extract_json isspace (a ++ j ++ b) = Ok j.
Proof.
  intros Hlb Hrb Hj Ha Hbt Hb. pose proof Hj as [Hh Hl].
  assert (Hstrip : forall x y,
            pystr.strip isspace (x ++ j ++ y) =
            pystr.lstrip isspace x ++ j ++ pystr.rstrip isspace y).
  { intros x y. unfold pystr.strip.
    rewrite (lstrip_app_head isspace x (j ++ y) LBRACE);
      [| destruct j; [discriminate | exact Hh] | exact Hlb].
    rewrite !app_assoc.
    rewrite (rstrip_app_last isspace (pystr.lstrip isspace x ++ j) y RBRACE);
      [reflexivity | | exact Hrb].
    rewrite last_app, Hl. reflexivity. }
  unfold extract_json. cbv zeta. rewrite Hstrip.
  set (a' := pystr.lstrip isspace a). set (b' := pystr.rstrip isspace b).
  assert (Hf : pystr.startswith (a' ++ j ++ b') FENCE = false).
  { destruct (pystr.startswith _ _) eqn:E; [| reflexivity].
    apply startswith_fence_head in E. exfalso.
    destruct a' as [| x a''] eqn:Ea.
    - destruct j; [discriminate |]. simpl in E, Hh.
      assert (Heq : LBRACE = BACKTICK) by congruence. discriminate Heq.
    - simpl in E. injection E as ->. apply Hbt.
      apply (lstrip_elem isspace). fold a'. rewrite Ea. left. }
  rewrite Hf, bind_Ok. rewrite Hstrip.
  rewrite (braces_found _ j _ Hj); [reflexivity | |].
  - intros H. apply Ha. do 2 apply lstrip_elem in H. exact H.
  - intros H. apply Hb. do 2 apply rstrip_elem in H. exact H.
Qed.

Lemma split_1_raises (s : str) (e : exn) :
  pystr.split_1 s [LF] = Raise e -> e = IndexError /\ LF ∉ s.
Proof.
  unfold pystr.split_1, pystr.find. cbv zeta.
  destruct (find_from_single s LF 0 ltac:(lia)) as [[E Hn] | [Hle _]].
  - rewrite E. cbn. intros [= <-]. auto.
  - destruct (pystr.find_from s [LF] 0 =? -1) eqn:En;
      [apply Z.eqb_eq in En; lia | discriminate].
Qed.

Lemma split_1_absent (s : str) :
  LF ∉ s -> pystr.split_1 s [LF] = Raise IndexError.
Proof.
  intros Hn. unfold pystr.split_1, pystr.find. cbv zeta.
  destruct (find_from_single s LF 0 ltac:(lia)) as [[E _] | [_ Hd]].
  - rewrite E. reflexivity.
  - exfalso. apply Hn. rewrite head_lookup, lookup_drop in Hd.
    eapply list_elem_of_lookup_2. exact Hd.
Qed.

Lemma extract_json_one_line_fenced isspace (content : str) :
  one_line_fenced isspace content ->
  extract_json isspace content = Raise IndexError.
Proof.
  intros [Hf Hn]. unfold extract_json. cbv zeta.
  rewrite Hf, split_1_absent by exact Hn. reflexivity.
Qed.

Lemma extract_json_raises isspace (content : str) (e : exn) :
  extract_json isspace content = Raise e ->
  e = IndexError /\ one_line_fenced isspace content.
Proof.
  unfold extract_json, one_line_fenced. cbv zeta.
  destruct (pystr.startswith (pystr.strip isspace content) FENCE) eqn:Ef.
  - destruct (pystr.split_1 _ [LF]) as [r |e'] eqn:Es.
    + rewrite bind_Ok. destruct (pystr.contains r FENCE); discriminate.
    + cbn. intros [= <-]. apply split_1_raises in Es. tauto.
  - discriminate.
Qed.

(** X8. The text handed to the JSON parser has nothing before its first
    opening brace and nothing after its last closing brace; and the only
    replies for which no text is handed over are those that open a code
    fence and contain no line feed, which end in an IndexError. *)
Theorem extracted_text_is_brace_delimited :
  forall (isspace : N -> bool) (content : str),
    match extract_json isspace content with
    | Ok raw =>
        (LBRACE ∈ raw -> head raw = Some LBRACE) /\
        (RBRACE ∈ raw -> last raw = Some RBRACE)
    | Raise e => e = IndexError /\ one_line_fenced isspace content
    end.
Proof.
  intros isspace content.
  destruct (extract_json isspace content) as [raw | e] eqn:E.
  - exact (extract_json_braces isspace content raw E).
  - exact (extract_json_raises isspace content e E).
Qed.

(** X9. A reply in a code fence is unwrapped: white space, the opening
    fence with its language tag, a text in braces, a line feed, the
    closing fence and white space give exactly the text in braces,
    whatever that text contains. *)
Theorem fenced_reply_is_unwrapped :
  forall (isspace : N -> bool) (pre tag j post : str),
    separates isspace -> blank isspace pre -> blank isspace post ->
    LF ∉ tag -> braced j ->
    extract_json isspace
      (pre ++ (FENCE ++ tag ++ [LF] ++ j ++ [LF] ++ FENCE) ++ post) = Ok j.
Proof. exact extract_json_fenced. Qed.

Lemma fenced_reply_is_unwrapped_witness :
  extract_json ascii_s
    (py " " ++ (FENCE ++ py "json" ++ [LF] ++ py "{}" ++ [LF] ++ FENCE)
     ++ [LF]) = Ok (py "{}").
Proof.
  apply (fenced_reply_is_unwrapped ascii_s (py " ") (py "json") (py "{}") [LF]).
  - repeat split; reflexivity.
  - repeat constructor.
  - repeat constructor.
  - vm_compute. intros H.
    repeat (apply elem_of_cons in H; destruct H as [H | H];
            [discriminate |]).
    apply elem_of_nil in H. exact H.
  - split; reflexivity.
Defined.

(** X10. A text in braces inside other text is extracted: when the text
    before it has no opening brace and no backtick and the text after it
    has no closing brace, the parser is handed the text in braces. *)
Theorem object_in_prose_is_extracted :
  forall (isspace : N -> bool) (a j b : str),
    isspace LBRACE = false -> isspace RBRACE = false -> braced j ->
    LBRACE ∉ a -> BACKTICK ∉ a -> RBRACE ∉ b ->
    extract_json isspace (a ++ j ++ b) = Ok j.
Proof. exact extract_json_embedded. Qed.

Lemma object_in_prose_is_extracted_witness :
  extract_json ascii_s (py "Here: " ++ py "{}" ++ py " Done.") = Ok (py "{}").
Proof.
  apply (object_in_prose_is_extracted ascii_s (py "Here: ") (py "{}")
           (py " Done.")); try reflexivity.
  - split; reflexivity.
  - vm_compute. intros H.
    repeat (apply elem_of_cons in H; destruct H as [H | H];
            [discriminate |]).
    apply elem_of_nil in H. exact H.
  - vm_compute. intros H.
    repeat (apply elem_of_cons in H; destruct H as [H | H];
            [discriminate |]).
    apply elem_of_nil in H. exact H.
  - vm_compute. intros H.
    repeat (apply elem_of_cons in H; destruct H as [H | H];
            [discriminate |]).
    apply elem_of_nil in H. exact H.
Defined.

(** X11. A reply that puts the fence and the document on one line is
    never parsed: when both replies are of that kind the function returns
    no content after its second call, whatever the parser would have made
    of the text between the fences. *)
Theorem one_line_fenced_replies_give_no_content :
  forall (isspace : N -> bool) (World : Type)
         (chat : World -> str -> result str * World)
         (json_loads : str -> option Content)
         (w w1 w2 : World) (prompt c1 c2 : str),
    chat w (py "Create a presentation about: " ++ prompt) = (Ok c1, w1) ->
    chat w1 (py "Create a presentation about: " ++ prompt) = (Ok c2, w2) ->
    one_line_fenced isspace c1 -> one_line_fenced isspace c2 ->
    generate_slide_content isspace World chat json_loads w prompt =
    (None, w2).
Proof.
  intros isspace World chat json_loads w w1 w2 prompt c1 c2 H1 H2 Hc1 Hc2.
  unfold generate_slide_content, content_attempts, attempt_content.
  rewrite H1, (extract_json_one_line_fenced isspace c1 Hc1).
  cbn [Nat.eqb].
  rewrite H2, (extract_json_one_line_fenced isspace c2 Hc2).
  reflexivity.
Qed.

(** The reply [```{}```] twice: no content, after two calls. *)
Lemma one_line_fenced_replies_give_no_content_witness :
  generate_slide_content ascii_s nat
    (constant_chat (FENCE ++ py "{}" ++ FENCE))
    (fun _ => Some example_content) 0%nat (py "Lighthouses") =
  (None, 2%nat).
Proof.
  assert (Hc : one_line_fenced ascii_s (FENCE ++ py "{}" ++ FENCE)).
  { split; [reflexivity |]. vm_compute. intros H.
    repeat (apply elem_of_cons in H; destruct H as [H | H];
            [discriminate |]).
    apply elem_of_nil in H. exact H. }
  exact (one_line_fenced_replies_give_no_content ascii_s nat
           (constant_chat (FENCE ++ py "{}" ++ FENCE))
           (fun _ => Some example_content) 0%nat 1%nat 2%nat
           (py "Lighthouses") _ _ eq_refl eq_refl Hc Hc).
Defined.

(** ** The image service *)

Section ImageService.
Variable World : Type.
Variable post : World -> str -> str -> str -> Z -> Z -> Posted * World.
Variable sleep : World -> Z -> World.
Variable key : str.
Variable prompt : str.
Variable img_w : Z.
Variable img_h : Z.

Lemma is_image_spec (resp : HttpResponse) :
  status_code resp = 200 ->
  is_image resp = true <-> image_response resp.
Proof.
  intros Hs. unfold is_image, image_response.
  rewrite orb_true_iff, Z.ltb_lt. tauto.
Qed.

Lemma wait_of_bound (resp : HttpResponse) : wait_of resp <= 60.
Proof. unfold wait_of. destruct (estimated_time resp); lia. Qed.

(** What one attempt adds to the events: one request, and after a 503
    on the first two attempts a sleep of at most sixty seconds. *)
Lemma image_attempt_spec (api_url : str) (attempt : nat) (w w' : World)
    (events events' : list NetEvent) (flow : Flow) :
  image_attempt World post sleep key prompt img_w img_h api_url attempt
    (w, events) = (flow, (w', events')) ->
  exists outcome sl,
    events' = events ++ Request api_url outcome :: sl /\
    (sl = [] \/
     exists d, sl = [Sleep d] /\ 0 <= d <= 60 /\ (attempt < 2)%nat /\
               flow = NextAttempt) /\
    match flow with
    | Return r =>
        sl = [] /\
        exists resp, outcome = Responded resp /\
          ((image_response resp /\ r = Some (resp_content resp)) \/
           (auth_error resp /\ r = None))
    | Break | NextAttempt => continuing (Request api_url outcome)
    end.
Proof.
  unfold image_attempt.
  destruct (post w key api_url (enhanced prompt) img_w img_h)
    as [outcome w1].
  destruct outcome as [resp | |].
  - destruct (Z.eqb_spec (status_code resp) 200) as [E200 | N200].
    + destruct (is_image resp) eqn:Ei; intros [= <- <- <-].
      * exists (Responded resp), [].
        split; [reflexivity |]. split; [auto |]. split; [reflexivity |].
        exists resp. split; [reflexivity |]. left.
        split; [apply is_image_spec; assumption | reflexivity].
      * exists (Responded resp), []. split; [reflexivity |].
        split; [auto |]. split.
        -- intros Hi. apply is_image_spec in Hi; [congruence | exact E200].
        -- unfold auth_error. lia.
    + destruct (Z.eqb_spec (status_code resp) 503) as [E503 | N503].
      * assert (Hc : continuing (Request api_url (Responded resp))).
        { split; [unfold image_response; lia | unfold auth_error; lia]. }
        cbv zeta. destruct (attempt <? 2)%nat eqn:Ea.
        -- destruct (Z.ltb_spec (wait_of resp) 0) as [Hneg | Hpos];
             intros [= <- <- <-].
           ++ exists (Responded resp), []. auto.
           ++ exists (Responded resp), [Sleep (wait_of resp)].
              rewrite <- app_assoc. split; [reflexivity |].
              split; [| exact Hc]. right. exists (wait_of resp).
              apply Nat.ltb_lt in Ea. pose proof (wait_of_bound resp).
              repeat split; trivial; lia.
        -- intros [= <- <- <-]. exists (Responded resp), []. auto.
      * destruct (Z.eqb_spec (status_code resp) 401) as [E401 | N401];
        [| destruct (Z.eqb_spec (status_code resp) 403) as [E403 | N403]];
        cbn [orb]; intros [= <- <- <-];
        exists (Responded resp), []; (split; [reflexivity |]);
        (split; [auto |]).
        -- split; [reflexivity |]. exists resp. split; [reflexivity |].
           right. split; [left; exact E401 | reflexivity].
        -- split; [reflexivity |]. exists resp. split; [reflexivity |].
           right. split; [right; exact E403 | reflexivity].
        -- split; [unfold image_response; lia | unfold auth_error; lia].
  - intros [= <- <- <-]. exists TimedOut, []. simpl. auto.
  - intros [= <- <- <-]. exists Failed, []. simpl. auto.
Qed.

Lemma returned_after (r : option bytes) (first rest : list NetEvent) :
  Forall continuing first -> returned r rest -> returned r (first ++ rest).
Proof.
  intros Hf (before & url & resp & -> & Hb & Hr).
  exists (first ++ before), url, resp. rewrite app_assoc.
  split; [reflexivity |]. split; [| exact Hr].
  apply Forall_app. auto.
Qed.

(** The loop over the attempts on one address. *)
Lemma image_attempts_spec (api_url : str) (range : list nat) :
  forall (w w' : World) (events events' : list NetEvent)
         (res : option (option bytes)),
    image_attempts World post sleep key prompt img_w img_h api_url range
      (w, events) = (res, (w', events')) ->
    exists new k,
      events' = events ++ new /\
      (k <= length range)%nat /\ urls_of new = replicate k api_url /\
      (length (sleeps_of new) <=
       length (List.filter (fun a => a <? 2)%nat range))%nat /\
      Forall (fun d => 0 <= d <= 60) (sleeps_of new) /\
      match res with
      | Some r => returned r new
      | None => Forall continuing new
      end.
Proof.
  induction range as [| attempt range IH]; intros w w' events events' res.
  - intros [= <- <- <-]. exists [], 0%nat. rewrite app_nil_r.
    repeat split; try constructor.
  - cbn [image_attempts].
    destruct (image_attempt World post sleep key prompt img_w img_h api_url
                attempt (w, events)) as [flow [w1 events1]] eqn:Ea.
    apply image_attempt_spec in Ea.
    destruct Ea as (outcome & sl & -> & Hsl & Hflow).
    assert (Hsleeps : (length (sleeps_of (Request api_url outcome :: sl)) <=
                       length (List.filter (fun a => a <? 2)%nat [attempt]))%nat
                      /\ Forall (fun d => 0 <= d <= 60)
                           (sleeps_of (Request api_url outcome :: sl))).
    { destruct Hsl as [-> | (d & -> & Hd & Hlt & _)].
      - split; [simpl; lia | constructor].
      - apply Nat.ltb_lt in Hlt. cbn [List.filter]. rewrite Hlt.
        split; [simpl; lia | repeat constructor; lia]. }
    destruct Hsleeps as [Hcount Hrange].
    assert (Hurl : urls_of (Request api_url outcome :: sl) = [api_url])
      by (destruct Hsl as [-> | (d & -> & _)]; reflexivity).
    destruct flow as [r | |].
    + intros [= <- <- <-]. destruct Hflow as (-> & resp & -> & Hr).
      exists [Request api_url (Responded resp)], 1%nat.
      split; [reflexivity |]. split; [simpl; lia |].
      split; [reflexivity |]. split; [simpl; lia |].
      split; [constructor |].
      exists [], api_url, resp. split; [reflexivity |].
      split; [constructor | exact Hr].
    + intros [= <- <- <-].
      assert (sl = []) as ->
        by (destruct Hsl as [-> | (d & _ & _ & _ & Hf)];
            [reflexivity | discriminate]).
      exists [Request api_url outcome], 1%nat.
      split; [reflexivity |]. split; [simpl; lia |].
      split; [reflexivity |]. split; [simpl; lia |].
      split; [constructor |]. repeat constructor. exact Hflow.
    + intros H. apply IH in H.
      destruct H as (new & k & -> & Hk & Hurls & Hs & Hr & Hres).
      exists ((Request api_url outcome :: sl) ++ new), (S k).
      split; [rewrite <- !app_assoc; reflexivity |].
      split; [simpl; lia |].
      unfold urls_of, sleeps_of in *. rewrite !omap_app.
      split; [rewrite Hurl, Hurls; reflexivity |].
      split.
      { rewrite length_app.
        change (attempt :: range) with ([attempt] ++ range).
        rewrite List.filter_app, length_app. lia. }
      split; [apply Forall_app; auto |].
      assert (Hc : Forall continuing (Request api_url outcome :: sl)).
      { constructor; [exact Hflow |].
        destruct Hsl as [-> | (d & -> & _)]; repeat constructor. }
      destruct res as [r |].
      * apply returned_after; assumption.
      * apply Forall_app. auto.
Qed.

(** The loop over the addresses. *)
Lemma image_urls_spec (w w' : World) (events events' : list NetEvent)
    (r : option bytes) :
  image_urls World post sleep key prompt img_w img_h API_URLS (w, events)
    = (r, (w', events')) ->
  exists new k1 k2,
    events' = events ++ new /\
    (k1 <= 3)%nat /\ (k2 <= 3)%nat /\
    urls_of new = replicate k1 URL_1 ++ replicate k2 URL_2 /\
    (length (sleeps_of new) <= 4)%nat /\
    Forall (fun d => 0 <= d <= 60) (sleeps_of new) /\
    (returned r new \/ exhausted r new).
Proof.
  unfold API_URLS. fold URL_1 URL_2. cbn [image_urls].
  destruct (image_attempts World post sleep key prompt img_w img_h URL_1
              [0; 1; 2]%nat (w, events)) as [res1 [w1 events1]] eqn:E1.
  apply image_attempts_spec in E1.
  destruct E1 as (new1 & k1 & -> & Hk1 & Hu1 & Hs1 & Hr1 & Hres1).
  cbn in Hk1, Hs1.
  destruct res1 as [r1 |].
  - intros [= <- <- <-]. exists new1, k1, 0%nat.
    rewrite app_nil_r. repeat split; trivial; try lia. left. exact Hres1.
  - destruct (image_attempts World post sleep key prompt img_w img_h URL_2
                [0; 1; 2]%nat (w1, events ++ new1))
      as [res2 [w2 events2]] eqn:E2.
    apply image_attempts_spec in E2.
    destruct E2 as (new2 & k2 & -> & Hk2 & Hu2 & Hs2 & Hr2 & Hres2).
    cbn in Hk2, Hs2.
    assert (Hcommon :
              urls_of (new1 ++ new2) =
                replicate k1 URL_1 ++ replicate k2 URL_2 /\
              (length (sleeps_of (new1 ++ new2)) <= 4)%nat /\
              Forall (fun d => 0 <= d <= 60) (sleeps_of (new1 ++ new2))).
    { unfold urls_of, sleeps_of in *. rewrite !omap_app, length_app.
      split; [congruence |].
      split; [lia | apply Forall_app; auto]. }
    destruct Hcommon as (Hu & Hs & Hr).
    destruct res2 as [r2 |]; intros [= <- <- <-];
      exists (new1 ++ new2), k1, k2; rewrite <- app_assoc;
      repeat split; trivial.
    + left. apply returned_after; assumption.
    + right. split; [reflexivity | apply Forall_app; auto].
Qed.

End ImageService.

Lemma bounded_events_nil (k : nat) : bounded_events k [].
Proof. repeat split; try (simpl; lia). constructor. Qed.

Lemma bounded_events_app (j k : nat) (a b : list NetEvent) :
  bounded_events j a -> bounded_events k b -> bounded_events (j + k) (a ++ b).
Proof.
  intros (Ha1 & Ha2 & Ha3) (Hb1 & Hb2 & Hb3). unfold bounded_events.
  unfold urls_of, sleeps_of in *. rewrite !omap_app, !length_app.
  split; [lia |]. split; [lia |]. apply Forall_app. auto.
Qed.

Lemma bounded_events_weaken (j k : nat) (a : list NetEvent) :
  (j <= k)%nat -> bounded_events j a -> bounded_events k a.
Proof. intros Hjk (H1 & H2 & H3). repeat split; trivial; lia. Qed.

Lemma seconds_slept_bound (k : nat) (new : list NetEvent) :
  bounded_events k new -> 0 <= seconds_slept new <= 240 * Z.of_nat k.
Proof.
  intros (_ & Hn & Hall). unfold seconds_slept.
  set (l := sleeps_of new) in *. clearbody l.
  assert (H : 0 <= foldr Z.add 0 l <= 60 * Z.of_nat (length l)).
  { clear Hn. induction Hall as [| d l Hd _ IH]; [simpl; lia |].
    cbn [foldr length]. lia. }
  lia.
Qed.

(** The events of one call of [generate_image]. *)
Lemma generate_image_events (World : Type)
    (post : World -> str -> str -> str -> Z -> Z -> Posted * World)
    (sleep : World -> Z -> World) (key : str) (w : World)
    (events : list NetEvent) (prompt : str) (img_w img_h : Z) :
  exists new,
    (generate_image World post sleep key (w, events) prompt img_w img_h).2.2
      = events ++ new /\
    bounded_events 1 new.
Proof.
  unfold generate_image. destruct key as [| c key].
  - exists []. rewrite app_nil_r. split; [reflexivity |].
    apply bounded_events_nil.
  - destruct (image_urls World post sleep (c :: key) prompt img_w img_h
                API_URLS (w, events)) as [r [w' events']] eqn:E.
    apply image_urls_spec in E.
    destruct E as (new & k1 & k2 & -> & Hk1 & Hk2 & Hu & Hs & Hr & _).
    exists new. split; [reflexivity |].
    split; [| split; [lia | exact Hr]].
    rewrite Hu, length_app, !length_replicate. lia.
Qed.

Ltac bounded_sum :=
  first
    [ eassumption
    | exact (bounded_events_nil 0)
    | eapply bounded_events_app; [bounded_sum | bounded_sum] ].

Lemma generate_images_events (World : Type)
    (post : World -> str -> str -> str -> Z -> Z -> Posted * World)
    (sleep : World -> Z -> World) (key : str) (content : Content)
    (slides : gmap Z SlideData) (w : World) (events : list NetEvent) :
  exists new,
    (generate_images World post sleep key content slides (w, events)).2.2
      = events ++ new /\
    bounded_events 4 new.
Proof.
  unfold generate_images. cbv zeta. cbn [foldl].
  repeat match goal with
         | |- context [generate_image ?W ?po ?sl ?k (?w0, ?ev) ?pr ?a ?b] =>
             let new := fresh "new" in
             let E := fresh "E" in
             let B := fresh "B" in
             destruct (generate_image_events W po sl k w0 ev pr a b)
               as (new & E & B);
             destruct (generate_image W po sl k (w0, ev) pr a b)
               as [? [? ?]];
             cbn [snd fst] in E; subst
         | |- context [match ?p with [] => _ | _ :: _ => _ end] =>
             destruct p
         end;
  cbn [snd fst];
  (eexists; split;
   [ rewrite <- ?app_assoc;
     first [reflexivity | symmetry; apply app_nil_r]
   | eapply bounded_events_weaken; cycle 1; [bounded_sum | lia] ]).
Qed.

(** X12. One call of [generate_image] asks each of the two addresses at
    most three times, the first address before the second, and sleeps at
    most four times, each time between 0 and 60 seconds; without a key it
    asks nothing. *)
Theorem generate_image_is_bounded :
  forall (World : Type)
         (post : World -> str -> str -> str -> Z -> Z -> Posted * World)
         (sleep : World -> Z -> World)
         (key : str) (w : World) (events : list NetEvent)
         (prompt : str) (img_w img_h : Z),
    exists new k1 k2,
      (generate_image World post sleep key (w, events) prompt img_w img_h).2.2
        = events ++ new /\
      (k1 <= 3)%nat /\ (k2 <= 3)%nat /\
      urls_of new = replicate k1 URL_1 ++ replicate k2 URL_2 /\
      (length (sleeps_of new) <= 4)%nat /\
      Forall (fun d => 0 <= d <= 60) (sleeps_of new) /\
      (key = [] -> new = []).
Proof.
  intros World post sleep key w events prompt img_w img_h.
  unfold generate_image. destruct key as [| c key].
  - exists [], 0%nat, 0%nat. rewrite app_nil_r.
    split; [reflexivity |]. split; [lia |]. split; [lia |].
    split; [reflexivity |]. split; [simpl; lia |].
    split; [constructor | reflexivity].
  - destruct (image_urls World post sleep (c :: key) prompt img_w img_h
                API_URLS (w, events)) as [r [w' events']] eqn:E.
    apply image_urls_spec in E.
    destruct E as (new & k1 & k2 & -> & Hk1 & Hk2 & Hu & Hs & Hr & _).
    exists new, k1, k2.
    split; [reflexivity |]. split; [exact Hk1 |]. split; [exact Hk2 |].
    split; [exact Hu |]. split; [exact Hs |]. split; [exact Hr |].
    discriminate.
Qed.

(** X13. [generate_image] stops at the first response that decides: the
    events of a call end with a response of status 200 that has an image
    content type or more than 1000 bytes, whose body is the result, or
    with a response of status 401 or 403, and the result is [None]; or no
    response of these kinds came at all and the result is [None].  No
    request follows the deciding response. *)
Theorem generate_image_stops_at_deciding_response :
  forall (World : Type)
         (post : World -> str -> str -> str -> Z -> Z -> Posted * World)
         (sleep : World -> Z -> World)
         (key : str) (w : World) (events : list NetEvent)
         (prompt : str) (img_w img_h : Z),
    let out :=
      generate_image World post sleep key (w, events) prompt img_w img_h in
    exists new,
      out.2.2 = events ++ new /\
      (returned out.1 new \/ exhausted out.1 new).
Proof.
  intros World post sleep key w events prompt img_w img_h out.
  unfold out, generate_image. destruct key as [| c key].
  - exists []. rewrite app_nil_r. split; [reflexivity |].
    right. split; [reflexivity | constructor].
  - destruct (image_urls World post sleep (c :: key) prompt img_w img_h
                API_URLS (w, events)) as [r [w' events']] eqn:E.
    apply image_urls_spec in E.
    destruct E as (new & k1 & k2 & -> & _ & _ & _ & _ & _ & Hr).
    exists new. split; [reflexivity | exact Hr].
Qed.

(** A model that loads for a long time and then answers: one sleep of
    sixty seconds, and the picture of the second response. *)
Example generate_image_after_loading :
  generate_image (list Posted) scripted_post (fun w _ => w) (py "hf_key")
    ([loading 100; picture []], []) (py "a lighthouse") 1024 1024 =
  (Some [],
   ([], [Request URL_1 (loading 100); Sleep 60; Request URL_1 (picture [])])).
Proof. reflexivity. Qed.

(** ** The account views *)

Lemma cleared_logged_out (s : gmap str str) : logged_out (cleared s).
Proof.
  unfold logged_out, cleared. repeat split.
  - rewrite !lookup_delete_ne by discriminate. apply lookup_delete_eq.
  - rewrite lookup_delete_ne by discriminate. apply lookup_delete_eq.
  - apply lookup_delete_eq.
Qed.

Lemma cleared_other (s : gmap str str) (k : str) :
  k <> py "user" -> k <> py "email" -> k <> py "language" ->
  cleared s !! k = s !! k.
Proof.
  intros H1 H2 H3. unfold cleared.
  rewrite !lookup_delete_ne by congruence. reflexivity.
Qed.

Section ViewProofs.
Variable World : Type.
Variable Connection : Type.
Variable Cursor : Type.
Variable connect : World -> result Connection * World.
Variable db_cursor : Connection -> World -> result Cursor * World.
Variable is_connected : Connection -> World -> result bool * World.
Variable execute : Cursor -> str -> list Param -> World -> result unit * World.
Variable fetchone : Cursor -> World -> result (option Row) * World.
Variable commit : Connection -> World -> result unit * World.
Variable check_password_hash : str -> str -> bool.
Variable generate_password_hash : str -> World -> str * World.

Lemma keeps_session_bind {A B} (m : View World Connection Cursor A)
    (k : A -> View World Connection Cursor B) :
  keeps_session m -> (forall a, keeps_session (k a)) ->
  keeps_session (view_bind k m).
Proof.
  intros Hm Hk app r app'. unfold view_bind.
  destruct (m app) as [[a | e] app1] eqn:E.
  - intros H. apply Hk in H. apply Hm in E. congruence.
  - intros [= <- <-]. apply Hm in E. exact E.
Qed.

Lemma keeps_session_ret {A} (a : A) :
  keeps_session (view_ret (World := World) (Connection := Connection)
                   (Cursor := Cursor) a).
Proof. intros app r app' [= <- <-]. reflexivity. Qed.

Lemma keeps_session_raise {A} (e : raised) :
  keeps_session (raise (World := World) (Connection := Connection)
                   (Cursor := Cursor) (A := A) e).
Proof. intros app r app' [= <- <-]. reflexivity. Qed.

Lemma keeps_session_call {A} (f : World -> result A * World) :
  keeps_session (call (Connection := Connection) (Cursor := Cursor) f).
Proof.
  intros app r app'. unfold call.
  destruct (f _) as [[a | e] w]; intros [= <- <-]; reflexivity.
Qed.

Lemma keeps_session_reconnect : keeps_session (reconnect connect db_cursor).
Proof.
  intros app r app'. unfold reconnect.
  destruct (connect _) as [[c | e] w]; cbn.
  - destruct (db_cursor c w) as [[cur | e] w1]; intros [= <- <-]; reflexivity.
  - intros [= <- <-]. reflexivity.
Qed.

Lemma keeps_session_get_db :
  keeps_session (get_db connect db_cursor is_connected).
Proof.
  intros app r app'. unfold get_db.
  destruct (_db app) as [c |].
  - destruct (is_connected c _) as [[[|] | e] w].
    + intros [= <- <-]. reflexivity.
    + intros H. apply keeps_session_reconnect in H. exact H.
    + intros [= <- <-]. reflexivity.
  - apply keeps_session_reconnect.
Qed.

Lemma keeps_session_execute cursor statement params :
  keeps_session (cursor_execute (Connection := Connection) execute cursor
                   statement params).
Proof.
  destruct cursor; [apply keeps_session_call | apply keeps_session_raise].
Qed.

Lemma keeps_session_fetchone cursor :
  keeps_session (cursor_fetchone (Connection := Connection) fetchone cursor).
Proof.
  destruct cursor; [apply keeps_session_call | apply keeps_session_raise].
Qed.

Lemma keeps_session_commit db :
  keeps_session (db_commit (Cursor := Cursor) commit db).
Proof.
  destruct db; [apply keeps_session_call | apply keeps_session_raise].
Qed.

Lemma keeps_session_form_item form key :
  keeps_session (form_item (World := World) (Connection := Connection)
                   (Cursor := Cursor) form key).
Proof.
  unfold form_item.
  destruct (form !! key); [apply keeps_session_ret | apply keeps_session_raise].
Qed.

Lemma keeps_session_row_item row i :
  keeps_session (row_item (World := World) (Connection := Connection)
                   (Cursor := Cursor) row i).
Proof.
  unfold row_item.
  destruct (row !! i); [apply keeps_session_ret | apply keeps_session_raise].
Qed.

Lemma view_bind_Returned {A B} (m : View World Connection Cursor A)
    (k : A -> View World Connection Cursor B) app b app' :
  view_bind k m app = (Returned b, app') ->
  exists a app1, m app = (Returned a, app1) /\ k a app1 = (Returned b, app').
Proof.
  unfold view_bind. destruct (m app) as [[a | e] app1]; [eauto | discriminate].
Qed.

Ltac open_view :=
  unfold mbind, view_mbind, mret, view_mret in *.

(** *** Leaving *)

Lemma logout_spec (app : App World Connection Cursor) :
  logout app =
  (Returned (redirect (py "/")), with_session app (cleared (session app))).
Proof. reflexivity. Qed.

(** The [try] block of [delete_account] returns, and the session is as it
    was. *)
Lemma delete_block_spec (email : str) (app : App World Connection Cursor) :
  exists app',
    try_except
      (view_bind (fun '(db, cursor) =>
         view_bind (fun _ =>
           view_bind (fun _ => db_commit commit db)
             (cursor_execute execute cursor DELETE_USER [PStr email]))
           (cursor_execute execute cursor DELETE_PRESENTATIONS [PStr email]))
         (get_db connect db_cursor is_connected))
      (view_ret tt) app = (Returned tt, app') /\
    session app' = session app.
Proof.
  unfold try_except.
  match goal with |- context [match ?m app with _ => _ end] =>
    assert (Hk : keeps_session m); [| destruct (m app) as [[[] | e] app1] eqn:E]
  end.
  - apply keeps_session_bind; [apply keeps_session_get_db |].
    intros [db cursor].
    apply keeps_session_bind; [apply keeps_session_execute |]. intros _.
    apply keeps_session_bind; [apply keeps_session_execute |]. intros _.
    apply keeps_session_commit.
  - exists app1. split; [reflexivity |]. exact (Hk _ _ _ E).
  - exists app1. split; [reflexivity |]. exact (Hk _ _ _ E).
Qed.

Lemma delete_account_spec (app : App World Connection Cursor) (u : str) :
  session app !! py "user" = Some u ->
  exists app',
    delete_account_wrapped connect db_cursor is_connected execute commit app =
    (Returned (redirect (py "/")), app') /\
    session app' = cleared (session app).
Proof.
  intros Hu. unfold delete_account_wrapped. open_view.
  unfold view_bind at 1. cbn [get_session]. rewrite Hu.
  unfold view_bind at 1.
  destruct (delete_block_spec (get_default (session app !! py "email") []) app)
    as (app1 & E & Hs).
  rewrite E. eexists. split; [reflexivity |].
  cbn. rewrite Hs. reflexivity.
Qed.

(** *** The decorator *)

Lemma reconnect_offline (app : App World Connection Cursor) :
  offline connect ->
  exists w, reconnect connect db_cursor app = (Returned (None, None), with_world app w).
Proof.
  intros Hoff. unfold reconnect. destruct (Hoff (world app)) as [e He].
  destruct (connect (world app)) as [r w]. simpl in He. subst r.
  exists w. reflexivity.
Qed.

Lemma get_db_offline (app : App World Connection Cursor) :
  offline connect -> disconnected is_connected app ->
  (exists w, get_db connect db_cursor is_connected app =
             (Returned (None, None), with_world app w)) \/
  (exists e w, get_db connect db_cursor is_connected app =
               (Raised e, with_world app w)).
Proof.
  intros Hoff Hd. unfold get_db, disconnected in *.
  destruct (_db app) as [c |] eqn:Edb.
  - destruct (is_connected c (world app)) as [[[|] | e] w]; simpl in Hd.
    + contradiction.
    + left. destruct (reconnect_offline (with_world app w) Hoff) as [w' E].
      exists w'. rewrite E. reflexivity.
    + right. eauto.
  - left. apply reconnect_offline. exact Hoff.
Qed.

Lemma db_required_offline (f : View World Connection Cursor Reply)
    (app : App World Connection Cursor) :
  offline connect -> disconnected is_connected app ->
  exists w,
    db_required connect db_cursor is_connected f app =
    (Returned (page DB_ERROR_PAGE 503), with_world app w).
Proof.
  intros Hoff Hd. unfold db_required.
  destruct (get_db_offline app Hoff Hd) as [[w E] | (e & w & E)];
    rewrite E; eauto.
Qed.

(** *** The download *)

Lemma download_presentation_replies (pres_id : Z)
    (app app' : App World Connection Cursor) (r : Reply) :
  download_presentation connect db_cursor is_connected execute fetchone
    pres_id app = (Returned r, app') ->
  r = redirect (py "/login") \/ r = redirect (py "/history").
Proof.
  unfold download_presentation. open_view. intros H.
  apply view_bind_Returned in H. destruct H as (s & app1 & [= <- <-] & H).
  destruct (session app !! py "user"); [| injection H as <- _; auto].
  apply view_bind_Returned in H. destruct H as ([db cursor] & app2 & _ & H).
  apply view_bind_Returned in H. destruct H as (_ & app3 & _ & H).
  apply view_bind_Returned in H. destruct H as (row & app4 & _ & H).
  destruct (found row); [discriminate | injection H as <- _; auto].
Qed.

Lemma download_route_replies (pres_id : Z)
    (app app' : App World Connection Cursor) (r : Reply) :
  db_required connect db_cursor is_connected
    (download_presentation connect db_cursor is_connected execute fetchone
       pres_id) app = (Returned r, app') ->
  r = page DB_ERROR_PAGE 503 \/ r = redirect (py "/login") \/
  r = redirect (py "/history").
Proof.
  unfold db_required.
  destruct (get_db connect db_cursor is_connected app)
    as [[[[c |] cur] | e] app1].
  - intros H. right. exact (download_presentation_replies _ _ _ _ H).
  - intros [= <- _]. auto.
  - intros [= <- _]. auto.
Qed.

Lemma download_found_raises (pres_id : Z)
    (app app1 : App World Connection Cursor) (u : str)
    (db : option Connection) (cur : Cursor) (w2 w3 : World)
    (c : option str) (row : Row) :
  session app !! py "user" = Some u ->
  get_db connect db_cursor is_connected app = (Returned (db, Some cur), app1) ->
  execute cur SELECT_PRESENTATION
    [PInt pres_id; PStr (get_default (session app !! py "email") [])]
    (world app1) = (Ok tt, w2) ->
  fetchone cur w2 = (Ok (Some (c :: row)), w3) ->
  download_presentation connect db_cursor is_connected execute fetchone
    pres_id app = (Raised (NameError (py "prs")), with_world app1 w3).
Proof.
  intros Hu Hdb Hex Hfetch. unfold download_presentation. open_view.
  unfold view_bind at 1. cbn [get_session]. rewrite Hu.
  unfold view_bind at 1. rewrite Hdb.
  unfold view_bind at 1. cbn [cursor_execute]. unfold call at 1. rewrite Hex.
  unfold view_bind at 1. cbn [cursor_fetchone]. unfold call at 1.
  cbn [world with_world]. rewrite Hfetch. reflexivity.
Qed.

(** *** Logging in *)

Lemma view_bind_keeps {A B} (m : View World Connection Cursor A)
    (k : A -> View World Connection Cursor B) app b app' :
  keeps_session m ->
  view_bind k m app = (Returned b, app') ->
  exists a app1, session app1 = session app /\
                 k a app1 = (Returned b, app').
Proof.
  intros Hk H. apply view_bind_Returned in H.
  destruct H as (a & app1 & Hm & H). exists a, app1.
  split; [exact (Hk _ _ _ Hm) | exact H].
Qed.

Lemma form_item_Returned form key v (app app' : App World Connection Cursor) :
  form_item form key app = (Returned v, app') -> form !! key = Some v /\ app' = app.
Proof.
  unfold form_item. destruct (form !! key); intros [= <- <-]; auto.
Qed.

Lemma row_item_Returned row i v (app app' : App World Connection Cursor) :
  row_item row i app = (Returned v, app') -> row !! i = Some v /\ app' = app.
Proof.
  unfold row_item. destruct (row !! i); intros [= <- <-]; auto.
Qed.

Lemma password_accepted_spec (stored_password : option str) (password : str) :
  password_accepted check_password_hash stored_password password = true ->
  exists stored,
    stored_password = Some stored /\ stored <> [] /\
    (check_password_hash stored password = true \/ stored = password).
Proof.
  unfold password_accepted.
  destruct stored_password as [[| c s] |]; try discriminate.
  intros H. exists (c :: s). split; [reflexivity |]. split; [discriminate |].
  apply orb_true_iff in H. destruct H as [H | H]; [auto |].
  apply bool_decide_eq_true_1 in H. auto.
Qed.

Lemma cursor_fetchone_Returned (cursor : option Cursor) (row : option Row)
    (app app' : App World Connection Cursor) :
  cursor_fetchone fetchone cursor app = (Returned row, app') ->
  exists cur w, cursor = Some cur /\ fetchone cur (world app) = (Ok row, w).
Proof.
  destruct cursor as [cur |]; [| discriminate]. cbn [cursor_fetchone].
  unfold call. destruct (fetchone cur (world app)) as [[a | e] w] eqn:E;
    intros [= <- <-]. eauto.
Qed.

Lemma found_Some (user : option Row) (row : Row) :
  found user = Some row -> user = Some row.
Proof. destruct user as [[| c r] |]; intros [= <-]; reflexivity. Qed.

(** What a reply of [login] says: the redirect to the dashboard comes
    with a fetched row whose stored password is not empty and either
    verifies the password or equals it, and with the session of that
    row; the page with the error comes with the session as it was. *)
Lemma login_Returned_inv (form : gmap str str)
    (app app' : App World Connection Cursor) (r : Reply) :
  login connect db_cursor is_connected execute fetchone check_password_hash
    form app = (Returned r, app') ->
  (r = INVALID_LOGIN /\ session app' = session app) \/
  (r = redirect (py "/dashboard") /\
   exists (email password stored : str) (user : Row)
          (first_name language : option str),
     form !! py "email" = Some email /\
     form !! py "password" = Some password /\
     (exists cur w w', fetchone cur w = (Ok (Some user), w')) /\
     user !! 4%nat = Some (Some stored) /\ stored <> [] /\
     (check_password_hash stored password = true \/ stored = password) /\
     user !! 2%nat = Some first_name /\ user !! 5%nat = Some language /\
     session app' = logged_in_session (session app) email first_name language).
Proof.
  unfold login. open_view. intros H.
  apply view_bind_keeps in H; [| apply keeps_session_get_db].
  destruct H as ([db cursor] & app1 & Hs1 & H).
  apply view_bind_Returned in H. destruct H as (email & app2 & He & H).
  apply form_item_Returned in He. destruct He as [He ->].
  apply view_bind_Returned in H. destruct H as (password & app2 & Hp & H).
  apply form_item_Returned in Hp. destruct Hp as [Hp ->].
  apply view_bind_keeps in H; [| apply keeps_session_execute].
  destruct H as (_ & app2 & Hs2 & H).
  apply view_bind_Returned in H. destruct H as (user & app3 & Hf & H).
  pose proof (keeps_session_fetchone cursor _ _ _ Hf) as Hs3.
  apply cursor_fetchone_Returned in Hf. destruct Hf as (cur & w' & _ & Hf).
  destruct (found user) as [row |] eqn:Efound.
  - apply found_Some in Efound. subst user.
    apply view_bind_Returned in H. destruct H as (stored & app4 & Hst & H).
    apply row_item_Returned in Hst. destruct Hst as [Hst ->].
    destruct (password_accepted check_password_hash stored password) eqn:Ea.
    + apply password_accepted_spec in Ea.
      destruct Ea as (st & -> & Hne & Hok).
      apply view_bind_Returned in H. destruct H as (fn & app4 & Hfn & H).
      apply row_item_Returned in Hfn. destruct Hfn as [Hfn ->].
      apply view_bind_Returned in H. destruct H as (_ & app4 & [= <-] & H).
      apply view_bind_Returned in H. destruct H as (_ & app5 & [= <-] & H).
      apply view_bind_Returned in H. destruct H as (lg & app6 & Hlg & H).
      apply row_item_Returned in Hlg. destruct Hlg as [Hlg ->].
      apply view_bind_Returned in H. destruct H as (_ & app7 & [= <-] & H).
      injection H as <- <-. right. split; [reflexivity |].
      exists email, password, st, row, fn, lg.
      split; [assumption |]. split; [assumption |].
      split; [eauto |].
      repeat (split; [assumption |]).
      subst. cbn [session with_session]. unfold logged_in_session.
      rewrite Hs3, Hs2, Hs1. reflexivity.
    + injection H as <- <-. left. split; [reflexivity | congruence].
  - injection H as <- <-. left. split; [reflexivity | congruence].
Qed.

Lemma found_nonempty (row : Row) : row <> [] -> found (Some row) = Some row.
Proof. destruct row; [contradiction | reflexivity]. Qed.

(** The run of [login] once the user's row is fetched. *)
Lemma login_fetched (form : gmap str str)
    (app app1 : App World Connection Cursor) (db : option Connection)
    (cur : Cursor) (w2 w3 : World) (email password : str)
    (user : Row) (stored : option str) :
  get_db connect db_cursor is_connected app = (Returned (db, Some cur), app1) ->
  form !! py "email" = Some email -> form !! py "password" = Some password ->
  execute cur SELECT_USER [PStr email] (world app1) = (Ok tt, w2) ->
  fetchone cur w2 = (Ok (Some user), w3) ->
  user !! 4%nat = Some stored ->
  login connect db_cursor is_connected execute fetchone check_password_hash
    form app =
  if password_accepted check_password_hash stored password
  then
    match user !! 2%nat, user !! 5%nat with
    | Some first_name, Some language =>
        (Returned (redirect (py "/dashboard")),
         with_session (with_world app1 w3)
           (logged_in_session (session app1) email first_name language))
    | Some first_name, None =>
        (Raised (Builtin IndexError),
         with_session (with_world app1 w3)
           (<[py "email" := email]>
              (<[py "user" := text_or first_name email]> (session app1))))
    | None, _ => (Raised (Builtin IndexError), with_world app1 w3)
    end
  else (Returned INVALID_LOGIN, with_world app1 w3).
Proof.
  intros Hdb He Hp Hex Hfetch Hst.
  assert (Hne : user <> []) by (intros ->; discriminate).
  unfold login. open_view.
  unfold view_bind at 1. rewrite Hdb.
  unfold view_bind at 1. unfold form_item at 1. rewrite He.
  unfold mret, view_mret, view_ret.
  unfold view_bind at 1. unfold form_item at 1. rewrite Hp.
  unfold mret, view_mret, view_ret.
  unfold view_bind at 1. cbn [cursor_execute]. unfold call at 1. rewrite Hex.
  unfold view_bind at 1. cbn [cursor_fetchone]. unfold call at 1.
  cbn [world with_world]. rewrite Hfetch, (found_nonempty user Hne).
  unfold view_bind at 1. unfold row_item at 1. rewrite Hst.
  unfold mret, view_mret, view_ret.
  destruct (password_accepted check_password_hash stored password);
    [| reflexivity].
  unfold view_bind at 1. unfold row_item at 1.
  destruct (user !! 2%nat) as [first_name |]; [| reflexivity].
  unfold mret, view_mret, view_ret. unfold view_bind at 1. cbn [session_set].
  unfold view_bind at 1. cbn [session_set].
  unfold view_bind at 1. unfold row_item at 1.
  destruct (user !! 5%nat) as [language |]; reflexivity.
Qed.

(** *** Registering *)

Lemma cursor_execute_Returned (cursor : option Cursor) (statement : str)
    (params : list Param) (app app' : App World Connection Cursor) (u : unit) :
  cursor_execute execute cursor statement params app = (Returned u, app') ->
  exists cur w,
    cursor = Some cur /\
    execute cur statement params (world app) = (Ok tt, w) /\
    app' = with_world app w.
Proof.
  destruct cursor as [cur |]; [| discriminate]. cbn [cursor_execute].
  unfold call.
  destruct (execute cur statement params (world app)) as [[[] | e] w] eqn:E;
    intros [= <-]. eauto.
Qed.

Lemma register_Returned_inv (form : gmap str str)
    (app app' : App World Connection Cursor) (r : Reply) :
  register connect db_cursor is_connected execute fetchone commit
    generate_password_hash form app = (Returned r, app') ->
  (r = EMAIL_TAKEN /\ session app' = session app) \/
  (r = redirect (py "/dashboard") /\
   exists (email first_name last_name password hashed_password : str)
          (cur : Cursor) (w0 w1 w2 : World),
     form !! py "email" = Some email /\
     form !! py "first_name" = Some first_name /\
     form !! py "last_name" = Some last_name /\
     form !! py "password" = Some password /\
     generate_password_hash password w0 = (hashed_password, w1) /\
     execute cur INSERT_USER
       [PStr email; PStr first_name; PStr last_name;
        PStr (get_default (form !! py "language") (py "English"));
        PStr hashed_password] w1 = (Ok tt, w2) /\
     session app' =
       registered_session (session app) email first_name
         (get_default (form !! py "language") (py "English"))).
Proof.
  unfold register. open_view. intros H.
  apply view_bind_keeps in H; [| apply keeps_session_get_db].
  destruct H as ([db cursor] & app1 & Hs1 & H).
  apply view_bind_Returned in H. destruct H as (email & app2 & He & H).
  apply form_item_Returned in He. destruct He as [He ->].
  apply view_bind_Returned in H. destruct H as (first_name & app2 & Hfn & H).
  apply form_item_Returned in Hfn. destruct Hfn as [Hfn ->].
  apply view_bind_Returned in H. destruct H as (last_name & app2 & Hln & H).
  apply form_item_Returned in Hln. destruct Hln as [Hln ->].
  cbv zeta in H.
  apply view_bind_Returned in H. destruct H as (password & app2 & Hp & H).
  apply form_item_Returned in Hp. destruct Hp as [Hp ->].
  apply view_bind_keeps in H; [| apply keeps_session_execute].
  destruct H as (_ & app2 & Hs2 & H).
  apply view_bind_keeps in H; [| apply keeps_session_fetchone].
  destruct H as (existing & app3 & Hs3 & H).
  destruct (found existing).
  - injection H as <- <-. left. split; [reflexivity | congruence].
  - apply view_bind_Returned in H. destruct H as (hashed & app4 & Hh & H).
    unfold call in Hh.
    destruct (generate_password_hash password (world app3)) as [h w1] eqn:Eh.
    injection Hh as -> <-.
    apply view_bind_Returned in H. destruct H as (u & app5 & Hins & H).
    apply cursor_execute_Returned in Hins.
    destruct Hins as (cur & w2 & _ & Hins & ->).
    apply view_bind_keeps in H; [| apply keeps_session_commit].
    destruct H as (_ & app6 & Hs6 & H).
    apply view_bind_Returned in H. destruct H as (_ & app7 & [= <-] & H).
    apply view_bind_Returned in H. destruct H as (_ & app8 & [= <-] & H).
    apply view_bind_Returned in H. destruct H as (_ & app9 & [= <-] & H).
    injection H as <- <-. right. split; [reflexivity |].
    exists email, first_name, last_name, password, hashed, cur,
      (world app3), w1, w2.
    repeat (split; [assumption |]).
    subst. cbn [session with_session world with_world] in *.
    unfold registered_session. rewrite Hs6, Hs3, Hs2, Hs1. reflexivity.
Qed.

(** X22. What the replies of [register] mean.  The page that reports a
    taken email leaves the session as it was.  The redirect to the
    dashboard is only given after an INSERT whose last parameter is the
    hash of the password of the form, not the password; the session then
    holds the first name, the email and the language of the form, the
    language being English when the form has none. *)
Theorem register_replies_characterised :
  forall (form : gmap str str) (app app' : App World Connection Cursor)
         (r : Reply),
    register connect db_cursor is_connected execute fetchone commit
      generate_password_hash form app = (Returned r, app') ->
    (r = EMAIL_TAKEN /\ session app' = session app) \/
    (r = redirect (py "/dashboard") /\
     exists (email first_name last_name password hashed_password : str)
            (cur : Cursor) (w0 w1 w2 : World),
       form !! py "email" = Some email /\
       form !! py "first_name" = Some first_name /\
       form !! py "last_name" = Some last_name /\
       form !! py "password" = Some password /\
       generate_password_hash password w0 = (hashed_password, w1) /\
       execute cur INSERT_USER
         [PStr email; PStr first_name; PStr last_name;
          PStr (get_default (form !! py "language") (py "English"));
          PStr hashed_password] w1 = (Ok tt, w2) /\
       session app' =
         registered_session (session app) email first_name
           (get_default (form !! py "language") (py "English"))).
Proof. exact register_Returned_inv. Qed.

(** X14. The route [/delete-account] for a logged-in user never raises,
    and its reply depends on the connection alone.  When [get_db] gives
    the decorator a connection, the reply is the redirect to the home
    page and the session has lost its three keys, whatever the DELETE
    statements and the commit then do: success is reported also when
    nothing was deleted.  When [get_db] gives no connection or raises,
    the reply is the error page with status 503 and the session is as it
    was. *)
Theorem delete_account_reply_follows_connection :
  forall (app : App World Connection Cursor) (u : str),
    session app !! py "user" = Some u ->
    exists reply app',
      delete_account connect db_cursor is_connected execute commit app =
        (Returned reply, app') /\
      match get_db connect db_cursor is_connected app with
      | (Returned (Some _, _), _) =>
          reply = redirect (py "/") /\
          session app' = cleared (session app) /\ logged_out (session app')
      | _ =>
          reply = page DB_ERROR_PAGE 503 /\ session app' = session app
      end.
Proof.
  intros app u Hu. unfold delete_account, db_required.
  destruct (get_db connect db_cursor is_connected app)
    as [[[[c |] cur] | e] app1] eqn:E.
  - pose proof (keeps_session_get_db _ _ _ E) as Hs.
    rewrite <- Hs in Hu.
    destruct (delete_account_spec app1 u Hu) as (app' & E' & Hs').
    exists (redirect (py "/")), app'. split; [exact E' |].
    rewrite Hs in Hs'. split; [reflexivity |]. split; [exact Hs' |].
    rewrite Hs'. apply cleared_logged_out.
  - eexists _, app1. split; [reflexivity |]. split; [reflexivity |].
    exact (keeps_session_get_db _ _ _ E).
  - eexists _, app1. split; [reflexivity |]. split; [reflexivity |].
    exact (keeps_session_get_db _ _ _ E).
Qed.

(** X16. While the server refuses connections and the module holds no
    live connection, a view behind [db_required] is not run: the reply
    is the error page with status 503 and the session is as it was. *)
Theorem offline_database_gives_error_page :
  forall (f : View World Connection Cursor Reply)
         (app : App World Connection Cursor),
    offline connect -> disconnected is_connected app ->
    exists app',
      db_required connect db_cursor is_connected f app =
      (Returned (page DB_ERROR_PAGE 503), app') /\
      session app' = session app.
Proof.
  intros f app Hoff Hd.
  destruct (db_required_offline f app Hoff Hd) as [w E].
  exists (with_world app w). split; [exact E | reflexivity].
Qed.

(** X17. The download route never sends a file: what it returns is the
    error page of [db_required], the redirect to the login page or the
    redirect to the history page. *)
Theorem download_route_never_sends_a_file :
  forall (pres_id : Z) (app : App World Connection Cursor),
    match
      db_required connect db_cursor is_connected
        (download_presentation connect db_cursor is_connected execute
           fetchone pres_id) app
    with
    | (Returned r, _) =>
        r = page DB_ERROR_PAGE 503 \/ r = redirect (py "/login") \/
        r = redirect (py "/history")
    | (Raised _, _) => True
    end.
Proof.
  intros pres_id app.
  destruct (db_required _ _ _ _ app) as [[r | e] app'] eqn:E; [| exact I].
  exact (download_route_replies pres_id app app' r E).
Qed.

(** X18. A presentation that exists cannot be downloaded: when the
    user is logged in and the SELECT finds a row, the view raises the
    NameError of [prs]. *)
Theorem download_of_stored_presentation_raises :
  forall (pres_id : Z) (app app1 : App World Connection Cursor) (u : str)
         (db : option Connection) (cur : Cursor) (w2 w3 : World)
         (c : option str) (row : Row),
    session app !! py "user" = Some u ->
    get_db connect db_cursor is_connected app =
      (Returned (db, Some cur), app1) ->
    execute cur SELECT_PRESENTATION
      [PInt pres_id; PStr (get_default (session app !! py "email") [])]
      (world app1) = (Ok tt, w2) ->
    fetchone cur w2 = (Ok (Some (c :: row)), w3) ->
    download_presentation connect db_cursor is_connected execute fetchone
      pres_id app = (Raised (NameError (py "prs")), with_world app1 w3).
Proof. exact download_found_raises. Qed.

(** X19. What the replies of [login] mean.  The page with the error
    leaves the session as it was.  The redirect to the dashboard is only
    given for a fetched row whose stored password is not empty and
    either verifies the password of the form or is equal to it; the
    session then holds the email of the form, the first name of the row
    (the email when it is empty) and the language restored from the
    row. *)
Theorem login_replies_characterised :
  forall (form : gmap str str) (app app' : App World Connection Cursor)
         (r : Reply),
    login connect db_cursor is_connected execute fetchone
      check_password_hash form app = (Returned r, app') ->
    (r = INVALID_LOGIN /\ session app' = session app) \/
    (r = redirect (py "/dashboard") /\
     exists (email password stored : str) (user : Row)
            (first_name language : option str),
       form !! py "email" = Some email /\
       form !! py "password" = Some password /\
       (exists cur w w', fetchone cur w = (Ok (Some user), w')) /\
       user !! 4%nat = Some (Some stored) /\ stored <> [] /\
       (check_password_hash stored password = true \/ stored = password) /\
       user !! 2%nat = Some first_name /\ user !! 5%nat = Some language /\
       session app' =
         logged_in_session (session app) email first_name language).
Proof. exact login_Returned_inv. Qed.


(** X21. An account without a password cannot log in with one: when the
    stored password of the row is NULL or empty, as it is for an account
    made by the Google sign-in, every password is answered with the
    error page, the empty one too. *)
Theorem account_without_password_is_rejected :
  forall (form : gmap str str) (app app1 : App World Connection Cursor)
         (db : option Connection) (cur : Cursor) (w2 w3 : World)
         (email password : str) (user : Row) (stored : option str),
    get_db connect db_cursor is_connected app =
      (Returned (db, Some cur), app1) ->
    form !! py "email" = Some email ->
    form !! py "password" = Some password ->
    execute cur SELECT_USER [PStr email] (world app1) = (Ok tt, w2) ->
    fetchone cur w2 = (Ok (Some user), w3) ->
    user !! 4%nat = Some stored -> stored = None \/ stored = Some [] ->
    login connect db_cursor is_connected execute fetchone
      check_password_hash form app =
    (Returned INVALID_LOGIN, with_world app1 w3).
Proof.
  intros form app app1 db cur w2 w3 email password user stored
    Hdb He Hp Hex Hfetch Hst Hempty.
  rewrite (login_fetched form app app1 db cur w2 w3 email password user
             stored Hdb He Hp Hex Hfetch Hst).
  destruct Hempty as [-> | ->]; reflexivity.
Qed.

End ViewProofs.

(** X15. [logout] ends the session: the three keys of the user are gone
    and every other key is kept, and a request to [generate_ppt] with the
    session it leaves is redirected to the login page before any service
    is asked. *)
Theorem logout_ends_the_session :
  forall (World Connection Cursor : Type) (app : App World Connection Cursor)
         (generate_slide_content : str -> option Content)
         (generate_image : str -> Z -> Z -> option bytes)
         (save : Presentation -> bytes) (re_w re_s : N -> bool)
         (Database : Type)
         (get_db : Database -> result bool * Database)
         (cursor_execute :
            Database -> str -> (str * str * str * bytes) ->
            result unit * Database)
         (db_commit : Database -> result unit * Database)
         (g : Globals) (db : Database) (form : gmap str str),
    let after := (logout app).2 in
    (logout app).1 = Returned (redirect (py "/")) /\
    logged_out (session after) /\
    (forall k, k <> py "user" -> k <> py "email" -> k <> py "language" ->
               session after !! k = session app !! k) /\
    generate_ppt generate_slide_content generate_image save re_w re_s
      Database get_db cursor_execute db_commit g db (session after) form =
    (Ok (Redirect (py "/login")), g, db).
Proof.
  intros World Connection Cursor app gsc gi save re_w re_s Database get_db
    cursor_execute db_commit g db form after.
  unfold after. rewrite logout_spec. cbn [fst snd session with_session].
  split; [reflexivity |].
  pose proof (cleared_logged_out (session app)) as Hout.
  split; [exact Hout |].
  split; [intros k; apply cleared_other |].
  unfold generate_ppt. destruct Hout as [-> _]. reflexivity.
Qed.

(** Two servers.  The first accepts the connection and fails every
    statement: the account is not deleted, the reply and the session are
    those of a deletion.  The second refuses the connection: the reply
    is the error page and the user stays logged in. *)
Lemma delete_account_reply_follows_connection_witness :
  (exists app',
     delete_account (World := unit) (Connection := unit) (Cursor := unit)
       (always tt) (fun _ => always tt) (fun _ => always true)
       (fun _ _ _ => never) (fun _ => always tt) (example_app ada_session)
     = (Returned (redirect (py "/")), app') /\
     logged_out (session app')) /\
  (exists app',
     delete_account (World := unit) (Connection := unit) (Cursor := unit)
       never (fun _ => always tt) (fun _ => always true)
       (fun _ _ _ => always tt) (fun _ => always tt) (example_app ada_session)
     = (Returned (page DB_ERROR_PAGE 503), app') /\
     session app' = ada_session).
Proof.
  split.
  - destruct (delete_account_reply_follows_connection unit unit unit
                (always tt) (fun _ => always tt) (fun _ => always true)
                (fun _ _ _ => never) (fun _ => always tt)
                (example_app ada_session) (py "Ada") eq_refl)
      as (reply & app' & E & H).
    cbn in H. destruct H as (-> & _ & Hout).
    exists app'. split; assumption.
  - destruct (delete_account_reply_follows_connection unit unit unit
                never (fun _ => always tt) (fun _ => always true)
                (fun _ _ _ => always tt) (fun _ => always tt)
                (example_app ada_session) (py "Ada") eq_refl)
      as (reply & app' & E & H).
    cbn in H. destruct H as (-> & Hs).
    exists app'. split; assumption.
Defined.

Lemma offline_database_gives_error_page_witness :
  exists app',
    db_required (World := unit) (Connection := unit) (Cursor := unit)
      never (fun _ => always tt) (fun _ => always true)
      (example_login example_user
         (login_form (py "ada@example.org") STORED_HASH))
      (example_app ∅)
    = (Returned (page DB_ERROR_PAGE 503), app') /\
    session app' = ∅.
Proof.
  apply (offline_database_gives_error_page unit unit unit
           never (fun _ => always tt) (fun _ => always true)).
  - intros w. exists OtherError. reflexivity.
  - exact I.
Defined.

Lemma download_of_stored_presentation_raises_witness :
  example_download [Some (py "Lighthouses.pptx"); Some (py "PK")] 3
    (example_app ada_session) =
  (Raised (NameError (py "prs")), connected_app ada_session).
Proof.
  exact (download_of_stored_presentation_raises unit unit unit
           (always tt) (fun _ => always tt) (fun _ => always true)
           (fun _ _ _ => always tt)
           (fun _ => always (Some [Some (py "Lighthouses.pptx");
                                   Some (py "PK")]))
           3 (example_app ada_session) (connected_app ada_session)
           (py "Ada") (Some tt) tt tt tt (Some (py "Lighthouses.pptx"))
           [Some (py "PK")] eq_refl eq_refl eq_refl eq_refl).
Defined.


Lemma login_replies_characterised_witness :
  exists stored : str,
    example_user !! 4%nat = Some (Some stored) /\ stored <> [] /\
    (reject_all stored STORED_HASH = true \/ stored = STORED_HASH).
Proof.
  destruct (login_replies_characterised unit unit unit
              (always tt) (fun _ => always tt) (fun _ => always true)
              (fun _ _ _ => always tt) (fun _ => always (Some example_user))
              reject_all (login_form (py "ada@example.org") STORED_HASH)
              (example_app ∅) (connected_app
                 (logged_in_session ∅ (py "ada@example.org")
                    (Some (py "Ada")) (Some (py "es"))))
              (redirect (py "/dashboard")) eq_refl)
    as [[Hr _] | (_ & email & password & stored & user & fn & lg & He & Hp
                  & (cur & w & w' & Hf) & Hst & Hne & Hok & _)].
  - discriminate Hr.
  - injection Hf as <-. injection Hp as <-. exists stored. auto.
Defined.

(** The account of the Google sign-in, with its empty stored password,
    and the empty password. *)
Lemma account_without_password_is_rejected_witness :
  example_login google_user (login_form (py "bob@example.org") [])
    (example_app ∅) =
  (Returned INVALID_LOGIN, connected_app ∅).
Proof.
  exact (account_without_password_is_rejected unit unit unit
           (always tt) (fun _ => always tt) (fun _ => always true)
           (fun _ _ _ => always tt) (fun _ => always (Some google_user))
           reject_all (login_form (py "bob@example.org") [])
           (example_app ∅) (connected_app ∅) (Some tt) tt tt tt
           (py "bob@example.org") [] google_user (Some [])
           eq_refl eq_refl eq_refl eq_refl eq_refl eq_refl
           (or_intror eq_refl)).
Defined.

(** A new account: the session of the form, in English. *)
Lemma register_replies_characterised_witness :
  exists (app' : App unit unit unit) (hashed_password : str),
    session app' =
      registered_session ∅ (py "eve@example.org") (py "Eve") (py "English") /\
    example_hash (py "secret") tt = (hashed_password, tt).
Proof.
  destruct (register_replies_characterised unit unit unit
              (always tt) (fun _ => always tt) (fun _ => always true)
              (fun _ _ _ => always tt) (fun _ => always None)
              (fun _ => always tt) example_hash register_form
              (example_app ∅)
              (connected_app
                 (registered_session ∅ (py "eve@example.org") (py "Eve")
                    (py "English")))
              (redirect (py "/dashboard")) eq_refl)
    as [[Hr _] | (_ & email & first_name & last_name & password & hashed
                  & cur & w0 & w1 & w2 & He & Hfn & _ & Hp & Hh & _ & Hs)].
  - discriminate Hr.
  - injection He as <-. injection Hfn as <-. injection Hp as <-.
    destruct w0, w1. eauto.
Defined.

(** ** The language of the session *)

Lemma lang_map_values (lang name : str) :
  lang_map !! lang = Some name -> name ∈ LANGUAGES.
Proof.
  intros H. apply elem_of_list_to_map_2 in H.
  repeat (apply elem_of_cons in H; destruct H as [[= -> ->] | H];
          [apply list_elem_of_In; simpl; tauto |]).
  apply elem_of_nil in H. contradiction.
Qed.

Lemma restored_language_known (language : option str) :
  restored_language language ∈ LANGUAGES.
Proof.
  unfold restored_language.
  destruct (lang_map !! text_or language (py "en")) as [name |] eqn:E.
  - exact (lang_map_values _ _ E).
  - left.
Qed.

Lemma restored_language_code (name code : str) :
  LANG_CODES !! name = Some code -> restored_language (Some code) = name.
Proof.
  intros H. apply elem_of_list_to_map_2 in H.
  repeat (apply elem_of_cons in H; destruct H as [[= -> ->] | H];
          [reflexivity |]).
  apply elem_of_nil in H. contradiction.
Qed.

Lemma restored_language_name (name : str) :
  name ∈ LANGUAGES -> restored_language (Some name) = py "English".
Proof.
  intros H.
  repeat (apply elem_of_cons in H; destruct H as [-> | H]; [reflexivity |]).
  apply elem_of_nil in H. contradiction.
Qed.

(** X23. The language of a login.  When [login] accepts the password of
    a fetched row, it answers with the redirect to the dashboard and the
    session holds under ["language"] one of the thirteen languages of the
    interface: the language whose two-letter code of [LANG_CODES] the
    language column of the row holds; English when the column is NULL or
    empty; and English too when the column holds the name of a language
    instead of its code, the form in which [register] keeps the value of
    its form. *)
Theorem login_restores_language_by_code :
  forall (World Connection Cursor : Type)
         (connect : World -> result Connection * World)
         (db_cursor : Connection -> World -> result Cursor * World)
         (is_connected : Connection -> World -> result bool * World)
         (execute : Cursor -> str -> list Param -> World ->
                    result unit * World)
         (fetchone : Cursor -> World -> result (option Row) * World)
         (check_password_hash : str -> str -> bool)
         (form : gmap str str) (app app1 : App World Connection Cursor)
         (db : option Connection) (cur : Cursor) (w2 w3 : World)
         (email password : str) (user : Row)
         (stored first_name language : option str),
    get_db connect db_cursor is_connected app =
      (Returned (db, Some cur), app1) ->
    form !! py "email" = Some email ->
    form !! py "password" = Some password ->
    execute cur SELECT_USER [PStr email] (world app1) = (Ok tt, w2) ->
    fetchone cur w2 = (Ok (Some user), w3) ->
    user !! 4%nat = Some stored ->
    password_accepted check_password_hash stored password = true ->
    user !! 2%nat = Some first_name -> user !! 5%nat = Some language ->
    exists (app' : App World Connection Cursor) (name : str),
      login connect db_cursor is_connected execute fetchone
        check_password_hash form app =
        (Returned (redirect (py "/dashboard")), app') /\
      session app' !! py "language" = Some name /\
      name ∈ LANGUAGES /\
      (language = None \/ language = Some [] -> name = py "English") /\
      (forall n code,
          LANG_CODES !! n = Some code -> language = Some code -> name = n) /\
      (forall n,
          n ∈ LANGUAGES -> language = Some n -> name = py "English").
Proof.
  intros World Connection Cursor connect db_cursor is_connected execute
    fetchone check_password_hash form app app1 db cur w2 w3 email password
    user stored first_name language Hdb He Hp Hex Hfetch Hst Hacc Hfn Hlg.
  rewrite (login_fetched _ _ _ connect db_cursor is_connected execute
             fetchone check_password_hash form app app1 db cur w2 w3 email
             password user stored Hdb He Hp Hex Hfetch Hst).
  rewrite Hacc, Hfn, Hlg.
  eexists _, (restored_language language). split; [reflexivity |].
  split.
  { cbn [session with_session]. unfold logged_in_session, restored_language.
    apply lookup_insert_eq. }
  split; [apply restored_language_known |].
  split; [intros [-> | ->]; reflexivity |].
  split.
  - intros n code Hn ->. exact (restored_language_code n code Hn).
  - intros n Hn ->. exact (restored_language_name n Hn).
Qed.

(** The row of Ada holds the code ["es"]: she is logged in with Spanish. *)
Lemma login_restores_language_by_code_witness :
  exists app',
    example_login example_user
      (login_form (py "ada@example.org") STORED_HASH) (example_app ∅) =
      (Returned (redirect (py "/dashboard")), app') /\
    session app' !! py "language" = Some (py "Spanish").
Proof.
  destruct (login_restores_language_by_code unit unit unit
              (always tt) (fun _ => always tt) (fun _ => always true)
              (fun _ _ _ => always tt) (fun _ => always (Some example_user))
              reject_all (login_form (py "ada@example.org") STORED_HASH)
              (example_app ∅) (connected_app ∅) (Some tt) tt tt tt
              (py "ada@example.org") STORED_HASH example_user
              (Some STORED_HASH) (Some (py "Ada")) (Some (py "es"))
              eq_refl eq_refl eq_refl eq_refl eq_refl eq_refl eq_refl
              eq_refl eq_refl)
    as (app' & name & E & Hl & _ & _ & Hcode & _).
  exists app'. split; [exact E |]. rewrite Hl. f_equal.
  apply (Hcode (py "Spanish") (py "es")); reflexivity.
Defined.

(** ** The Google sign-in *)

Lemma google_language_known (language : option str) :
  google_language language ∈ LANGUAGES.
Proof.
  unfold google_language. destruct language as [[| c l] |]; try left.
  destruct (lang_map !! (c :: l)) as [name |] eqn:E.
  - exact (lang_map_values _ _ E).
  - left.
Qed.

Section GoogleProofs.
Variable World : Type.
Variable Connection : Type.
Variable Cursor : Type.
Variable connect : World -> result Connection * World.
Variable db_cursor : Connection -> World -> result Cursor * World.
Variable is_connected : Connection -> World -> result bool * World.
Variable execute : Cursor -> str -> list Param -> World -> result unit * World.
Variable fetchone : Cursor -> World -> result (option Row) * World.
Variable commit : Connection -> World -> result unit * World.
Variable authorize_access_token :
  World -> result (option (gmap str str)) * World.

Lemma google_sign_in_inv (user_info : gmap str str)
    (app app' : App World Connection Cursor) (r : Reply) :
  google_sign_in connect db_cursor is_connected execute fetchone commit
    user_info app = (Returned r, app') ->
  r = redirect (py "/dashboard") /\
  exists (email google_id user language : str) (existing : option Row),
    user_info !! py "email" = Some email /\
    user_info !! py "sub" = Some google_id /\
    language ∈ LANGUAGES /\
    session app' = registered_session (session app) email user language /\
    (exists cur w w', fetchone cur w = (Ok existing, w')) /\
    (found existing = None ->
     language = py "English" /\
     exists cur w w',
       execute cur INSERT_GOOGLE_USER
         [PStr email; PStr (get_default (user_info !! py "given_name") []);
          PStr (get_default (user_info !! py "family_name") []); PStr [];
          PStr google_id] w = (Ok tt, w')).
Proof.
  unfold google_sign_in. unfold mbind, view_mbind, mret, view_mret.
  intros H.
  apply view_bind_Returned in H. destruct H as (email & app1 & He & H).
  apply form_item_Returned in He. destruct He as [He ->].
  cbv zeta in H.
  apply view_bind_Returned in H. destruct H as (google_id & app1 & Hg & H).
  apply form_item_Returned in Hg. destruct Hg as [Hg ->].
  apply view_bind_keeps in H;
    [| apply (keeps_session_get_db _ _ _ connect db_cursor is_connected)].
  destruct H as ([db cursor] & app1 & Hs1 & H).
  apply view_bind_keeps in H; [| apply keeps_session_execute].
  destruct H as (_ & app2 & Hs2 & H).
  apply view_bind_Returned in H. destruct H as (existing & app3 & Hf & H).
  pose proof (keeps_session_fetchone _ _ _ fetchone cursor _ _ _ Hf) as Hs3.
  apply cursor_fetchone_Returned in Hf. destruct Hf as (cur & w' & Ecur & Hf).
  apply view_bind_Returned in H. destruct H as (u4 & app4 & Huser & H).
  apply view_bind_Returned in H. destruct H as (_ & app5 & [= <-] & H).
  apply view_bind_Returned in H. destruct H as (language & app6 & Hlang & H).
  apply view_bind_Returned in H. destruct H as (_ & app7 & [= <-] & H).
  injection H as <- <-. split; [reflexivity |].
  destruct (found existing) as [row |] eqn:Efound.
  - apply view_bind_Returned in Huser.
    destruct Huser as (stored_id & app8 & Hid & Huser).
    apply row_item_Returned in Hid. destruct Hid as [Hid ->].
    apply view_bind_keeps in Huser.
    2:{ destruct (empty_text stored_id); [| apply keeps_session_ret].
        apply keeps_session_bind; [apply keeps_session_execute |].
        intros _. apply keeps_session_commit. }
    destruct Huser as (_ & app8 & Hs8 & Huser).
    apply view_bind_Returned in Huser.
    destruct Huser as (name & app9 & Hname & Huser).
    apply row_item_Returned in Hname. destruct Hname as [Hname ->].
    injection Huser as <-.
    apply view_bind_Returned in Hlang.
    destruct Hlang as (lg & app10 & Hlg & Hlang).
    apply row_item_Returned in Hlg. destruct Hlg as [Hlg ->].
    injection Hlang as <- <-.
    exists email, google_id, (text_or name email), (google_language lg),
      existing.
    split; [exact He |]. split; [exact Hg |].
    split; [apply google_language_known |].
    split.
    { subst. cbn [session with_session]. unfold registered_session.
      rewrite Hs8, Hs3, Hs2, Hs1. reflexivity. }
    split; [eauto |]. intros E. rewrite Efound in E. discriminate E.
  - apply view_bind_Returned in Huser.
    destruct Huser as (u & app8 & Hins & Huser).
    pose proof (keeps_session_execute _ _ _ execute cursor _ _ _ _ _ Hins)
      as Hs8.
    apply cursor_execute_Returned in Hins.
    destruct Hins as (cur' & w2 & _ & Hins & _).
    apply view_bind_keeps in Huser; [| apply keeps_session_commit].
    destruct Huser as (_ & app9 & Hs9 & Huser).
    injection Huser as <-. injection Hlang as <- <-.
    exists email, google_id,
      (text_or (Some (get_default (user_info !! py "given_name") [])) email),
      (py "English"), existing.
    split; [exact He |]. split; [exact Hg |].
    split; [left |].
    split.
    { subst. cbn [session with_session]. unfold registered_session.
      rewrite Hs9, Hs8, Hs3, Hs2, Hs1. reflexivity. }
    split; [eauto |]. intros _. split; [reflexivity | eauto].
Qed.


End GoogleProofs.


(** ** Shapes stay on the slide *)

Lemma within_new_slide g bg : within_slide (_new_slide g bg).
Proof. constructor. Qed.

Lemma within_textbox s l t w h tf :
  within_slide s ->
  (0 <= l)%Q -> (0 <= t)%Q -> (l + w <= SW)%Q -> (t + h <= SH)%Q ->
  within_slide (add_textbox s l t w h tf).
Proof.
  intros Hs Hl Ht Hw Hh. unfold within_slide, add_textbox. cbn [shapes].
  apply Forall_app. split; [exact Hs |].
  repeat constructor; assumption.
Qed.

Lemma within_shape s k l t w h fl ln adj tf :
  within_slide s ->
  (0 <= l)%Q -> (0 <= t)%Q -> (l + w <= SW)%Q -> (t + h <= SH)%Q ->
  within_slide (add_shape s k l t w h fl ln adj tf).
Proof.
  intros Hs Hl Ht Hw Hh. unfold within_slide, add_shape. cbn [shapes].
  apply Forall_app. split; [exact Hs |].
  repeat constructor; assumption.
Qed.

Lemma within_picture s image l t w h :
  within_slide s ->
  (0 <= l)%Q -> (0 <= t)%Q -> (l + w <= SW)%Q -> (t + h <= SH)%Q ->
  within_slide (add_picture s image l t w h).
Proof.
  intros Hs Hl Ht Hw Hh. unfold within_slide, add_picture. cbn [shapes].
  apply Forall_app. split; [exact Hs |].
  repeat constructor; assumption.
Qed.

Lemma within_set_text_frame s tf :
  within_slide s -> within_slide (set_text_frame s tf).
Proof.
  unfold within_slide, set_text_frame. intros Hs.
  destruct (reverse (shapes s)) as [| sh before] eqn:E; [exact Hs |].
  cbn [shapes].
  assert (Hrev : shapes s = reverse before ++ [sh]).
  { rewrite <- (reverse_involutive (shapes s)), E, reverse_cons.
    reflexivity. }
  rewrite Hrev in Hs. apply Forall_app in Hs. destruct Hs as [Hb Hsh].
  apply Forall_app. split; [exact Hb |].
  inversion Hsh as [| ? ? Hon _]; subst. repeat constructor; apply Hon.
Qed.

(** The loop rule for a loop that returned. *)
Lemma for_enumerate_inv {A S} (I : S -> Prop) (bound : nat)
    (body : nat -> A -> S -> result S) :
  (forall j x s1 s2, (j < bound)%nat -> body j x s1 = Ok s2 -> I s1 -> I s2) ->
  forall (l : list A) (i : nat) (s s' : S),
    for_enumerate body i l s = Ok s' -> (i + length l <= bound)%nat ->
    I s -> I s'.
Proof.
  intros Hbody l. induction l as [| x r IH]; intros i s s' H Hlen HI.
  - injection H as <-. exact HI.
  - cbn [for_enumerate] in H. apply bind_Ok_inv in H.
    destruct H as (s1 & Hs1 & H). simpl in Hlen.
    apply (IH (Datatypes.S i) s1 s' H); [lia |].
    apply (Hbody i x s s1); [lia | exact Hs1 | exact HI].
Qed.

(** Taking one bind off a computation that returned. *)
Ltac pop H x Hx :=
  apply bind_Ok_inv in H; destruct H as (x & Hx & H); cbv beta zeta in H.

Ltac components :=
  unfold add_slide_number, add_card_with_bullets, add_card,
    add_card_left_accent, add_bullet_text, add_accent_line, add_dot_badge,
    add_circle, section_title, add_section_title, stat_banner,
    add_square_image, add_side_image, placeholder;
  cbv zeta; cbn [or_else].

Ltac place :=
  components;
  repeat first
    [ assumption
    | apply within_new_slide
    | apply within_set_text_frame
    | apply within_textbox; [| qclosed | qclosed | qclosed | qclosed]
    | apply within_shape; [| qclosed | qclosed | qclosed | qclosed]
    | apply within_picture; [| qclosed | qclosed | qclosed | qclosed] ].

(** The body of a loop at the indices below a bound. *)
Ltac below j Hj :=
  repeat (destruct j as [| j]; [| try (exfalso; lia)]).

Lemma slide_1_within g title subtitle image_bytes :
  within_slide (slide_1_hero_title g title subtitle image_bytes).
Proof.
  unfold slide_1_hero_title. cbv zeta.
  destruct image_bytes, subtitle; place.
Qed.

(** A loop that returned, with the shapes of every round on the slide. *)
Ltac loop_within bound Hloop :=
  let Hrule := fresh "Hrule" in
  pose proof (fun Hbody =>
                for_enumerate_inv within_slide bound _ Hbody _ _ _ _ Hloop)
    as Hrule;
  apply Hrule; clear Hrule;
  [ | first [lia | rewrite ?length_take; lia] | place ].

(** The cases of the number of items of a list cut at [k]. *)
Ltac by_count l k n En :=
  remember (length l) as n eqn:En;
  let Hle := fresh "Hle" in
  assert (Hle : (n <= k)%nat) by (subst n; rewrite ?length_take; lia);
  do 6 (try destruct n as [| n]); try (exfalso; lia); clear Hle.

(** The quotient of a layout at a given number of items. *)
Ltac quotient H h :=
  let Hh := fresh "Hh" in
  pop H h Hh; vm_compute in Hh; try discriminate Hh; injection Hh as <-.

(** The body of a loop of a layout, at the indices below its bound. *)
Ltac rounds :=
  let j := fresh "j" in let c := fresh "c" in
  let sa := fresh "sa" in let sb := fresh "sb" in
  let Hj := fresh "Hj" in let Hb := fresh "Hb" in let HI := fresh "HI" in
  intros j c sa sb Hj Hb HI;
  below j Hj; peel Hb; injection Hb as <-; place.

Lemma slide_2a_within g d s :
  slide_2a_dot_badge_rows g d = Ok s -> within_slide s.
Proof.
  intros H. unfold slide_2a_dot_badge_rows in H. cbv zeta in H.
  pop H title Ht. pop H cards Hc. pop H s1 Hloop. injection H as <-.
  assert (Hs1 : within_slide s1) by (loop_within 3%nat Hloop; rounds).
  place.
Qed.

Lemma slide_2b_within g d s :
  slide_2b_left_accent_cards g d = Ok s -> within_slide s.
Proof.
  intros H. unfold slide_2b_left_accent_cards, len in H. cbv zeta in H.
  pop H title Ht. pop H cards Hc.
  by_count (take 3 cards) 3%nat n En; quotient H h;
    pop H s1 Hloop; injection H as <-;
    (assert (Hs1 : within_slide s1);
     [match type of En with ?k = _ => loop_within k Hloop end; rounds |]);
    place.
Qed.

(** A layout whose card sizes are a quotient by the number of items. *)
Ltac within_by_count layout k :=
  let H := fresh "H" in
  intros H; unfold layout, len in H; cbv zeta in H;
  let title := fresh "title" in let Ht := fresh "Ht" in
  let items := fresh "items" in let Hc := fresh "Hc" in
  let n := fresh "n" in let En := fresh "En" in
  let h := fresh "h" in let s1 := fresh "s1" in
  let Hloop := fresh "Hloop" in let Hs1 := fresh "Hs1" in
  pop H title Ht; pop H items Hc;
  by_count (take k items) k n En; quotient H h;
  pop H s1 Hloop; injection H as <-;
  (assert (Hs1 : within_slide s1);
   [match type of En with ?m = _ => loop_within m Hloop end; rounds |]);
  place.

Lemma slide_3a_within g d s :
  slide_3a_three_cards_row g d = Ok s -> within_slide s.
Proof. within_by_count slide_3a_three_cards_row 3%nat. Qed.

Lemma slide_3b_within g d s :
  slide_3b_four_cards_row g d = Ok s -> within_slide s.
Proof. within_by_count slide_3b_four_cards_row 4%nat. Qed.

Lemma slide_4a_within g d image_bytes s :
  slide_4a_image_left_bullets g d image_bytes = Ok s -> within_slide s.
Proof.
  intros H. unfold slide_4a_image_left_bullets in H. peel H.
  injection H as <-. destruct image_bytes; place.
Qed.

Lemma slide_4b_within g d image_bytes s :
  slide_4b_bullets_image_right g d image_bytes = Ok s -> within_slide s.
Proof.
  intros H. unfold slide_4b_bullets_image_right in H. peel H.
  injection H as <-. destruct image_bytes; place.
Qed.

Lemma slide_5b_within g d s :
  slide_5b_stat_columns g d = Ok s -> within_slide s.
Proof. within_by_count slide_5b_stat_columns 4%nat. Qed.

Lemma slide_6a_within g d image_bytes s :
  slide_6a_bullets_banner g d image_bytes = Ok s -> within_slide s.
Proof.
  intros H. unfold slide_6a_bullets_banner in H. peel H.
  injection H as <-. destruct image_bytes; place.
Qed.

Lemma slide_7a_within g d s :
  slide_7a_two_cards g d = Ok s -> within_slide s.
Proof.
  intros H. unfold slide_7a_two_cards in H. peel H.
  injection H as <-. place.
Qed.

Lemma slide_8a_within g d s :
  slide_8a_timeline g d = Ok s -> within_slide s.
Proof. within_by_count slide_8a_timeline 4%nat. Qed.

Lemma slide_8b_within g d s :
  slide_8b_step_cards g d = Ok s -> within_slide s.
Proof. within_by_count slide_8b_step_cards 4%nat. Qed.

Lemma slide_9a_within g d image_bytes s :
  slide_9a_stat_image g d image_bytes = Ok s -> within_slide s.
Proof.
  intros H. unfold slide_9a_stat_image in H. peel H.
  injection H as <-. destruct image_bytes; place.
Qed.

Lemma slide_9b_within g d image_bytes s :
  slide_9b_quote_image g d image_bytes = Ok s -> within_slide s.
Proof.
  intros H. unfold slide_9b_quote_image in H. peel H.
  injection H as <-. destruct image_bytes; place.
Qed.

Lemma slide_10_within g d s :
  slide_10_closing_cta g d = Ok s -> within_slide s.
Proof.
  intros H. unfold slide_10_closing_cta in H. cbv zeta in H.
  pop H title Ht. pop H cards Hc. pop H s1 Hloop. injection H as <-.
  assert (Hs1 : within_slide s1) by (loop_within 3%nat Hloop; rounds).
  place.
Qed.

Lemma item_here {A} (a : A) (l : list A) : item (a :: l) 0 = Ok a.
Proof. reflexivity. Qed.

Lemma item_next {A} (a : A) (l : list A) (j : nat) :
  item (a :: l) (S j) = item l j.
Proof. reflexivity. Qed.

Lemma slide_5a_within g d s :
  slide_5a_grid_badges g d = Ok s -> within_slide s.
Proof.
  intros H. unfold slide_5a_grid_badges in H. cbv zeta in H.
  pop H title Ht. pop H cards Hc. pop H s1 Hloop. injection H as <-.
  assert (Hs1 : within_slide s1).
  { loop_within 4%nat Hloop.
    intros j c sa sb Hj Hb HI.
    below j Hj; rewrite ?item_next, !item_here in Hb;
      rewrite bind_Ok in Hb; cbv beta iota zeta in Hb;
      peel Hb; injection Hb as <-; place. }
  place.
Qed.

Lemma slide_6b_within g d image_bytes s :
  slide_6b_cards_banner g d image_bytes = Ok s -> within_slide s.
Proof.
  intros H. unfold slide_6b_cards_banner in H. cbv zeta in H.
  pop H title Ht. pop H bullets Hb.
  remember (Z.min (len bullets) 5) as n eqn:En.
  assert (Hn : n = 0 \/ n = 1 \/ n = 2 \/ n = 3 \/ n = 4 \/ n = 5)
    by (unfold len in En; lia).
  destruct Hn as [-> | [-> | [-> | [-> | [-> | ->]]]]]; quotient H h;
    pop H s1 Hloop; injection H as <-;
    (assert (Hs1 : within_slide s1);
     [match type of Hloop with
      | for_enumerate _ _ (take ?m _) _ = _ =>
          let k := eval vm_compute in m in loop_within k Hloop
      end; [rounds | destruct image_bytes; place] |]);
    place.
Qed.

(** The rows of slide 7B: the quotient, and the rows that fit. *)
Lemma row_height_facts (m : Z) (row_h : Q) :
  1 <= m -> truediv (5.00 - 1.00) (float m) = Ok row_h ->
  (0 <= row_h)%Q /\
  forall k, 0 <= k <= m -> (float k * row_h <= 4)%Q.
Proof.
  intros Hm H. rewrite truediv_nonzero in H by lia. injection H as <-.
  assert (Hpos : (0 < float m)%Q).
  { unfold float. change 0%Q with (inject_Z 0). rewrite <- Zlt_Qlt. lia. }
  split.
  - apply Qle_shift_div_l; [exact Hpos |]. vm_compute. discriminate.
  - intros k Hk.
    assert (Hkm : (float k <= float m)%Q)
      by (unfold float; rewrite <- Zle_Qle; lia).
    unfold Qdiv. rewrite Qmult_assoc. apply Qle_shift_div_r; [exact Hpos |].
    lra.
Qed.

Lemma idx_bounds (j n : nat) (row_h : Q) :
  (j < n)%nat -> (0 <= row_h)%Q ->
  (0 <= idx j * row_h)%Q /\
  (idx j * row_h + row_h <= float (Z.of_nat n) * row_h)%Q.
Proof.
  intros Hj Hh.
  assert (H0 : (0 <= idx j)%Q)
    by (unfold idx, float; change 0%Q with (inject_Z 0);
        rewrite <- Zle_Qle; lia).
  assert (H1 : (idx j + 1 <= float (Z.of_nat n))%Q).
  { unfold idx, float. change 1%Q with (inject_Z 1).
    rewrite <- inject_Z_plus, <- Zle_Qle. lia. }
  split.
  - apply Qmult_le_0_compat; assumption.
  - apply (Qmult_le_compat_r _ _ row_h) in H1; [| exact Hh].
    rewrite Qmult_plus_distr_l, Qmult_1_l in H1. exact H1.
Qed.

Lemma grid_rows_within (s s' : Slide) (x card_w row_start row_h : Q)
    (color : RGBColor) (bullets : list str) :
  grid_rows s x card_w row_start row_h color bullets = Ok s' ->
  within_slide s ->
  (0 <= x)%Q -> (x + card_w <= SW)%Q -> (0 <= row_start)%Q ->
  (0 <= row_h)%Q ->
  (row_start + float (len bullets) * row_h + 0.02 <= SH)%Q ->
  within_slide s'.
Proof.
  intros H Hs Hx Hw Hstart Hh Hfit. unfold grid_rows in H.
  pose proof (fun Hbody =>
                for_enumerate_inv within_slide (length bullets) _ Hbody
                  _ _ _ _ H) as Hrule.
  apply Hrule; clear Hrule; [| lia | exact Hs].
  intros j b sa sb Hj Hb HI. cbv beta zeta in Hb. injection Hb as <-.
  destruct (idx_bounds j (length bullets) row_h Hj Hh) as [Hlo Hhi].
  fold (len bullets) in Hhi.
  assert (Hp : (0 <= Pt 0.75 <= 0.02)%Q) by (split; qclosed).
  set (p := Pt 0.75) in *. clearbody p.
  set (jh := (idx j * row_h)%Q) in *. clearbody jh.
  set (nh := (float (len bullets) * row_h)%Q) in *. clearbody nh.
  unfold Inches.
  apply within_textbox; [| qlinear | qlinear | qlinear | qlinear].
  destruct (0 <? j)%nat; [| exact HI].
  apply within_shape; [exact HI | qlinear | qlinear | qlinear | qlinear].
Qed.

Lemma slide_7b_within g d s :
  slide_7b_grid_table g d = Ok s -> balanced_columns d -> within_slide s.
Proof.
  intros H Hbal. unfold slide_7b_grid_table in H. cbv zeta in H.
  pop H title Ht. pop H l Hl. pop H r Hr. pop H l_t Hlt. pop H lb Hlb.
  pop H row_h Hh. pop H s1 Hleft. pop H r_t Hrt. pop H rb Hrb.
  pop H s2 Hright. injection H as <-.
  apply subscript_Ok_inv in Hl, Hr, Hlb, Hrb.
  pose proof (Hbal l r lb rb Hl Hr Hlb Hrb) as Hlen.
  destruct (row_height_facts (Z.max (len lb) 1) row_h ltac:(lia) Hh)
    as [Hpos Hrows].
  assert (Hlb4 : (float (len lb) * row_h <= 4)%Q)
    by (apply Hrows; unfold len; lia).
  assert (Hrb4 : (float (len rb) * row_h <= 4)%Q)
    by (apply Hrows; unfold len in *; lia).
  assert (Hs1 : within_slide s1).
  { apply (grid_rows_within _ _ _ _ _ _ _ _ Hleft);
      [place | qclosed | qclosed | qclosed | exact Hpos | qlinear]. }
  assert (Hs2 : within_slide s2).
  { apply (grid_rows_within _ _ _ _ _ _ _ _ Hright);
      [place | qclosed | qclosed | qclosed | exact Hpos | qlinear]. }
  place.
Qed.

(** The last row of a right column that is too long for the row height
    ends below the slide. *)
Lemma slide_7b_overflow g data title lt lb rt rb :
  comparison_data data title lt lb rt rb ->
  123 * Z.max (len lb) 1 < 100 * len rb ->
  exists s, slide_7b_grid_table g data = Ok s /\ ~ within_slide s.
Proof.
  intros Hdata Hlong.
  destruct (slide_7b_rows g data title lt rt lb rb Hdata)
    as (_ & s & Hs & _ & Hright).
  exists s. split; [exact Hs |]. intros Hwithin.
  set (m := Z.max (len lb) 1) in *.
  assert (Hn : (0 < length rb)%nat) by (unfold len in Hlong; lia).
  destruct (lookup_lt_is_Some_2 rb (length rb - 1)%nat ltac:(lia)) as [b Eb].
  specialize (Hright _ _ Eb).
  unfold within_slide in Hwithin. rewrite Forall_forall in Hwithin.
  apply Hwithin in Hright. destruct Hright as (_ & _ & _ & Hbottom).
  cbn [grid_row sh_top sh_height] in Hbottom.
  set (rh := ((5.00 - 1.00) / float m)%Q) in *.
  assert (Hm : (0 < float m)%Q).
  { unfold float. change 0%Q with (inject_Z 0). rewrite <- Zlt_Qlt. lia. }
  assert (Erh : (float m * rh == 4)%Q).
  { unfold rh. rewrite Qmult_div_r; [reflexivity |].
    intros E. rewrite E in Hm. discriminate Hm. }
  assert (Hrh : (0 < rh)%Q).
  { unfold rh. apply Qlt_shift_div_l; [exact Hm |]. reflexivity. }
  assert (Hidx : (idx (length rb - 1) + 1 == float (len rb))%Q).
  { unfold idx, float, len. change 1%Q with (inject_Z 1).
    rewrite <- inject_Z_plus. f_equiv. lia. }
  assert (Hlt : (123 * float m < 100 * float (len rb))%Q).
  { unfold float. change 123%Q with (inject_Z 123).
    change 100%Q with (inject_Z 100).
    rewrite <- !inject_Z_mult, <- Zlt_Qlt. exact Hlong. }
  apply (Qmult_lt_compat_r _ _ rh) in Hlt; [| exact Hrh].
  assert (Hprod : (float (len rb) * rh ==
                   idx (length rb - 1) * rh + rh)%Q).
  { rewrite <- Hidx. ring. }
  assert (H1 : (123 * float m * rh == 123 * 4)%Q)
    by (rewrite <- Erh; ring).
  assert (H2 : (100 * float (len rb) * rh ==
                100 * (idx (length rb - 1) * rh + rh))%Q)
    by (rewrite <- Hprod; ring).
  rewrite H1, H2 in Hlt.
  set (jh := (idx (length rb - 1) * rh)%Q) in *. clearbody jh.
  clearbody rh. qlinear.
Qed.

Lemma assemble_within (g : Globals) (prs : Presentation)
    (raw_title subtitle : str) (slide_data : gmap Z SlideData)
    (designs : gmap str str) (images : gmap Z (option bytes)) :
  assemble g empty_presentation raw_title subtitle slide_data designs images
    = Ok prs ->
  (forall d, designs !! py "7" = Some (py "B") -> slide_data !! 7 = Some d ->
             balanced_columns d) ->
  Forall within_slide (slides prs).
Proof.
  intros H Hbal. apply assemble_Ok_inv in H.
  destruct H as (d2 & d3 & d4 & d5 & d6 & d7 & d8 & d9 & d10 & _ & _ & _ & _
                 & _ & H7 & _ & _ & _ & Hmap).
  simpl in Hmap.
  destruct (slides prs) as [| s1 [| s2 [| s3 [| s4 [| s5 [| s6 [| s7 [| s8
    [| s9 [| s10 [| ? ?]]]]]]]]]]] eqn:Es; try discriminate.
  simpl in Hmap.
  injection Hmap as E1 E2 E3 E4 E5 E6 E7 E8 E9 E10.
  symmetry in E2, E3, E4, E5, E6, E7, E8, E9, E10.
  assert (W7 : within_slide s7).
  { unfold chosen in E7.
    destruct (decide (designs !! py "7" = Some (py "B"))) as [HB | _].
    - apply (slide_7b_within g d7 s7 E7). exact (Hbal d7 HB H7).
    - exact (slide_7a_within g d7 s7 E7). }
  apply chosen_cases in E2, E3, E4, E5, E6, E8, E9.
  repeat (apply List.Forall_cons || apply List.Forall_nil).
  - subst s1. apply slide_1_within.
  - destruct E2; eauto using slide_2a_within, slide_2b_within.
  - destruct E3; eauto using slide_3a_within, slide_3b_within.
  - destruct E4; eauto using slide_4a_within, slide_4b_within.
  - destruct E5; eauto using slide_5a_within, slide_5b_within.
  - destruct E6; eauto using slide_6a_within, slide_6b_within.
  - exact W7.
  - destruct E8; eauto using slide_8a_within, slide_8b_within.
  - destruct E9; eauto using slide_9a_within, slide_9b_within.
  - eauto using slide_10_within.
Qed.

(** X24. Every shape of a deck lies on its slide: when the deck of a
    content document is built, no box of any of its ten slides crosses an
    edge of the slide, whatever the texts, the number of items, the
    designs and the images are, provided that slide 7, if it is drawn as
    the grid table, has at most as many rows on the right as the row
    height was computed for. *)
Theorem deck_shapes_stay_on_the_slide :
  forall (generate_image : str -> Z -> Z -> option bytes) (g : Globals)
         (user_prompt : str) (content : Content) (prs : Presentation),
    build_deck generate_image g user_prompt content = Ok prs ->
    grid_table_balanced content ->
    Forall within_slide (slides prs).
Proof.
  intros gi g user_prompt content prs H Hbal. unfold build_deck in H.
  apply bind_Ok_inv in H. destruct H as (slide_data & Hidx & H).
  pose proof (index_slides_spec (get_default (k_slides content) [])) as Hspec.
  rewrite Hidx in Hspec. destruct Hspec as [_ Hlast].
  apply (assemble_within _ _ _ _ _ _ _ H).
  intros d HB Hd. rewrite Hlast in Hd. exact (Hbal d HB Hd).
Qed.

(** The example document: its ten slides are on the slide. *)
Lemma deck_shapes_stay_on_the_slide_witness :
  exists prs,
    build_deck some_image initial_globals (py "Lighthouses") example_content
      = Ok prs /\
    Forall within_slide (slides prs).
Proof.
  destruct (build_deck some_image initial_globals (py "Lighthouses")
              example_content) as [prs | e] eqn:E;
    [| exfalso; vm_compute in E; discriminate E].
  exists prs. split; [reflexivity |].
  apply (deck_shapes_stay_on_the_slide _ _ _ _ _ E).
  intros d _ Hd. vm_compute in Hd. injection Hd as <-.
  intros l r lb rb [= <-] [= <-] [= <-] [= <-]. vm_compute. discriminate.
Defined.



(** X27. The images of one deck cost at most 24 requests and 16 sleeps:
    the block of the four images asks the service at most six times and
    sleeps at most four times for each of its at most four prompts, each
    sleep lasting between 0 and 60 seconds, so that at most 960 seconds
    are slept for one deck. *)
Theorem images_of_a_deck_are_bounded :
  forall (World : Type)
         (post : World -> str -> str -> str -> Z -> Z -> Posted * World)
         (sleep : World -> Z -> World) (key : str) (content : Content)
         (slides : gmap Z SlideData) (w : World) (events : list NetEvent),
    exists new,
      (generate_images World post sleep key content slides (w, events)).2.2
        = events ++ new /\
      (length (urls_of new) <= 24)%nat /\
      (length (sleeps_of new) <= 16)%nat /\
      Forall (fun d => 0 <= d <= 60) (sleeps_of new) /\
      0 <= seconds_slept new <= 960.
Proof.
  intros World post sleep key content slides w events.
  destruct (generate_images_events World post sleep key content slides w
              events) as (new & E & HB).
  exists new. split; [exact E |].
  pose proof (seconds_slept_bound 4 new HB) as Hsec.
  destruct HB as (H1 & H2 & H3).
  split; [lia |]. split; [lia |].
  split; [exact H3 | lia].
Qed.
